(** * r-assist: the RStudio bridge of [scripts/interact_with_rstudio.py]

    A shallow embedding of the capability validator, the code synthesizer,
    the dispatcher and the REPL turn of the bridge, with the properties the
    specification states about them; and of the session lookup, the syntax
    check, the transport script
    [scripts/communicate_with_rstudio_console_with_rpc_low_level.py] and the
    estimator [scripts/estimate_export_seconds.py], with further properties
    read off the code.

    Conventions.
    - A Python [str] is a [string]; a character stands for the code point of
      the same number, so the development covers the texts whose code points
      are below 256 (Latin-1).  On that range Python's [str.isspace], [\s],
      [\d], [str.lower] and case-insensitive matching are the functions below.
    - A function that can [raise] returns a [result]; the exception classes
      are the constructors of [exn].
    - What the script asks of the operating system (files, processes, the
      clock, temporary names) comes in as a record of observations, and what
      it does to it goes out as a list of events. *)

From Stdlib Require Import Ascii String List ZArith Lia Bool.
From stdpp Require Import base list strings pretty gmap.
Import ListNotations.

(** ** Python strings *)

Module Py.

Definition chr (n : nat) : string := String (ascii_of_nat n) EmptyString.

(** The characters a Rocq literal cannot hold as they are. *)
Definition nl : string := chr 10.
Definition dq : string := chr 34.
Definition sq : string := chr 39.
Definition bsl : string := chr 92.

Definition code (c : ascii) : nat := nat_of_ascii c.

Definition between (lo hi : nat) (c : ascii) : bool :=
  (lo <=? code c)%nat && (code c <=? hi)%nat.

(** [str.isspace] on one character: 0x09-0x0d, 0x1c-0x1f, 0x20, 0x85, 0xa0. *)
Definition isspace (c : ascii) : bool :=
  between 9 13 c || between 28 32 c || (code c =? 133)%nat || (code c =? 160)%nat.

Definition isdigit (c : ascii) : bool := between 48 57 c.

(** [str.lower] and its inverse on one character. *)
Definition lower (c : ascii) : ascii :=
  if between 65 90 c || (between 192 222 c && negb (code c =? 215)%nat)
  then ascii_of_nat (code c + 32) else c.

Definition upper (c : ascii) : ascii :=
  if between 97 122 c || (between 224 254 c && negb (code c =? 247)%nat)
  then ascii_of_nat (code c - 32) else c.

Fixpoint str_lower (s : string) : string :=
  match s with
  | EmptyString => EmptyString
  | String c s' => String (lower c) (str_lower s')
  end.

Definition eqs (a b : string) : bool := String.eqb a b.

Definition is_empty (s : string) : bool :=
  match s with EmptyString => true | _ => false end.

(** [bool(s)] *)
Definition truthy (s : string) : bool := negb (is_empty s).

Fixpoint startswith (p s : string) : bool :=
  match p, s with
  | EmptyString, _ => true
  | String a p', String b s' => Ascii.eqb a b && startswith p' s'
  | String _ _, EmptyString => false
  end.

(** [sub in s] *)
Fixpoint contains (sub s : string) : bool :=
  startswith sub s ||
  match s with
  | EmptyString => false
  | String _ s' => contains sub s'
  end.

Fixpoint drop (n : nat) (s : string) : string :=
  match n, s with
  | O, _ => s
  | S n', String _ s' => drop n' s'
  | S _, EmptyString => EmptyString
  end.

Fixpoint lstrip_by (f : ascii -> bool) (s : string) : string :=
  match s with
  | EmptyString => EmptyString
  | String c s' => if f c then lstrip_by f s' else s
  end.

(** The text without its longest tail of characters of [f]. *)
Fixpoint rstrip_by (f : ascii -> bool) (s : string) : string :=
  match s with
  | EmptyString => EmptyString
  | String c s' =>
      let r := rstrip_by f s' in
      if is_empty r && f c then EmptyString else String c r
  end.

Fixpoint endswith_char (c : ascii) (s : string) : bool :=
  match s with
  | EmptyString => false
  | String x EmptyString => Ascii.eqb x c
  | String _ s' => endswith_char c s'
  end.

(** [s[:-1]] *)
Fixpoint drop_last (s : string) : string :=
  match s with
  | EmptyString => EmptyString
  | String _ EmptyString => EmptyString
  | String x s' => String x (drop_last s')
  end.

(** [s.strip()] *)
Definition strip (s : string) : string := rstrip_by isspace (lstrip_by isspace s).

Definition is_nl (c : ascii) : bool := (code c =? 10)%nat.

(** [s.rstrip("\n")] *)
Definition rstrip_nl (s : string) : string := rstrip_by is_nl s.

(** [s.split(sep, 1)] for a non-empty [sep]: [None] when [sep] does not
    occur (Python then returns the one-element list [[s]]). *)
Fixpoint split_once (sep s : string) : option (string * string) :=
  if startswith sep s then Some (EmptyString, drop (String.length sep) s)
  else match s with
       | EmptyString => None
       | String c s' =>
           match split_once sep s' with
           | Some (a, b) => Some (String c a, b)
           | None => None
           end
       end.

(** [s.split("\n")] *)
Fixpoint split_nl (s : string) : list string :=
  match s with
  | EmptyString => [EmptyString]
  | String c s' =>
      if is_nl c then EmptyString :: split_nl s'
      else match split_nl s' with
           | l :: ls => String c l :: ls
           | [] => [String c EmptyString]
           end
  end.

(** [sep.join(parts)] *)
Fixpoint join (sep : string) (parts : list string) : string :=
  match parts with
  | [] => EmptyString
  | [p] => p
  | p :: ps => p +:+ sep +:+ join sep ps
  end.

(** [''.join(parts)] *)
Fixpoint concat_all (parts : list string) : string :=
  match parts with
  | [] => EmptyString
  | p :: ps => p +:+ concat_all ps
  end.

(** [s.replace(old, new)] for a one-character [old]. *)
Fixpoint replace_char (old : ascii) (new s : string) : string :=
  match s with
  | EmptyString => EmptyString
  | String c s' =>
      if Ascii.eqb c old then new +:+ replace_char old new s'
      else String c (replace_char old new s')
  end.

(** [s.split()] joined again without a separator: the text without its
    whitespace. *)
Fixpoint remove_spaces (s : string) : string :=
  match s with
  | EmptyString => EmptyString
  | String c s' => if isspace c then remove_spaces s' else String c (remove_spaces s')
  end.

Fixpoint all_chars (f : ascii -> bool) (s : string) : bool :=
  match s with
  | EmptyString => true
  | String c s' => f c && all_chars f s'
  end.

(** [x in {a, b, ...}] for strings. *)
Definition mem (x : string) (xs : list string) : bool := existsb (eqs x) xs.

End Py.

(** ** Regular expressions: the part of Python's [re] the script uses *)

Module Re.

Inductive item : Type :=
| Ch (c : ascii)          (* one character of a class *)
| Rg (lo hi : ascii).     (* a range lo-hi of a class *)

Inductive regex : Type :=
| Eps                      (* the empty pattern *)
| Chr (c : ascii)          (* a literal character *)
| Cls (items : list item)  (* [...] *)
| NCls (items : list item) (* [^...] *)
| Space                    (* \s *)
| Digit                    (* \d *)
| Bol                      (* ^ *)
| Eol                      (* $ *)
| Cat (r1 r2 : regex)
| Alt (r1 r2 : regex)      (* r1|r2 *)
| Star (r : regex).        (* r* *)

(** [re.IGNORECASE] and [re.MULTILINE]. *)
Record flags : Type := Flags { ignorecase : bool; multiline : bool }.

Definition no_flags : flags := Flags false false.
Definition im_flags : flags := Flags true true.

Fixpoint lit (s : string) : regex :=
  match s with
  | EmptyString => Eps
  | String c EmptyString => Chr c
  | String c s' => Cat (Chr c) (lit s')
  end.

Definition plus (r : regex) : regex := Cat r (Star r).

Fixpoint seq (rs : list regex) : regex :=
  match rs with
  | [] => Eps
  | [r] => r
  | r :: rs' => Cat r (seq rs')
  end.

Fixpoint alts (rs : list regex) : regex :=
  match rs with
  | [] => NCls [Rg (ascii_of_nat 0) (ascii_of_nat 255)]
  | [r] => r
  | r :: rs' => Alt r (alts rs')
  end.

Definition chr_eq (fl : flags) (c x : ascii) : bool :=
  if ignorecase fl then Ascii.eqb (Py.lower c) (Py.lower x) else Ascii.eqb c x.

Definition item_has (it : item) (x : ascii) : bool :=
  match it with
  | Ch c => Ascii.eqb c x
  | Rg lo hi => Py.between (Py.code lo) (Py.code hi) x
  end.

Definition in_class (fl : flags) (items : list item) (x : ascii) : bool :=
  existsb (fun it =>
    item_has it x ||
    (ignorecase fl && (item_has it (Py.lower x) || item_has it (Py.upper x)))) items.

Definition at_bol (fl : flags) (prev : option ascii) : bool :=
  match prev with
  | None => true
  | Some c => multiline fl && Py.is_nl c
  end.

Definition at_eol (fl : flags) (s : string) : bool :=
  match s with
  | EmptyString => true
  | String c s' => Py.is_nl c && (multiline fl || Py.is_empty s')
  end.

Definition one (f : ascii -> bool) (s : string)
    (k : option ascii -> string -> bool) : bool :=
  match s with
  | EmptyString => false
  | String x s' => f x && k (Some x) s'
  end.

(** Rounds of a starred pattern, [step] matching one round: after each
    round the rest may go to [k], and a further round must consume input,
    so [n] rounds suffice for a text of fewer than [n] characters. *)
Fixpoint star_loop (step : option ascii -> string -> (option ascii -> string -> bool) -> bool)
    (k : option ascii -> string -> bool) (n : nat) (prev : option ascii) (s : string)
    {struct n} : bool :=
  k prev s ||
  match n with
  | O => false
  | S n' =>
      step prev s (fun p' s' =>
        (String.length s' <? String.length s)%nat && star_loop step k n' p' s')
  end.

(** [m fl r prev s k]: some match of [r] starts at the head of [s] (whose
    preceding character is [prev]) and leaves a rest accepted by [k]. *)
Fixpoint m (fl : flags) (r : regex) (prev : option ascii) (s : string)
    (k : option ascii -> string -> bool) {struct r} : bool :=
  match r with
  | Eps => k prev s
  | Chr c => one (chr_eq fl c) s k
  | Cls items => one (in_class fl items) s k
  | NCls items => one (fun x => negb (in_class fl items x)) s k
  | Space => one Py.isspace s k
  | Digit => one Py.isdigit s k
  | Bol => at_bol fl prev && k prev s
  | Eol => at_eol fl s && k prev s
  | Cat r1 r2 => m fl r1 prev s (fun p' s' => m fl r2 p' s' k)
  | Alt r1 r2 => m fl r1 prev s k || m fl r2 prev s k
  | Star r1 => star_loop (m fl r1) k (S (String.length s)) prev s
  end.

Fixpoint search_from (fl : flags) (r : regex) (prev : option ascii) (s : string) : bool :=
  m fl r prev s (fun _ _ => true) ||
  match s with
  | EmptyString => false
  | String c s' => search_from fl r (Some c) s'
  end.

(** [re.search(r, s, flags) is not None] *)
Definition search (fl : flags) (r : regex) (s : string) : bool :=
  search_from fl r None s.

(** [re.fullmatch(r, s, flags) is not None] *)
Definition fullmatch (fl : flags) (r : regex) (s : string) : bool :=
  m fl r None s (fun _ s' => Py.is_empty s').

(** A pattern as the script writes it, with its parsed form. *)
Record pattern : Type := Pattern { src : string; ast : regex }.

End Re.

(** ** Exceptions *)

Inductive exn : Type :=
| ValidationError (msg : string)
| SendError (msg : string)
| OtherException (msg : string)    (* any other subclass of [Exception] *)
| KeyboardInterrupt.               (* not a subclass of [Exception] *)

Inductive result (A : Type) : Type :=
| Ok (a : A)
| Raise (e : exn).

Arguments Ok {A} a.
Arguments Raise {A} e.

#[global] Instance result_ret : MRet result := fun A a => Ok a.

#[global] Instance result_bind : MBind result := fun A B f r =>
  match r with
  | Ok a => f a
  | Raise e => Raise e
  end.

(** [if c: raise e] *)
Definition raise_if (c : bool) (e : exn) : result unit :=
  if c then Raise e else Ok tt.

(** [for x in xs: f(x)] for an [f] that only checks. *)
Fixpoint for_each {A : Type} (f : A -> result unit) (xs : list A) : result unit :=
  match xs with
  | [] => Ok tt
  | x :: xs' => f x ;; for_each f xs'
  end.

Definition is_ok {A : Type} (r : result A) : bool :=
  match r with Ok _ => true | Raise _ => false end.

Definition is_validation_error {A : Type} (r : result A) : bool :=
  match r with Raise (ValidationError _) => true | _ => false end.

(** ** The policy validator *)

Module Validator.
Import Re.

Definition ident_items : list item :=
  [Rg "A" "Z"; Rg "a" "z"; Rg "0" "9"; Ch "_"; Ch "."].

(** [(^|[^A-Za-z0-9_.])] *)
Definition boundary : regex := Alt Bol (NCls ident_items).

(** [\s*\(] *)
Definition open_paren : regex := Cat (Star Space) (Chr "(").

Definition words (ws : list string) : regex := alts (map lit ws).

Definition COMMON_BLOCKED_PATTERNS : list pattern :=
  [ Pattern "<<-" (lit "<<-");
    Pattern "->>" (lit "->>");
    Pattern
      "(^|[^A-Za-z0-9_.])(save|saveRDS|load|setwd|options|Sys\.setenv|library|require|attach|detach|sink|system|system2)\s*\("
      (seq [boundary;
            words ["save"; "saveRDS"; "load"; "setwd"; "options"; "Sys.setenv";
                   "library"; "require"; "attach"; "detach"; "sink"; "system";
                   "system2"];
            open_paren]);
    Pattern "(^|[^A-Za-z0-9_.])(q|quit)\s*\("
      (seq [boundary; words ["q"; "quit"]; open_paren]) ].

Definition APPEND_FILE_BLOCKED_PATTERNS : list pattern :=
  [ Pattern
      "(^|[^A-Za-z0-9_.])(write|writeLines|write\.csv|write\.csv2|write\.delim|write\.delim2|write\.table|fwrite|cat|saveRDS|save|load|file\.create|dir\.create|unlink|file\.remove|file\.rename|file\.copy|file\.append|download\.file|png|jpeg|svg|bmp|tiff|pdf|postscript|quartz|x11)\s*\("
      (seq [boundary;
            words ["write"; "writeLines"; "write.csv"; "write.csv2"; "write.delim";
                   "write.delim2"; "write.table"; "fwrite"; "cat"; "saveRDS"; "save";
                   "load"; "file.create"; "dir.create"; "unlink"; "file.remove";
                   "file.rename"; "file.copy"; "file.append"; "download.file"; "png";
                   "jpeg"; "svg"; "bmp"; "tiff"; "pdf"; "postscript"; "quartz"; "x11"];
            open_paren]) ].

(** [(^|[^A-Za-z0-9_.])source\s*\(] *)
Definition source_call : regex := seq [boundary; lit "source"; open_paren].

(** [source\s*\([^)]*local\s*=] *)
Definition source_local : regex :=
  seq [lit "source"; open_paren; Star (NCls [Ch ")"]); lit "local"; Star Space; Chr "="].

(** [source\s*\([^)]*local\s*=\s*FALSE] *)
Definition source_local_false : regex :=
  seq [source_local; Star Space; lit "FALSE"].

(** [(^|[^A-Za-z0-9_.])(\.GlobalEnv|globalenv\s*\()] *)
Definition globalenv_ref : regex :=
  Cat boundary (Alt (lit ".GlobalEnv") (Cat (lit "globalenv") open_paren)).

(** [<-] and [->] *)
Definition left_arrow : regex := lit "<-".
Definition right_arrow : regex := lit "->".

(** [(<-|->|=)\s*$] *)
Definition looks_incomplete : regex :=
  seq [alts [lit "<-"; lit "->"; lit "="]; Star Space; Eol].

(** [[A-Za-z.][A-Za-z0-9._]*] *)
Definition identifier : regex :=
  Cat (Cls [Rg "A" "Z"; Rg "a" "z"; Ch "."])
      (Star (Cls [Rg "A" "Z"; Rg "a" "z"; Rg "0" "9"; Ch "."; Ch "_"])).

(** The two classes of [identifier], as tests on one character. *)
Definition ident_start (c : ascii) : bool :=
  in_class no_flags [Rg "A" "Z"; Rg "a" "z"; Ch "."] c.

Definition ident_rest (c : ascii) : bool :=
  in_class no_flags [Rg "A" "Z"; Rg "a" "z"; Rg "0" "9"; Ch "."; Ch "_"] c.

(** [\d+] *)
Definition digits : regex := plus Digit.

Definition trim (value : string) : string := Py.strip value.

Definition contains_regex (value : string) (r : regex) : bool :=
  search im_flags r value.

Definition escape_for_r_string (value : string) : string :=
  let value := Py.replace_char "\" (Py.bsl +:+ Py.bsl) value in
  let value := Py.replace_char (ascii_of_nat 34) (Py.bsl +:+ Py.dq) value in
  let value := Py.replace_char (ascii_of_nat 10) (Py.bsl +:+ "n") value in
  value.

Definition join_lines (lines : list string) : string :=
  match lines with
  | [] => EmptyString
  | _ => Py.join Py.nl lines +:+ Py.nl
  end.

Definition indent_block (text indent : string) : string :=
  if Py.is_empty text then EmptyString
  else Py.concat_all
         (map (fun line => indent +:+ line +:+ Py.nl) (Py.split_nl (Py.rstrip_nl text))).

Definition validate_common_blocklist (code label : string) : result unit :=
  for_each (fun p =>
    raise_if (contains_regex code (ast p))
      (ValidationError (label +:+ " contains blocked pattern (" +:+ src p +:+ ").")))
    COMMON_BLOCKED_PATTERNS ;;
  if contains_regex code source_call then
    raise_if (negb (contains_regex code source_local))
      (ValidationError (label +:+ " uses source(...) without local= explicitly set.")) ;;
    raise_if (contains_regex code source_local_false)
      (ValidationError (label +:+ " uses source(..., local = FALSE), which is not allowed."))
  else Ok tt.

Definition validate_append_file_restrictions (code : string) : result unit :=
  for_each (fun p =>
    raise_if (contains_regex code (ast p))
      (ValidationError "APPEND_CODE may not write files."))
    APPEND_FILE_BLOCKED_PATTERNS.

Definition validate_assignment_free (code label : string) : result unit :=
  raise_if (contains_regex code left_arrow)
    (ValidationError (label +:+ " cannot contain '<-' assignment.")) ;;
  raise_if (contains_regex code right_arrow)
    (ValidationError (label +:+ " cannot contain right-arrow assignment.")).

Definition validate_identifier (value label : string) : result unit :=
  raise_if (negb (fullmatch no_flags identifier value))
    (ValidationError (label +:+ " '" +:+ value +:+ "' is not a valid identifier.")).

Definition validate_name_expr_spec (spec capability_label : string)
    : result (string * string) :=
  match Py.split_once ":=" spec with
  | None => Raise (ValidationError (capability_label +:+ " requires '<name>:=<expr>'."))
  | Some (name_part, expr_part) =>
      let var_name := trim name_part in
      let var_expr := trim expr_part in
      raise_if (Py.is_empty var_name || Py.is_empty var_expr)
        (ValidationError (capability_label +:+ " requires non-empty name and expression.")) ;;
      validate_identifier var_name (capability_label +:+ " name") ;;
      raise_if (contains_regex var_expr looks_incomplete)
        (ValidationError
           (capability_label +:+ " expression for '" +:+ var_name +:+ "' looks incomplete.")) ;;
      validate_common_blocklist var_expr
        (capability_label +:+ " expression '" +:+ var_name +:+ "'") ;;
      validate_assignment_free var_expr
        (capability_label +:+ " expression '" +:+ var_name +:+ "'") ;;
      Ok (var_name, var_expr)
  end.

Definition validate_append_snippet (snippet : string) : result unit :=
  raise_if (Py.is_empty (trim snippet)) (ValidationError "append cannot be empty.") ;;
  validate_common_blocklist snippet "Appended code" ;;
  raise_if (contains_regex snippet globalenv_ref)
    (ValidationError "Appended code cannot directly target .GlobalEnv.") ;;
  validate_append_file_restrictions snippet.

Definition validate_result_expr (expr : string) : result unit :=
  raise_if (Py.is_empty (trim expr)) (ValidationError "result cannot be empty.") ;;
  raise_if (Py.contains Py.nl expr) (ValidationError "result must be one line.") ;;
  validate_common_blocklist expr "Result expression" ;;
  validate_assignment_free expr "Result expression".

Definition validate_state_export_expr (expr : string) : result unit :=
  raise_if (Py.is_empty (trim expr)) (ValidationError "export cannot be empty.") ;;
  raise_if (Py.contains Py.nl expr) (ValidationError "export must be one line.") ;;
  validate_common_blocklist expr "R_STATE_EXPORT expression" ;;
  validate_assignment_free expr "R_STATE_EXPORT expression".

Definition validate_modify_global_snippet (snippet : string) : result unit :=
  raise_if (Py.is_empty (trim snippet)) (ValidationError "modify cannot be empty.") ;;
  validate_common_blocklist snippet "Global-modify code".

Definition ensure_int_string (value label : string) : result unit :=
  raise_if (negb (fullmatch no_flags digits value))
    (ValidationError (label +:+ " must be an integer.")).

End Validator.

(** ** Request state and the code synthesizer *)

Module Synth.
Import Validator.

Record State : Type := mkState {
  append_code_snippets : list string;
  result_expr : string;
  state_export_expr : string;
  create_global_specs : list string;
  modify_global_snippets : list string;
  session_dir : string;
  request_id : string;
  rpostback_bin : string;
  out_path : string;
  timeout_seconds : string;
  rpc_timeout_seconds : string;
  benchmark_mode : bool;
  benchmark_unit : string;
  print_code : bool;
  capture_output : bool
}.

(** [State()] *)
Definition initial_state : State :=
  mkState [] EmptyString EmptyString [] [] EmptyString "1" EmptyString EmptyString
          "8" "12" false "seconds" false false.

Definition clear_capabilities (self : State) : State :=
  mkState [] EmptyString EmptyString [] []
          (session_dir self) (request_id self) (rpostback_bin self) (out_path self)
          (timeout_seconds self) (rpc_timeout_seconds self)
          false (benchmark_unit self) (print_code self) (capture_output self).

Record SendContext : Type := mkSendContext {
  expect_result : bool;
  ctx_out_path : string;
  is_temp_out_path : bool;
  state_export_path : string;
  append_only : bool
}.

(** What [tempfile.mkstemp] answers when asked for the result file and for
    the export file: the fresh path, or the exception it raises. *)
Record Mkstemp : Type := mkMkstemp {
  mkstemp_result : result string;
  mkstemp_state : result string
}.

Definition nonempty {A : Type} (l : list A) : bool :=
  match l with [] => false | _ => true end.

Definition pending_capability_count (state : State) : nat :=
  (length (append_code_snippets state)
   + (if Py.truthy (result_expr state) then 1 else 0)
   + (if Py.truthy (state_export_expr state) then 1 else 0)
   + length (create_global_specs state)
   + length (modify_global_snippets state))%nat.

Definition validate_state_for_send (state : State) (tmp : Mkstemp) : result SendContext :=
  let has_append := nonempty (append_code_snippets state) in
  let has_result := Py.truthy (result_expr state) in
  let has_export := Py.truthy (state_export_expr state) in
  let has_create := nonempty (create_global_specs state) in
  let has_modify := nonempty (modify_global_snippets state) in
  let has_any := has_append || has_result || has_export || has_create || has_modify in
  let has_terminal := has_result || has_export || has_create || has_modify in
  raise_if (negb has_any) (ValidationError "At least one capability is required.") ;;
  raise_if (has_export && (has_result || has_create || has_modify))
    (ValidationError "export cannot be combined with result, create, or modify.") ;;
  raise_if (negb (Py.mem (benchmark_unit state) ["seconds"; "ms"]))
    (ValidationError "benchmark-unit must be either 'seconds' or 'ms'.") ;;
  (if benchmark_mode state then
     raise_if (negb has_result) (ValidationError "benchmark requires result.") ;;
     raise_if (has_export || has_create || has_modify)
       (ValidationError "benchmark cannot be combined with export, create, or modify.")
   else Ok tt) ;;
  ensure_int_string (request_id state) "id" ;;
  ensure_int_string (timeout_seconds state) "timeout" ;;
  ensure_int_string (rpc_timeout_seconds state) "rpc-timeout" ;;
  for_each validate_append_snippet (append_code_snippets state) ;;
  (if has_result then validate_result_expr (result_expr state) else Ok tt) ;;
  (if has_export then validate_state_export_expr (state_export_expr state) else Ok tt) ;;
  for_each (fun snippet => validate_name_expr_spec snippet "create" ;; Ok tt)
    (create_global_specs state) ;;
  for_each validate_modify_global_snippet (modify_global_snippets state) ;;
  let expect_result := has_result || has_export in
  let append_only := has_append && negb has_terminal in
  raise_if (capture_output state && negb expect_result)
    (ValidationError "capture-output requires result or export.") ;;
  '(out_path, is_temp_out_path) ←
    (if expect_result && Py.is_empty (out_path state)
     then tmp ← mkstemp_result tmp; Ok (tmp, true)
     else Ok (out_path state, false));
  state_export_path ←
    (if has_export then mkstemp_state tmp else Ok EmptyString);
  Ok (mkSendContext expect_result out_path is_temp_out_path state_export_path append_only).

(** *** The emitted R text *)

Definition nl : string := Py.nl.
Definition dq : string := Py.dq.
Definition q (s : string) : string := dq +:+ s +:+ dq.
Definition ln (s : string) : string := s +:+ nl.

Definition bench_t0_line : string :=
  ".codex_bench_t0 <- proc.time()[[" +:+ q "elapsed" +:+ "]]".

Definition bench_try_line (expr : string) : string :=
  ".codex_result_expr <- tryCatch({ invisible((" +:+ expr +:+ ")); proc.time()[["
  +:+ q "elapsed" +:+ "]] - .codex_bench_t0 }, error = function(e) e)".

Definition bench_ms_line : string :=
  "if (!inherits(.codex_result_expr, " +:+ q "error"
  +:+ ")) .codex_result_expr <- .codex_result_expr * 1000".

Definition plain_try_line (expr : string) : string :=
  ".codex_result_expr <- tryCatch((" +:+ expr +:+ "), error = function(e) e)".

Definition result_lines (state : State) : list string :=
  if Py.truthy (result_expr state) then
    if benchmark_mode state then
      [bench_t0_line; bench_try_line (result_expr state)]
      ++ (if Py.eqs (benchmark_unit state) "ms" then [bench_ms_line] else [])
    else [plain_try_line (result_expr state)]
  else [].

Definition export_lines (state : State) (send_ctx : SendContext) : list string :=
  if Py.truthy (state_export_expr state) then
    let escaped_state_path := escape_for_r_string (state_export_path send_ctx) in
    [ ".codex_state_export_path <- " +:+ q escaped_state_path;
      ".codex_state_payload <- (" +:+ state_export_expr state +:+ ")";
      "saveRDS(.codex_state_payload, file = .codex_state_export_path, compress = "
        +:+ q "xz" +:+ ")";
      "rm(.codex_state_payload)";
      "if (!file.exists(.codex_state_export_path)) stop("
        +:+ q "State export file was not created" +:+ ")";
      ".codex_result_expr <- .codex_state_export_path" ]
  else [].

Definition create_lines (name expr : string) : list string :=
  [ "if (exists(" +:+ q name +:+ ", envir = .GlobalEnv, inherits = FALSE)) stop("
      +:+ dq +:+ "CREATE_NEW_GLOBAL_VARIABLE refused: '" +:+ name
      +:+ "' already exists in .GlobalEnv" +:+ dq +:+ ")";
    name +:+ " <- (" +:+ expr +:+ ")";
    "assign(" +:+ q name +:+ ", " +:+ name +:+ ", envir = .GlobalEnv)" ].

(** The loop over [create_global_specs]: [seen], [r_create_names] and
    [r_create_lines] as it leaves them. *)
Fixpoint create_loop (specs seen r_create_names r_create_lines : list string)
    : result (list string * list string) :=
  match specs with
  | [] => Ok (r_create_names, r_create_lines)
  | spec :: rest =>
      '(name, expr) ← validate_name_expr_spec spec "create";
      raise_if (Py.mem name seen)
        (ValidationError ("create duplicates name '" +:+ name +:+ "' in one invocation.")) ;;
      create_loop rest (name :: seen) (r_create_names ++ [name])
                  (r_create_lines ++ create_lines name expr)
  end.

Definition modify_line (snippet : string) : string :=
  "eval(parse(text = " +:+ q (escape_for_r_string snippet) +:+ "), envir = .GlobalEnv)".

(** Lines 633-642 of the script. *)
Definition r_header (r_allowed_added out_path_escaped : string) (capture : bool)
    : list string :=
  [ ln ".codex_before <- ls(envir = .GlobalEnv, all.names = TRUE)";
    ln (".codex_allowed_added <- c(" +:+ r_allowed_added +:+ ")");
    ln (".codex_result_out_path <- " +:+ q out_path_escaped);
    ln (".codex_capture_output <- " +:+ (if capture then "TRUE" else "FALSE"));
    ln ".codex_captured_stdout <- character(0)";
    ln ".codex_captured_stderr <- character(0)";
    ln ".codex_result_written <- FALSE";
    ln ".codex_exec_result <- NULL";
    ln ".codex_run_core <- function() {";
    ln "  .codex_exec_result <<- with(new.env(parent = .GlobalEnv), {" ].

(** Lines 649-669: the end of [.codex_run_core], [.codex_msg] and the
    trapped run. *)
Definition r_run : list string :=
  [
    ln "}";
    ln ".codex_msg <- function(x) {";
    ln ("  if (inherits(x, " +:+ q "condition" +:+ ")) conditionMessage(x) else as.character(x)");
    ln "}";
    ln ".codex_exec_error <- tryCatch({";
    ln "  if (.codex_capture_output) {";
    ln "    .codex_captured_stdout <- capture.output({";
    ln "      withCallingHandlers({";
    ln "        .codex_run_core()";
    ln "      }, message = function(m) {";
    ln "        .codex_captured_stderr <<- c(.codex_captured_stderr, conditionMessage(m))";
    ln ("        invokeRestart(" +:+ q "muffleMessage" +:+ ")");
    ln "      }, warning = function(w) {";
    ln ("        .codex_captured_stderr <<- c(.codex_captured_stderr, paste0(" +:+ q "WARNING: " +:+ ", conditionMessage(w)))");
    ln ("        invokeRestart(" +:+ q "muffleWarning" +:+ ")");
    ln "      })";
    ln ("    }, type = " +:+ q "output" +:+ ")");
    ln "  } else {";
    ln "    .codex_run_core()";
    ln "  }";
    ln "}, error = function(e) e)" ].

(** Lines 672-703: the four blocks that write the outcome to the result
    file. *)
Definition r_serialize : list string :=
  [
    ln "if (!is.null(.codex_exec_error)) {";
    ln "  if (.codex_capture_output) {";
    ln "    dput(list(error = .codex_msg(.codex_exec_error), stdout = .codex_captured_stdout, stderr = .codex_captured_stderr), file = .codex_result_out_path)";
    ln "  } else {";
    ln ("    writeLines(paste0(" +:+ q "__ERROR__:" +:+ ", .codex_msg(.codex_exec_error)), .codex_result_out_path)");
    ln "  }";
    ln "  .codex_result_written <- TRUE";
    ln "}";
    ln "if (is.null(.codex_exec_error) && is.null(.codex_exec_result)) {";
    ln "  if (.codex_capture_output) {";
    ln ("    dput(list(error = " +:+ q "no result produced" +:+ ", stdout = .codex_captured_stdout, stderr = .codex_captured_stderr), file = .codex_result_out_path)");
    ln "  } else {";
    ln ("    writeLines(" +:+ q "__ERROR__: no result produced" +:+ ", .codex_result_out_path)");
    ln "  }";
    ln "  .codex_result_written <- TRUE";
    ln "}";
    ln ("if (is.null(.codex_exec_error) && inherits(.codex_exec_result, " +:+ q "error" +:+ ")) {");
    ln "  if (.codex_capture_output) {";
    ln "    dput(list(error = .codex_msg(.codex_exec_result), stdout = .codex_captured_stdout, stderr = .codex_captured_stderr), file = .codex_result_out_path)";
    ln "  } else {";
    ln ("    writeLines(paste0(" +:+ q "__ERROR__:" +:+ ", .codex_msg(.codex_exec_result)), .codex_result_out_path)");
    ln "  }";
    ln "  .codex_result_written <- TRUE";
    ln "}";
    ln ("if (is.null(.codex_exec_error) && !inherits(.codex_exec_result, " +:+ q "error" +:+ ") && !is.null(.codex_exec_result)) {");
    ln "  if (.codex_capture_output) {";
    ln "    dput(list(result = .codex_exec_result, stdout = .codex_captured_stdout, stderr = .codex_captured_stderr), file = .codex_result_out_path)";
    ln "  } else {";
    ln "    dput(.codex_exec_result, file = .codex_result_out_path)";
    ln "  }";
    ln "  .codex_result_written <- TRUE";
    ln "}" ].

(** Lines 705-707: the trapped error is raised again. *)
Definition r_reraise : list string :=
  [
    ln "if (!is.null(.codex_exec_error)) {";
    ln "  stop(.codex_msg(.codex_exec_error))";
    ln "}" ].

(** Lines 708-715: the namespace check. *)
Definition r_leak_check : list string :=
  [
    ln ".codex_after <- ls(envir = .GlobalEnv, all.names = TRUE)";
    ln ".codex_new <- setdiff(.codex_after, .codex_before)";
    ln ".codex_removed <- setdiff(.codex_before, .codex_after)";
    ln ".codex_unexpected_new <- setdiff(.codex_new, .codex_allowed_added)";
    ln ".codex_unexpected_removed <- setdiff(.codex_removed, character(0))";
    ln "if (length(.codex_unexpected_new) > 0 || length(.codex_unexpected_removed) > 0) {";
    ln ("  stop(" +:+ q "Global environment leak detected" +:+ ")");
    ln "}" ].

(** [r_exec_lines] once the first three blocks of [build_r_code] have run. *)
Definition exec_lines (state : State) (send_ctx : SendContext) : list string :=
  append_code_snippets state ++ result_lines state ++ export_lines state send_ctx.

Definition build_r_code (state : State) (send_ctx : SendContext) : result string :=
  let r_exec_lines := exec_lines state send_ctx in
  '(r_create_names, r_create_lines) ← create_loop (create_global_specs state) [] [] [];
  let r_modify_lines := map modify_line (modify_global_snippets state) in
  let r_allowed_added := Py.join "," (map q r_create_names) in
  let r_exec_block := join_lines r_exec_lines in
  let r_create_block := join_lines r_create_lines in
  let r_modify_block := join_lines r_modify_lines in
  let out_path_escaped :=
    if expect_result send_ctx then escape_for_r_string (ctx_out_path send_ctx)
    else EmptyString in
  Ok (Py.concat_all
        (r_header r_allowed_added out_path_escaped (capture_output state)
         ++ [ indent_block r_exec_block "    ";
              ln "  })";
              (if Py.truthy r_create_block then indent_block r_create_block "  "
               else EmptyString);
              (if Py.truthy r_modify_block then indent_block r_modify_block "  "
               else EmptyString) ]
         ++ r_run
         ++ (if expect_result send_ctx then r_serialize else [])
         ++ r_reraise
         ++ r_leak_check)).

End Synth.

(** ** Dispatch: sending a request and waiting for its result *)

Module Dispatch.
Import Validator Synth.

(** What the script does to the outside, in the order it does it. *)
Inductive event : Type :=
| Call_resolve_session_dir
| Call_load_session_environment (session_dir : string)
| Call_build_r_code
| Call_check_r_code_parse (r_code : string)
| Call_find_rpc_script
| Write_text (path text : string)
| Read_executing_flag
| Run_subprocess (cmd : list string)
| Print_stdout (text : string)
| Print_stderr (text : string)
| Poll_result_file (path : string)
| Sleep_200ms
| Call_diagnose_result_wait_timeout
| Unlink (path : string).

(** A finished [subprocess.run]. *)
Record Proc : Type := mkProc {
  returncode : Z;
  stdout : string;
  stderr : string
}.

(** A file read with [read_text]: absent, unreadable ([OSError]) or its text. *)
Inductive file_read : Type :=
| Absent
| Unreadable
| Text (content : string).

(** The two spellings of the session's property directory. *)
Record PropertyFiles : Type := mkPropertyFiles {
  properites_executing : file_read;
  properties_executing : file_read
}.

(** What the timeout diagnoser finds when it looks. *)
Record DiagObs : Type := mkDiagObs {
  d_executing : PropertyFiles;
  d_out_exists : bool;
  d_out_size : option Z;           (* [st_size], [None] when [stat] raises [OSError] *)
  d_pid_value : string;            (* [RSTUDIO_SESSION_PID], empty when unset *)
  d_proc_dir_exists : bool;        (* [/proc/<pid>] exists *)
  d_ps : Proc;                     (* [ps -p <pid> -o args=] *)
  d_state_file : option string     (* [session-persistent-state], [None] when absent *)
}.

(** What one dispatch finds outside the script. *)
Record World : Type := mkWorld {
  w_mkstemp : Mkstemp;
  w_resolve_session_dir : result string;
  w_load_session_environment : result unit;
  w_check_r_code_parse : result unit;
  w_find_rpc_script : result string;
  w_write_out : result unit;
  w_executing : PropertyFiles;
  w_which_timeout : bool;          (* [shutil.which("timeout") is not None] *)
  w_rpc_proc : result Proc;
  w_polls : list (option string);  (* each round begun before the deadline: the text of
                                      the result file once it is there and not empty *)
  w_final_poll : bool;             (* after the loop: the file is there and not empty *)
  w_diag : DiagObs
}.

Definition get_session_property_file (files : PropertyFiles) : option file_read :=
  match properites_executing files, properties_executing files with
  | Absent, Absent => None
  | Absent, fixed => Some fixed
  | typo, _ => Some typo
  end.

(** The text of the executing flag with its whitespace removed; empty when
    the file is absent or unreadable. *)
Definition read_executing (files : PropertyFiles) : string :=
  match get_session_property_file files with
  | Some (Text content) => Py.remove_spaces content
  | _ => EmptyString
  end.

Definition check_session_busy_before_rpc (files : PropertyFiles) : bool * list event :=
  if Py.eqs (read_executing files) "1" then
    (false,
     [Read_executing_flag;
      Print_stderr (ln "RStudio session appears busy (executing=1).");
      Print_stderr (ln "Finish or interrupt the current console task, then retry.")])
  else (true, [Read_executing_flag]).

Definition get_executing_flag_value (files : PropertyFiles) : string :=
  match get_session_property_file files with
  | None => "<missing>"
  | Some _ =>
      let executing_value := read_executing files in
      if Py.truthy executing_value then executing_value else "<missing>"
  end.

Definition result_file_size_bytes (size : option Z) : Z :=
  match size with
  | Some n => n
  | None => 0%Z
  end.

Definition session_pid_is_alive (pid : string) (proc_dir_exists : bool) (ps : Proc) : bool :=
  if Py.is_empty pid || negb (Re.fullmatch Re.no_flags digits pid) then false
  else if negb proc_dir_exists then false
  else if negb (returncode ps =? 0)%Z then false
  else Py.contains "/usr/lib/rstudio-server/bin/rsession" (stdout ps).

(** One line against the pattern of [extract_kv_value] (the key, an equals
    sign, and a quoted value that ends the line): the text between the
    opening quote and the quote that closes the line. *)
Definition kv_line (key line : string) : option string :=
  let head := key +:+ "=" +:+ dq in
  if Py.startswith head line then
    let rest := Py.drop (String.length head) line in
    if Py.endswith_char (ascii_of_nat 34) rest then Some (Py.drop_last rest) else None
  else None.

Fixpoint first_kv (key : string) (lines : list string) : string :=
  match lines with
  | [] => EmptyString
  | line :: rest =>
      match kv_line key line with
      | Some v => v
      | None => first_kv key rest
      end
  end.

Definition extract_kv_value (file : option string) (key : string) : string :=
  match file with
  | None => EmptyString
  | Some content => first_kv key (Py.split_nl content)
  end.

Definition pid_state_of (d : DiagObs) : string :=
  let pid_value := d_pid_value d in
  if Py.truthy pid_value then
    if session_pid_is_alive pid_value (d_proc_dir_exists d) (d_ps d) then "alive"
    else if Re.fullmatch Re.no_flags digits pid_value then "dead_or_not_rsession"
    else "invalid"
  else "<missing>".

Definition abend_value_of (d : DiagObs) : string :=
  let abend_value := extract_kv_value (d_state_file d) "abend" in
  if Py.truthy abend_value then abend_value else "<missing>".

(** Lines 355-365: the cause tags, in the order they are appended. *)
Definition causes_from (executing_value : string) (out_exists : bool) (out_size : Z)
    (pid_state abend_value : string) : list string :=
  let causes :=
    ((if Py.eqs executing_value "1" then ["compute_still_running"] else [])
     ++ (if out_exists && (out_size =? 0)%Z && negb (Py.eqs executing_value "1")
         then ["handoff_or_write_delay"] else [])
     ++ (if negb out_exists then ["output_path_unavailable"] else [])
     ++ (if Py.mem pid_state ["dead_or_not_rsession"; "invalid"] || Py.eqs abend_value "1"
         then ["session_liveness_issue"] else [])) in
  match causes with
  | [] => ["unknown"]
  | _ => causes
  end.

Definition timeout_causes (d : DiagObs) : list string :=
  causes_from (get_executing_flag_value (d_executing d)) (d_out_exists d)
              (result_file_size_bytes (d_out_size d)) (pid_state_of d) (abend_value_of d).

Definition diagnose_result_wait_timeout (d : DiagObs) : list event :=
  let executing_value := get_executing_flag_value (d_executing d) in
  let out_exists := d_out_exists d in
  let out_size := result_file_size_bytes (d_out_size d) in
  let pid_value := d_pid_value d in
  let pid_state := pid_state_of d in
  let abend_value := abend_value_of d in
  let causes := causes_from executing_value out_exists out_size pid_state abend_value in
  ([ Call_diagnose_result_wait_timeout;
     Print_stderr (ln ("Timeout diagnostics: causes=" +:+ Py.join "," causes));
     Print_stderr (ln ("Timeout diagnostics: executing=" +:+ executing_value
       +:+ " output_exists=" +:+ (if out_exists then "1" else "0")
       +:+ " output_size_bytes=" +:+ pretty out_size
       +:+ " session_pid=" +:+ (if Py.truthy pid_value then pid_value else "<missing>")
       +:+ "(" +:+ pid_state +:+ ") abend=" +:+ abend_value)) ]
   ++ (if Py.eqs executing_value "1" then
         [ Print_stderr (ln "Likely cause: R code is still running in the live console.");
           Print_stderr (ln "Action: interrupt or wait for the current console task before retrying.") ]
       else [])
   ++ (if out_exists && (out_size =? 0)%Z && negb (Py.eqs executing_value "1") then
         [ Print_stderr (ln "Possible cause: compute finished but result handoff/file write lagged.");
           Print_stderr (ln "Action: increase timeout, reduce payload size, and retry once.") ]
       else [])
   ++ (if negb out_exists then
         [ Print_stderr (ln "Possible cause: output file was removed or inaccessible while waiting.");
           Print_stderr (ln "Action: verify /tmp availability and file permissions, then retry.") ]
       else [])
   ++ (if Py.mem pid_state ["dead_or_not_rsession"; "invalid"] || Py.eqs abend_value "1" then
         [ Print_stderr (ln "Possible cause: session snapshot points to a dead/restarted rsession.");
           Print_stderr (ln "Action: re-resolve live runtime env vars and retry once.") ]
       else [])).

(** [run_rpc_send]: the return code and what was run and printed; the
    exception when [subprocess.run] raises. *)
Definition run_rpc_send (rpc_script : string) (rpc_args : list string)
    (suppress_stdout : bool) (rpc_timeout_seconds : string)
    (use_timeout : bool) (run : result Proc) : result Z * list event :=
  let cmd := ("python3" :: rpc_script :: rpc_args) in
  let argv :=
    if use_timeout then
      (["timeout"; "--foreground"; "--signal=TERM"; "--kill-after=2";
        rpc_timeout_seconds +:+ "s"] ++ cmd)
    else cmd in
  match run with
  | Raise e => (Raise e, [Run_subprocess argv])
  | Ok proc =>
      let out :=
        if negb suppress_stdout && Py.truthy (stdout proc)
        then [Print_stdout (stdout proc)] else [] in
      let err :=
        if Py.truthy (stderr proc) then [Print_stderr (stderr proc)] else [] in
      if (returncode proc =? 124)%Z || (returncode proc =? 137)%Z then
        (Ok 124%Z,
         ([Run_subprocess argv] ++ out ++ err
          ++ [Print_stderr (ln ("RPC send timed out after " +:+ rpc_timeout_seconds +:+ "s."))]))
      else (Ok (returncode proc), ([Run_subprocess argv] ++ out ++ err))
  end.

(** The polling loop of [send_current_state]: it ends when the deadline
    has passed (no round is left) or by [break] once the file has text. *)
Fixpoint poll_loop (path : string) (polls : list (option string)) : list event :=
  match polls with
  | [] => []
  | Some content :: _ => [Poll_result_file path; Print_stdout content]
  | None :: rest => Poll_result_file path :: Sleep_200ms :: poll_loop path rest
  end.

(** The body of the [try] of [send_current_state]. *)
Definition send_body (state : State) (send_ctx : SendContext) (w : World)
    : result unit * list event :=
  match w_resolve_session_dir w with
  | Raise e => (Raise e, [Call_resolve_session_dir])
  | Ok session_dir =>
  let ev := [Call_resolve_session_dir; Call_load_session_environment session_dir] in
  match w_load_session_environment w with
  | Raise e => (Raise e, ev)
  | Ok _ =>
  let ev := (ev ++ [Call_build_r_code]) in
  match build_r_code state send_ctx with
  | Raise e => (Raise e, ev)
  | Ok r_code =>
  let ev :=
    (ev ++ (if append_only send_ctx then
              [Print_stderr (ln ("Warning: APPEND-only send has no structured return value. "
                 +:+ "Add result:/export:/create:/modify: if you need output."))]
            else [])
        ++ [Call_check_r_code_parse r_code]) in
  match w_check_r_code_parse w with
  | Raise e => (Raise e, ev)
  | Ok _ =>
  let ev :=
    (ev ++ (if print_code state then
              [Print_stderr (ln "Generated R code:"); Print_stderr (ln r_code)]
            else [])
        ++ [Call_find_rpc_script]) in
  match w_find_rpc_script w with
  | Raise e => (Raise e, ev)
  | Ok rpc_script =>
  let rpc_args :=
    (["--code"; r_code; "--isolate-code"; "1"; "--id"; request_id state;
      "--rpc-timeout"; rpc_timeout_seconds state; "--session-dir"; session_dir]
     ++ (if Py.truthy (rpostback_bin state)
         then ["--rpostback-bin"; rpostback_bin state] else [])) in
  let written :=
    if expect_result send_ctx
    then (w_write_out w, [Write_text (ctx_out_path send_ctx) EmptyString])
    else (Ok tt, []) in
  let ev := (ev ++ written.2) in
  match written.1 with
  | Raise e => (Raise e, ev)
  | Ok _ =>
  let busy := check_session_busy_before_rpc (w_executing w) in
  let ev := (ev ++ busy.2) in
  if negb busy.1 then (Raise (SendError "Failed busy precheck."), ev) else
  let suppress_stdout := expect_result send_ctx in
  let sent :=
    run_rpc_send rpc_script rpc_args suppress_stdout (rpc_timeout_seconds state)
                 (w_which_timeout w) (w_rpc_proc w) in
  let ev := (ev ++ sent.2) in
  match sent.1 with
  | Raise e => (Raise e, ev)
  | Ok rc =>
  if negb (rc =? 0)%Z then (Raise (SendError "Failed to send RPC request."), ev) else
  if expect_result send_ctx then
    let ev := (ev ++ poll_loop (ctx_out_path send_ctx) (w_polls w)
                  ++ [Poll_result_file (ctx_out_path send_ctx)]) in
    if negb (w_final_poll w) then
      (Raise (SendError "Timed out waiting for result file."),
       (ev ++ [Print_stderr (ln ("Timed out waiting for result file: " +:+ ctx_out_path send_ctx))]
           ++ diagnose_result_wait_timeout (w_diag w)))
    else (Ok tt, ev)
  else (Ok tt, ev)
  end end end end end end end.

(** The [finally] of [send_current_state]. *)
Definition send_cleanup (send_ctx : SendContext) (success : bool) : list event :=
  ((if is_temp_out_path send_ctx && Py.truthy (ctx_out_path send_ctx)
    then [Unlink (ctx_out_path send_ctx)] else [])
   ++ (if negb success && Py.truthy (state_export_path send_ctx)
       then [Unlink (state_export_path send_ctx)] else [])).

Definition send_current_state (state : State) (w : World) : result unit * list event :=
  match validate_state_for_send state (w_mkstemp w) with
  | Raise e => (Raise e, [])
  | Ok send_ctx =>
      let body := send_body state send_ctx w in
      (body.1, (body.2 ++ send_cleanup send_ctx (is_ok body.1)))
  end.

End Dispatch.

(** ** The REPL turn *)

Module Repl.
Import Validator Synth Dispatch.

Definition hex_digit (n : nat) : string :=
  Py.chr (if (n <? 10)%nat then 48 + n else 87 + n).

(** One character of [repr(s)] for the quote character [quote]. *)
Definition repr_char (quote c : ascii) : string :=
  let n := Py.code c in
  if Ascii.eqb c quote || (n =? 92)%nat then Py.bsl +:+ String c EmptyString
  else if (n =? 9)%nat then Py.bsl +:+ "t"
  else if (n =? 10)%nat then Py.bsl +:+ "n"
  else if (n =? 13)%nat then Py.bsl +:+ "r"
  else if (n <? 32)%nat || (n =? 127)%nat || Py.between 128 160 c || (n =? 173)%nat
  then Py.bsl +:+ "x" +:+ hex_digit (n / 16) +:+ hex_digit (n mod 16)
  else String c EmptyString.

Fixpoint repr_body (quote : ascii) (s : string) : string :=
  match s with
  | EmptyString => EmptyString
  | String c s' => repr_char quote c +:+ repr_body quote s'
  end.

(** [repr(s)] *)
Definition py_repr (s : string) : string :=
  let quote :=
    if Py.contains Py.sq s && negb (Py.contains Py.dq s)
    then ascii_of_nat 34 else ascii_of_nat 39 in
  String quote (repr_body quote s) +:+ String quote EmptyString.

Definition parse_bool (value : string) : result bool :=
  let normalized := Py.str_lower (Py.strip value) in
  if Py.mem normalized ["1"; "true"; "on"; "yes"] then Ok true
  else if Py.mem normalized ["0"; "false"; "off"; "no"] then Ok false
  else Raise (ValidationError ("Invalid boolean value: " +:+ py_repr value)).

Definition py_bool (b : bool) : string := if b then "True" else "False".
Definition on_off (b : bool) : string := if b then "on" else "off".
Definition or_default (s default : string) : string :=
  if Py.truthy s then s else default.

Definition build_prompt (state : State) : string :=
  "rstudio-bridge[pending=" +:+ pretty (pending_capability_count state)
  +:+ ",result=" +:+ (if Py.truthy (result_expr state) then "1" else "0")
  +:+ ",export=" +:+ (if Py.truthy (state_export_expr state) then "1" else "0")
  +:+ "]> ".

Definition help_text : string :=
  Py.concat_all [
    ln "Commands:";
    ln "  append:<R statement>          Append statement in scratch env";
    ln "  result:<R expression>         Set result expression (single line)";
    ln "  export:<R expression>         Export expression via saveRDS and return file path";
    ln "  create:<name>:=<expr>         Create new variable in .GlobalEnv";
    ln "  modify:<R statement>          Evaluate statement in .GlobalEnv";
    ln "  session-dir:<dir>             Override active RStudio session directory";
    ln "  id:<int>                      JSON-RPC request id";
    ln "  rpostback-bin:<path>          Override rpostback binary";
    ln "  out:<path>                    Result output file";
    ln "  timeout:<seconds>             Wait timeout for result file";
    ln "  rpc-timeout:<seconds>         Hard timeout for RPC send step";
    ln "  benchmark:<on|off>            Benchmark result expression";
    ln "  benchmark-unit:<seconds|ms>   Unit for benchmark";
    ln "  print-code:<on|off>           Print generated R snippet to stderr";
    ln "  capture-output:<on|off>       Return structured stdout/stderr with result";
    ln EmptyString;
    ln "Control:";
    ln "  show                           Show current accumulated state";
    ln "  clear                          Clear accumulated capabilities";
    ln "  send                           Validate/build/send accumulated request";
    ln "  help                           Show this help";
    ln "  quit                           Exit" ].

Definition print_help : list event := [Print_stdout (ln help_text)].

Definition show_state (state : State) : list event :=
  map (fun line => Print_stdout (ln line))
    [ "  pending capabilities: " +:+ pretty (pending_capability_count state);
      "State summary:";
      "  append snippets: " +:+ pretty (length (append_code_snippets state));
      "  result set: " +:+ py_bool (Py.truthy (result_expr state));
      "  export set: " +:+ py_bool (Py.truthy (state_export_expr state));
      "  create specs: " +:+ pretty (length (create_global_specs state));
      "  modify snippets: " +:+ pretty (length (modify_global_snippets state));
      "  session-dir: " +:+ or_default (session_dir state) "<auto>";
      "  id: " +:+ request_id state;
      "  rpostback-bin: " +:+ or_default (rpostback_bin state) "<default>";
      "  out: " +:+ or_default (out_path state) "<tmp-if-needed>";
      "  timeout: " +:+ timeout_seconds state;
      "  rpc-timeout: " +:+ rpc_timeout_seconds state;
      "  benchmark: " +:+ on_off (benchmark_mode state);
      "  benchmark-unit: " +:+ benchmark_unit state;
      "  print-code: " +:+ on_off (print_code state);
      "  capture-output: " +:+ on_off (capture_output state) ].

(** Field updates of the one [State] object the loop owns. *)
Definition set_append (s : State) (v : list string) : State :=
  mkState v (result_expr s) (state_export_expr s) (create_global_specs s)
    (modify_global_snippets s) (session_dir s) (request_id s) (rpostback_bin s)
    (out_path s) (timeout_seconds s) (rpc_timeout_seconds s) (benchmark_mode s)
    (benchmark_unit s) (print_code s) (capture_output s).
Definition set_result (s : State) (v : string) : State :=
  mkState (append_code_snippets s) v (state_export_expr s) (create_global_specs s)
    (modify_global_snippets s) (session_dir s) (request_id s) (rpostback_bin s)
    (out_path s) (timeout_seconds s) (rpc_timeout_seconds s) (benchmark_mode s)
    (benchmark_unit s) (print_code s) (capture_output s).
Definition set_export (s : State) (v : string) : State :=
  mkState (append_code_snippets s) (result_expr s) v (create_global_specs s)
    (modify_global_snippets s) (session_dir s) (request_id s) (rpostback_bin s)
    (out_path s) (timeout_seconds s) (rpc_timeout_seconds s) (benchmark_mode s)
    (benchmark_unit s) (print_code s) (capture_output s).
Definition set_create (s : State) (v : list string) : State :=
  mkState (append_code_snippets s) (result_expr s) (state_export_expr s) v
    (modify_global_snippets s) (session_dir s) (request_id s) (rpostback_bin s)
    (out_path s) (timeout_seconds s) (rpc_timeout_seconds s) (benchmark_mode s)
    (benchmark_unit s) (print_code s) (capture_output s).
Definition set_modify (s : State) (v : list string) : State :=
  mkState (append_code_snippets s) (result_expr s) (state_export_expr s)
    (create_global_specs s) v (session_dir s) (request_id s) (rpostback_bin s)
    (out_path s) (timeout_seconds s) (rpc_timeout_seconds s) (benchmark_mode s)
    (benchmark_unit s) (print_code s) (capture_output s).
Definition set_session_dir (s : State) (v : string) : State :=
  mkState (append_code_snippets s) (result_expr s) (state_export_expr s)
    (create_global_specs s) (modify_global_snippets s) v (request_id s) (rpostback_bin s)
    (out_path s) (timeout_seconds s) (rpc_timeout_seconds s) (benchmark_mode s)
    (benchmark_unit s) (print_code s) (capture_output s).
Definition set_request_id (s : State) (v : string) : State :=
  mkState (append_code_snippets s) (result_expr s) (state_export_expr s)
    (create_global_specs s) (modify_global_snippets s) (session_dir s) v (rpostback_bin s)
    (out_path s) (timeout_seconds s) (rpc_timeout_seconds s) (benchmark_mode s)
    (benchmark_unit s) (print_code s) (capture_output s).
Definition set_rpostback_bin (s : State) (v : string) : State :=
  mkState (append_code_snippets s) (result_expr s) (state_export_expr s)
    (create_global_specs s) (modify_global_snippets s) (session_dir s) (request_id s) v
    (out_path s) (timeout_seconds s) (rpc_timeout_seconds s) (benchmark_mode s)
    (benchmark_unit s) (print_code s) (capture_output s).
Definition set_out_path (s : State) (v : string) : State :=
  mkState (append_code_snippets s) (result_expr s) (state_export_expr s)
    (create_global_specs s) (modify_global_snippets s) (session_dir s) (request_id s)
    (rpostback_bin s) v (timeout_seconds s) (rpc_timeout_seconds s) (benchmark_mode s)
    (benchmark_unit s) (print_code s) (capture_output s).
Definition set_timeout (s : State) (v : string) : State :=
  mkState (append_code_snippets s) (result_expr s) (state_export_expr s)
    (create_global_specs s) (modify_global_snippets s) (session_dir s) (request_id s)
    (rpostback_bin s) (out_path s) v (rpc_timeout_seconds s) (benchmark_mode s)
    (benchmark_unit s) (print_code s) (capture_output s).
Definition set_rpc_timeout (s : State) (v : string) : State :=
  mkState (append_code_snippets s) (result_expr s) (state_export_expr s)
    (create_global_specs s) (modify_global_snippets s) (session_dir s) (request_id s)
    (rpostback_bin s) (out_path s) (timeout_seconds s) v (benchmark_mode s)
    (benchmark_unit s) (print_code s) (capture_output s).
Definition set_benchmark_mode (s : State) (v : bool) : State :=
  mkState (append_code_snippets s) (result_expr s) (state_export_expr s)
    (create_global_specs s) (modify_global_snippets s) (session_dir s) (request_id s)
    (rpostback_bin s) (out_path s) (timeout_seconds s) (rpc_timeout_seconds s) v
    (benchmark_unit s) (print_code s) (capture_output s).
Definition set_benchmark_unit (s : State) (v : string) : State :=
  mkState (append_code_snippets s) (result_expr s) (state_export_expr s)
    (create_global_specs s) (modify_global_snippets s) (session_dir s) (request_id s)
    (rpostback_bin s) (out_path s) (timeout_seconds s) (rpc_timeout_seconds s)
    (benchmark_mode s) v (print_code s) (capture_output s).
Definition set_print_code (s : State) (v : bool) : State :=
  mkState (append_code_snippets s) (result_expr s) (state_export_expr s)
    (create_global_specs s) (modify_global_snippets s) (session_dir s) (request_id s)
    (rpostback_bin s) (out_path s) (timeout_seconds s) (rpc_timeout_seconds s)
    (benchmark_mode s) (benchmark_unit s) v (capture_output s).
Definition set_capture_output (s : State) (v : bool) : State :=
  mkState (append_code_snippets s) (result_expr s) (state_export_expr s)
    (create_global_specs s) (modify_global_snippets s) (session_dir s) (request_id s)
    (rpostback_bin s) (out_path s) (timeout_seconds s) (rpc_timeout_seconds s)
    (benchmark_mode s) (benchmark_unit s) (print_code s) v.

(** What [apply_input_line] returns: [None], ["send"] or ["quit"]. *)
Inductive action : Type := NoAction | Send | Quit.

(** A checked update: the state changes only when the check passes. *)
Definition checked (state : State) (check : result unit) (next : State)
    : State * list event * result action :=
  match check with
  | Ok _ => (next, [], Ok NoAction)
  | Raise e => (state, [], Raise e)
  end.

Definition checked_bool (state : State) (value : result bool) (next : bool -> State)
    : State * list event * result action :=
  match value with
  | Ok b => (next b, [], Ok NoAction)
  | Raise e => (state, [], Raise e)
  end.

(** [apply_input_line]: the state as the call leaves it, what it printed,
    and its return value or exception. *)
Definition apply_input_line (state : State) (line : string)
    : State * list event * result action :=
  let normalized := Py.strip line in
  if Py.is_empty normalized then (state, [], Ok NoAction)
  else if Py.mem normalized ["help"; "?"] then (state, print_help, Ok NoAction)
  else if Py.eqs normalized "show" then (state, show_state state, Ok NoAction)
  else if Py.eqs normalized "clear" then
    (clear_capabilities state, [Print_stdout (ln "Cleared accumulated capabilities.")],
     Ok NoAction)
  else if Py.eqs normalized "send" then (state, [], Ok Send)
  else if Py.mem normalized ["quit"; "exit"] then (state, [], Ok Quit)
  else
    match Py.split_once ":" line with
    | None =>
        (state, [],
         Raise (ValidationError "Input must be '<prefix>:<payload>' or a control command."))
    | Some (prefix, payload) =>
        let key := Py.str_lower (Py.strip prefix) in
        if Py.mem key ["append"; "append-code"] then
          checked state (validate_append_snippet payload)
            (set_append state (append_code_snippets state ++ [payload]))
        else if Py.mem key ["result"; "set-result-expr"] then
          checked state (validate_result_expr payload) (set_result state payload)
        else if Py.mem key ["export"; "r-state-export"] then
          checked state (validate_state_export_expr payload) (set_export state payload)
        else if Py.mem key ["create"; "create-global-variable"] then
          checked state (validate_name_expr_spec payload "create" ;; Ok tt)
            (set_create state (create_global_specs state ++ [payload]))
        else if Py.mem key ["modify"; "modify-global-env"] then
          checked state (validate_modify_global_snippet payload)
            (set_modify state (modify_global_snippets state ++ [payload]))
        else if Py.eqs key "session-dir" then
          (set_session_dir state (Py.strip payload), [], Ok NoAction)
        else if Py.eqs key "id" then
          checked state (ensure_int_string (Py.strip payload) "id")
            (set_request_id state (Py.strip payload))
        else if Py.eqs key "rpostback-bin" then
          (set_rpostback_bin state (Py.strip payload), [], Ok NoAction)
        else if Py.eqs key "out" then
          (set_out_path state (Py.strip payload), [], Ok NoAction)
        else if Py.eqs key "timeout" then
          checked state (ensure_int_string (Py.strip payload) "timeout")
            (set_timeout state (Py.strip payload))
        else if Py.eqs key "rpc-timeout" then
          checked state (ensure_int_string (Py.strip payload) "rpc-timeout")
            (set_rpc_timeout state (Py.strip payload))
        else if Py.eqs key "benchmark" then
          checked_bool state (parse_bool payload) (set_benchmark_mode state)
        else if Py.eqs key "benchmark-unit" then
          let value := Py.strip payload in
          checked state
            (raise_if (negb (Py.mem value ["seconds"; "ms"]))
               (ValidationError "benchmark-unit must be either 'seconds' or 'ms'."))
            (set_benchmark_unit state value)
        else if Py.eqs key "print-code" then
          checked_bool state (parse_bool payload) (set_print_code state)
        else if Py.eqs key "capture-output" then
          checked_bool state (parse_bool payload) (set_capture_output state)
        else (state, [], Raise (ValidationError ("Unknown input prefix: " +:+ prefix)))
    end.

(** How one turn of the loop of [repl] ends. *)
Inductive turn_end : Type :=
| Continue                 (* the loop asks for the next line *)
| Return (code : Z)        (* [repl] returns *)
| Propagate (e : exn).     (* an exception no handler of the loop catches *)

(** The handlers of the loop: [ValidationError], [SendError], [Exception]. *)
Definition handle (e : exn) : list event * turn_end :=
  match e with
  | ValidationError msg => ([Print_stderr (ln msg)], Continue)
  | SendError msg => ([Print_stderr (ln msg)], Continue)
  | OtherException msg => ([Print_stderr (ln ("Unexpected error: " +:+ msg))], Continue)
  | KeyboardInterrupt => ([], Propagate KeyboardInterrupt)
  end.

(** The second [try] of the loop body, for the line read. *)
Definition repl_turn (state : State) (line : string) (w : World)
    : State * list event * turn_end :=
  let '(state, printed, r) := apply_input_line state line in
  match r with
  | Raise e => let '(ev, t) := handle e in (state, printed ++ ev, t)
  | Ok Quit => (state, printed, Return 0)
  | Ok NoAction => (state, printed, Continue)
  | Ok Send =>
      let '(sent, ev) := send_current_state state w in
      let state := clear_capabilities state in
      match sent with
      | Ok _ =>
          (state,
           printed ++ ev ++ [Print_stdout (ln "Send completed; capability state cleared.")],
           Continue)
      | Raise e => let '(ev', t) := handle e in (state, printed ++ ev ++ ev', t)
      end
  end.

(** What [input] gives: a line, end of file, or an interrupt. *)
Inductive input : Type :=
| Line (text : string) (w : World)   (* with what a dispatch would find *)
| Eof
| Interrupt.

(** The loop of [repl] over the inputs it is given; [None] when the
    inputs run out while the loop still asks for a line. *)
Fixpoint repl_loop (state : State) (inputs : list input)
    : State * list event * option turn_end :=
  let prompt := Print_stdout (build_prompt state) in
  match inputs with
  | [] => (state, [prompt], None)
  | Eof :: _ => (state, [prompt; Print_stdout (ln EmptyString)], Some (Return 0))
  | Interrupt :: _ => (state, [prompt; Print_stderr (ln EmptyString)], Some (Return 130))
  | Line text w :: rest =>
      let '(state', ev, t) := repl_turn state text w in
      match t with
      | Continue =>
          let '(final, ev', t') := repl_loop state' rest in
          (final, prompt :: ev ++ ev', t')
      | _ => (state', prompt :: ev, Some t)
      end
  end.

End Repl.

(** ** The emitted instrumentation, read as R

    The fragment is sent wrapped in [local({...}, envir = new.env(parent =
    .GlobalEnv))], so the [.codex_*] variables never enter the global
    namespace.  The definitions below give the meaning of the lines the
    synthesizer emits around the user's code: character vectors are lists of
    names, [setdiff] keeps the distinct elements of its first argument that
    are absent from the second. *)

Module RSem.

(** [setdiff(x, y)] *)
Definition setdiff (x y : list string) : list string :=
  remove_dups (list_difference x y).

(** How the lines after the trapped run end. *)
Inductive run_end : Type :=
| Completed
| Stop_exec_error (msg : string)   (* [stop(.codex_msg(.codex_exec_error))] *)
| Stop_leak.                       (* [stop("Global environment leak detected")] *)

(** Lines 708-715, for the two snapshots of [ls(envir = .GlobalEnv,
    all.names = TRUE)] and the vector [.codex_allowed_added]. *)
Definition leak_check (codex_before codex_after codex_allowed_added : list string)
    : run_end :=
  let codex_new := setdiff codex_after codex_before in
  let codex_removed := setdiff codex_before codex_after in
  let codex_unexpected_new := setdiff codex_new codex_allowed_added in
  let codex_unexpected_removed := setdiff codex_removed [] in
  if (0 <? length codex_unexpected_new)%nat || (0 <? length codex_unexpected_removed)%nat
  then Stop_leak else Completed.

(** Lines 705-715: [codex_exec_error] is the message of the error the
    [tryCatch] around [.codex_run_core()] trapped, [None] for [NULL];
    [globals_then] is the global namespace at that point of the run. *)
Definition run_tail (codex_exec_error : option string)
    (codex_before globals_then codex_allowed_added : list string) : run_end :=
  match codex_exec_error with
  | Some msg => Stop_exec_error msg
  | None => leak_check codex_before globals_then codex_allowed_added
  end.

(** The value of [.codex_result_expr] in benchmark mode: the condition the
    [tryCatch] returned, or the elapsed seconds it measured. *)
Inductive measured (num : Type) : Type :=
| Failed (msg : string)
| Elapsed (seconds : num).

Arguments Failed {num} msg.
Arguments Elapsed {num} seconds.

(** [if (!inherits(.codex_result_expr, "error")) .codex_result_expr <-
    .codex_result_expr * 1000], for R's product [times] and its constant
    [1000]. *)
Definition bench_ms {num : Type} (times : num -> num -> num) (r_1000 : num)
    (codex_result_expr : measured num) : measured num :=
  match codex_result_expr with
  | Failed msg => Failed msg
  | Elapsed seconds => Elapsed (times seconds r_1000)
  end.

(** [.codex_result_expr] after the benchmark lines the synthesizer emits
    for [state]. *)
Definition bench_result {num : Type} (times : num -> num -> num) (r_1000 : num)
    (state : Synth.State) (codex_result_expr : measured num) : measured num :=
  if existsb (Py.eqs Synth.bench_ms_line) (Synth.result_lines state)
  then bench_ms times r_1000 codex_result_expr
  else codex_result_expr.

End RSem.

(** ** The vocabulary of the properties *)

Module Spec.
Import Validator Synth Dispatch Repl.

(** The fragment contains a left-arrow or a right-arrow token. *)
Definition has_arrow (code : string) : Prop :=
  Py.contains "<-" code = true \/ Py.contains "->" code = true.

(** The call raises [ValidationError]. *)
Definition rejects {A : Type} (r : result A) : Prop :=
  exists msg, r = Raise (ValidationError msg).

(** The call returns, or raises [ValidationError] and nothing else. *)
Definition validates {A : Type} (r : result A) : Prop :=
  match r with
  | Ok _ => True
  | Raise (ValidationError _) => True
  | Raise _ => False
  end.

(** The errors the properties name. *)
Definition export_combined : exn :=
  ValidationError "export cannot be combined with result, create, or modify.".

Definition capture_needs_result : exn :=
  ValidationError "capture-output requires result or export.".

Definition no_capability : exn :=
  ValidationError "At least one capability is required.".

Definition rpc_send_failed : exn :=
  SendError "Failed to send RPC request.".

(** The state after the input lines [lines], typed at a fresh prompt. *)
Definition request (lines : list string) : State :=
  fold_left (fun state line => (Repl.apply_input_line state line).1.1) lines initial_state.

(** A world in which every step up to the RPC call succeeds, the call
    exits with [rc] and prints nothing, and the result file never shows up. *)
Definition quiet_world (rc : Z) : World :=
  mkWorld (mkMkstemp (Ok "/tmp/codex_rstudio_capability_result_0.txt")
                     (Ok "/tmp/codex_rstudio_state_0.rds"))
          (Ok "/home/u/.local/share/rstudio/sessions/active/session-1")
          (Ok tt) (Ok tt) (Ok "/opt/r-assist/scripts/communicate_with_rstudio_console_with_rpc_low_level.py")
          (Ok tt) (mkPropertyFiles Absent Absent) true
          (Ok (mkProc rc EmptyString EmptyString)) [None; None] false
          (mkDiagObs (mkPropertyFiles Absent (Text "1")) true (Some 0%Z) EmptyString false
                     (mkProc 1 EmptyString EmptyString) None).

(** A request that appends a statement and creates one global, the context
    validation gives it, and the fragment synthesized for it. *)
Definition created_request : State := request ["append: x = 1"; "create: y := 2"].

Definition terminal_context : SendContext :=
  mkSendContext false EmptyString false EmptyString false.

Definition created_fragment : string :=
  match build_r_code created_request terminal_context with
  | Ok r_code => r_code
  | Raise _ => EmptyString
  end.

(** The request holds [Append] fragments and no other capability. *)
Definition only_appends (state : State) : Prop :=
  append_code_snippets state <> [] /\
  result_expr state = EmptyString /\
  state_export_expr state = EmptyString /\
  create_global_specs state = [] /\
  modify_global_snippets state = [].

(** A line of R that writes the result file or records that it was
    written. *)
Definition writes_result (line : string) : bool :=
  Py.contains "dput(" line || Py.contains "writeLines(" line
  || Py.contains ".codex_result_written <- TRUE" line.

(** The lines the synthesizer itself writes for a request of [Append]
    fragments only, and the fragment it builds from them and the user's
    lines. *)
Definition append_only_own_lines : list string :=
  r_header EmptyString EmptyString false ++ [ln "  })"] ++ r_run ++ r_reraise ++ r_leak_check.

Definition append_only_fragment (snippets : list string) : string :=
  Py.concat_all
    (r_header EmptyString EmptyString false
     ++ [indent_block (join_lines snippets) "    "; ln "  })"]
     ++ r_run ++ r_reraise ++ r_leak_check).

(** The names the [Create] specs declare, in order. *)
Definition declares (specs names : list string) : Prop :=
  Forall2 (fun spec name =>
    exists expr, validate_name_expr_spec spec "create" = Ok (name, expr)) specs names.

(** Between the two snapshots the global namespace gained a name that no
    [Create] declared, or lost a name. *)
Definition undeclared_change (before after declared : list string) : Prop :=
  (exists n, n ∈ after /\ (n ∉ before) /\ (n ∉ declared)) \/
  (exists n, n ∈ before /\ (n ∉ after)).

(** The events of waiting for the result file. *)
Definition is_poll_event (e : event) : bool :=
  match e with
  | Poll_result_file _ | Sleep_200ms | Call_diagnose_result_wait_timeout => true
  | _ => false
  end.

End Spec.

(** ** Further vocabulary: escaping and layout *)

Module Text.
Import Validator.

(** What [escape_for_r_string] writes for one character. *)
Definition escape_char (c : ascii) : string :=
  if Ascii.eqb c "\" then Py.bsl +:+ Py.bsl
  else if Ascii.eqb c (ascii_of_nat 34) then Py.bsl +:+ Py.dq
  else if Ascii.eqb c (ascii_of_nat 10) then Py.bsl +:+ "n"
  else String c EmptyString.

(** How R reads the body of a double-quoted literal that uses the escapes
    for the backslash, the quote and the newline. *)
Fixpoint r_unescape (s : string) : string :=
  match s with
  | EmptyString => EmptyString
  | String c s' =>
      if Ascii.eqb c "\" then
        match s' with
        | EmptyString => String c EmptyString
        | String d s'' =>
            String (if Ascii.eqb d "n" then ascii_of_nat 10 else d) (r_unescape s'')
        end
      else String c (r_unescape s')
  end.

Definition no_newline (s : string) : bool :=
  Py.all_chars (fun c => negb (Py.is_nl c)) s.

(** The last element of a list of lines, empty for no line. *)
Definition last_line (lines : list string) : string :=
  match last lines with
  | Some l => l
  | None => EmptyString
  end.

(** The text does not end with a newline. *)
Definition open_ended (s : string) : bool :=
  negb (Py.endswith_char (ascii_of_nat 10) s).

End Text.

(** ** Further vocabulary: the blocked calls *)

Module Policy.
Import Re Validator.

(** The function names of the third and fourth common pattern. *)
Definition blocked_calls : list string :=
  ["save"; "saveRDS"; "load"; "setwd"; "options"; "Sys.setenv"; "library"; "require";
   "attach"; "detach"; "sink"; "system"; "system2"; "q"; "quit"].

(** The function names of the append-only pattern. *)
Definition append_blocked_calls : list string :=
  ["write"; "writeLines"; "write.csv"; "write.csv2"; "write.delim"; "write.delim2";
   "write.table"; "fwrite"; "cat"; "saveRDS"; "save"; "load"; "file.create"; "dir.create";
   "unlink"; "file.remove"; "file.rename"; "file.copy"; "file.append"; "download.file";
   "png"; "jpeg"; "svg"; "bmp"; "tiff"; "pdf"; "postscript"; "quartz"; "x11"].

(** The text before a call leaves the name at a boundary: it is empty or
    ends with a character that is no letter, digit, underscore or dot. *)
Fixpoint at_boundary (before : string) : bool :=
  match before with
  | EmptyString => true
  | String c EmptyString => negb (in_class im_flags ident_items c)
  | String _ rest => at_boundary rest
  end.

(** [code] calls [name]: the name in any case at a boundary, blanks, and an
    opening parenthesis. *)
Definition calls (name code : string) : Prop :=
  exists before written blanks after,
    code = before +:+ written +:+ blanks +:+ "(" +:+ after /\
    at_boundary before = true /\
    Py.str_lower written = Py.str_lower name /\
    Py.all_chars Py.isspace blanks = true.

(** The fragment contains a double-arrow token. *)
Definition has_double_arrow (code : string) : Prop :=
  Py.contains "<<-" code = true \/ Py.contains "->>" code = true.

End Policy.

(** ** Further vocabulary: requests *)

Module Requests.
Import Validator Synth Dispatch Repl.

(** Every value the state stores has passed the check of the input line
    that stores it. *)
Definition stored_valid (state : State) : Prop :=
  Forall (fun snippet => validate_append_snippet snippet = Ok tt)
         (append_code_snippets state) /\
  (result_expr state = EmptyString \/ validate_result_expr (result_expr state) = Ok tt) /\
  (state_export_expr state = EmptyString
   \/ validate_state_export_expr (state_export_expr state) = Ok tt) /\
  Forall (fun spec => is_ok (validate_name_expr_spec spec "create") = true)
         (create_global_specs state) /\
  Forall (fun snippet => validate_modify_global_snippet snippet = Ok tt)
         (modify_global_snippets state) /\
  ensure_int_string (request_id state) "id" = Ok tt /\
  ensure_int_string (timeout_seconds state) "timeout" = Ok tt /\
  ensure_int_string (rpc_timeout_seconds state) "rpc-timeout" = Ok tt /\
  Py.mem (benchmark_unit state) ["seconds"; "ms"] = true.

(** The errors of [validate_state_for_send] about how capabilities and
    options combine. *)
Definition combination_errors : list exn :=
  [ ValidationError "At least one capability is required.";
    ValidationError "export cannot be combined with result, create, or modify.";
    ValidationError "benchmark requires result.";
    ValidationError "benchmark cannot be combined with export, create, or modify.";
    ValidationError "capture-output requires result or export." ].

(** The state after the input lines [lines], from [state] on. *)
Definition after_lines (state : State) (lines : list string) : State :=
  fold_left (fun state line => (apply_input_line state line).1.1) lines state.

End Requests.

(** ** Further vocabulary: the steps of a send *)

Module Sends.
Import Validator Synth Dispatch Spec.

(** The arguments [send_current_state] always gives the transport script. *)
Definition transport_args (state : State) (session_dir r_code : string) : list string :=
  ["--code"; r_code; "--isolate-code"; "1"; "--id"; request_id state;
   "--rpc-timeout"; rpc_timeout_seconds state; "--session-dir"; session_dir].

(** Every step of [send_current_state] before the transport has passed. *)
Definition ready (state : State) (w : World) (ctx : SendContext)
    (session_dir r_code rpc_script : string) : Prop :=
  w_resolve_session_dir w = Ok session_dir /\
  w_load_session_environment w = Ok tt /\
  build_r_code state ctx = Ok r_code /\
  w_check_r_code_parse w = Ok tt /\
  w_find_rpc_script w = Ok rpc_script /\
  (expect_result ctx = true -> w_write_out w = Ok tt) /\
  read_executing (w_executing w) <> "1".

(** The transport ran and exited with 0. *)
Definition delivered (state : State) (w : World) (ctx : SendContext) : Prop :=
  (exists session_dir r_code rpc_script, ready state w ctx session_dir r_code rpc_script) /\
  exists proc, w_rpc_proc w = Ok proc /\ returncode proc = 0%Z.

(** The events of the steps before the transport: calls, the emptied result
    file, the look at the executing flag, and messages on stderr. *)
Definition before_transport (e : event) : bool :=
  match e with
  | Call_resolve_session_dir | Call_load_session_environment _ | Call_build_r_code
  | Call_check_r_code_parse _ | Call_find_rpc_script | Write_text _ _
  | Read_executing_flag | Print_stderr _ => true
  | _ => false
  end.

(** The transport exited with 0. *)
Definition exited_zero (run : result Proc) : bool :=
  match run with
  | Ok proc => (returncode proc =? 0)%Z
  | Raise _ => false
  end.

(** The events of waiting for the result file at [path]. *)
Definition wait_events (path : string) (w : World) : list event :=
  poll_loop path (w_polls w) ++ [Poll_result_file path]
  ++ (if w_final_poll w then []
      else Print_stderr (ln ("Timed out waiting for result file: " +:+ path))
           :: diagnose_result_wait_timeout (w_diag w)).

(** The command of the first subprocess in a trace. *)
Fixpoint transport_command (trace : list event) : list string :=
  match trace with
  | [] => []
  | Run_subprocess argv :: _ => argv
  | _ :: rest => transport_command rest
  end.

(** A world like [quiet_world 0] in which the second round of the wait
    finds [text] in the result file. *)
Definition answering_world (text : string) : World :=
  let w := quiet_world 0 in
  mkWorld (w_mkstemp w) (w_resolve_session_dir w) (w_load_session_environment w)
          (w_check_r_code_parse w) (w_find_rpc_script w) (w_write_out w) (w_executing w)
          (w_which_timeout w) (w_rpc_proc w) [None; Some text] true (w_diag w).

End Sends.

(** ** Further vocabulary: diagnoser hints and declared names *)

Module Hints.
Import Validator Synth Dispatch.

(** The first line of the two-line hint the diagnoser prints for a cause. *)
Definition hint_of (cause : string) : string :=
  if Py.eqs cause "compute_still_running"
  then "Likely cause: R code is still running in the live console."
  else if Py.eqs cause "handoff_or_write_delay"
  then "Possible cause: compute finished but result handoff/file write lagged."
  else if Py.eqs cause "output_path_unavailable"
  then "Possible cause: output file was removed or inaccessible while waiting."
  else if Py.eqs cause "session_liveness_issue"
  then "Possible cause: session snapshot points to a dead/restarted rsession."
  else EmptyString.

(** The four causes that come with a hint. *)
Definition hinted_causes : list string :=
  ["compute_still_running"; "handoff_or_write_delay"; "output_path_unavailable";
   "session_liveness_issue"].

(** The error [build_r_code] raises for a name declared twice. *)
Definition duplicate_error (name : string) : exn :=
  ValidationError ("create duplicates name '" +:+ name +:+ "' in one invocation.").

End Hints.

(** ** The session: its directory and its environment *)

Module Session.
Import Validator Synth Dispatch.

(** [os.environ] *)
Abbreviation environ := (gmap string string).

(** [os.environ.get(key, "")] *)
Definition getenv (env : environ) (key : string) : string :=
  default EmptyString (env !! key).

(** One directory of [active_session_dirs()]: its path, whether it holds
    [session-persistent-state], and the text of its
    [suspended-session-data/environment_vars] when that file exists. *)
Record SessionDir : Type := mkSessionDir {
  sd_path : string;
  sd_has_state : bool;
  sd_env : option string
}.

(** What resolving and loading a session find outside the script. *)
Record SessionWorld : Type := mkSessionWorld {
  sw_specified : string;             (* [str(Path(state.session_dir))] *)
  sw_specified_has_state : bool;     (* that directory holds [session-persistent-state] *)
  sw_environ : environ;
  sw_proc : string -> bool * Proc;   (* for a pid: [/proc/<pid>] exists, and [ps -p <pid> -o args=] *)
  sw_active_for_pid : list SessionDir; (* [active_session_dirs()] of the first loop, newest first *)
  sw_active : list SessionDir;       (* [active_session_dirs()] of the second loop *)
  sw_pid_files : list (string * file_read)
                                     (* the sorted [*.pid] files: stem and text *)
}.

Definition pid_alive (w : SessionWorld) (pid : string) : bool :=
  session_pid_is_alive pid (sw_proc w pid).1 (sw_proc w pid).2.

(** The first loop of [resolve_session_dir]. *)
Fixpoint first_with_pid (current_pid : string) (candidates : list SessionDir)
    : option string :=
  match candidates with
  | [] => None
  | candidate :: rest =>
      match sd_env candidate with
      | Some _ =>
          if negb (sd_has_state candidate) then first_with_pid current_pid rest
          else if Py.eqs (extract_kv_value (sd_env candidate) "RSTUDIO_SESSION_PID")
                         current_pid
          then Some (sd_path candidate)
          else first_with_pid current_pid rest
      | None => first_with_pid current_pid rest
      end
  end.

(** The second loop of [resolve_session_dir]. *)
Fixpoint first_with_state (candidates : list SessionDir) : option string :=
  match candidates with
  | [] => None
  | candidate :: rest =>
      if sd_has_state candidate then Some (sd_path candidate) else first_with_state rest
  end.

Definition resolve_session_dir (state : State) (w : SessionWorld) : result string :=
  if Py.truthy (session_dir state) then
    if negb (sw_specified_has_state w) then
      Raise (SendError ("Specified session-dir is missing session-persistent-state: "
                        +:+ sw_specified w))
    else Ok (sw_specified w)
  else
    let current_pid := getenv (sw_environ w) "RSTUDIO_SESSION_PID" in
    match (if pid_alive w current_pid
           then first_with_pid current_pid (sw_active_for_pid w) else None) with
    | Some candidate => Ok candidate
    | None =>
        match first_with_state (sw_active w) with
        | Some candidate => Ok candidate
        | None => Raise (SendError "Unable to locate an active RStudio session state file.")
        end
    end.

(** [[A-Za-z_]] and [[A-Za-z0-9_]] *)
Definition env_key_start (c : ascii) : bool :=
  Py.between 65 90 c || Py.between 97 122 c || (Py.code c =? 95)%nat.

Definition env_key_rest (c : ascii) : bool :=
  env_key_start c || Py.between 48 57 c.

(** The longest prefix of characters in [f], and what follows it. *)
Fixpoint span (f : ascii -> bool) (s : string) : string * string :=
  match s with
  | EmptyString => (EmptyString, EmptyString)
  | String c s' =>
      if f c then let '(k, tail) := span f s' in (String c k, tail)
      else (EmptyString, s)
  end.

(** One line against the pattern of [apply_env_file]: a name, an equals
    sign, and a quoted value that ends the line. *)
Definition env_line (line : string) : option (string * string) :=
  match line with
  | EmptyString => None
  | String c rest =>
      if env_key_start c then
        let '(k, tail) := span env_key_rest rest in
        if Py.startswith ("=" +:+ dq) tail then
          let value := Py.drop 2 tail in
          if Py.endswith_char (ascii_of_nat 34) value
          then Some (String c k, Py.drop_last value) else None
        else None
      else None
  end.

(** The loop of [apply_env_file]; [os.environ[key] = value] raises
    [ValueError] for a value that holds a null character. *)
Fixpoint apply_lines (lines : list string) (env : environ) : result environ :=
  match lines with
  | [] => Ok env
  | line :: rest =>
      match env_line line with
      | None => apply_lines rest env
      | Some (key, value) =>
          if Py.contains (Py.chr 0) value then Raise (OtherException "embedded null byte")
          else apply_lines rest (<[key := value]> env)
      end
  end.

Definition apply_env_file (env_file : option string) (env : environ) : result environ :=
  match env_file with
  | None => Ok env
  | Some content => apply_lines (Py.split_nl content) env
  end.

Fixpoint stream_of_pid (pid : string) (pid_files : list (string * file_read)) : string :=
  match pid_files with
  | [] => EmptyString
  | (stem, Text content) :: rest =>
      if Py.eqs (Py.strip content) pid then stem else stream_of_pid pid rest
  | _ :: rest => stream_of_pid pid rest
  end.

Definition infer_stream_from_pid (pid : string) (pid_files : list (string * file_read))
    : string :=
  if Py.is_empty pid || negb (Re.fullmatch Re.no_flags digits pid) then EmptyString
  else stream_of_pid pid pid_files.

(** [load_session_environment], for the text of the session's
    [environment_vars] when the file exists: the environment it leaves. *)
Definition load_session_environment (env_file : option string) (w : SessionWorld)
    : result environ :=
  let env := sw_environ w in
  let current_stream := getenv env "RSTUDIO_SESSION_STREAM" in
  let current_token := getenv env "RS_PORT_TOKEN" in
  let current_pid := getenv env "RSTUDIO_SESSION_PID" in
  if Py.truthy current_stream && Py.truthy current_token && pid_alive w current_pid
  then Ok env
  else
    env ← (match env_file with
           | Some _ =>
               let file_pid := extract_kv_value env_file "RSTUDIO_SESSION_PID" in
               if pid_alive w file_pid then apply_env_file env_file env else Ok env
           | None => Ok env
           end);
    env ← (if (negb (Py.truthy (getenv env "RSTUDIO_SESSION_STREAM"))
               || negb (Py.truthy (getenv env "RS_PORT_TOKEN")))
              && (match env_file with Some _ => true | None => false end)
           then apply_env_file env_file env else Ok env);
    let env_pid := getenv env "RSTUDIO_SESSION_PID" in
    if negb (Py.truthy (getenv env "RSTUDIO_SESSION_STREAM")) && pid_alive w env_pid then
      let inferred_stream := infer_stream_from_pid env_pid (sw_pid_files w) in
      if Py.truthy inferred_stream
      then Ok (<["RSTUDIO_SESSION_STREAM" := inferred_stream]> env)
      else Ok env
    else Ok env.

(** Vocabulary for the statements. *)

(** A name the pattern of [apply_env_file] can assign. *)
Definition is_env_key (key : string) : bool :=
  match key with
  | EmptyString => false
  | String c rest => env_key_start c && Py.all_chars env_key_rest rest
  end.

(** The values of the lines of a file that assign [key], in order. *)
Definition values_of (key : string) (env_file : option string) : list string :=
  match env_file with
  | None => []
  | Some content => omap (kv_line key) (Py.split_nl content)
  end.

(** The names a file assigns. *)
Definition keys_of (env_file : option string) : list string :=
  match env_file with
  | None => []
  | Some content => (omap env_line (Py.split_nl content)).*1
  end.

(** The environment file of a suspended session, and the environment that
    loading it into [live_world] leaves. *)
Definition live_file : string :=
  "RSTUDIO_SESSION_PID=" +:+ dq +:+ "4242" +:+ dq +:+ Py.nl
  +:+ "RS_PORT_TOKEN=" +:+ dq +:+ "t0" +:+ dq +:+ Py.nl.

Definition live_environ : environ :=
  <["RSTUDIO_SESSION_STREAM" := "7"]>
    (<["RS_PORT_TOKEN" := "t0"]> (<["RSTUDIO_SESSION_PID" := "4242"]> ∅)).

(** A session world with one live session, found by its pid. *)
Definition live_world : SessionWorld :=
  mkSessionWorld EmptyString false
    (<["RSTUDIO_SESSION_PID" := "4242"]> ∅)
    (fun pid => (Py.eqs pid "4242",
                 mkProc 0 "/usr/lib/rstudio-server/bin/rsession -u u" EmptyString))
    [ mkSessionDir "/home/u/.local/share/rstudio/sessions/active/session-new" true None;
      mkSessionDir "/home/u/.local/share/rstudio/sessions/active/session-old" true
        (Some live_file) ]
    [ mkSessionDir "/home/u/.local/share/rstudio/sessions/active/session-new" true None ]
    [ ("7", Text ("4242" +:+ Py.nl)) ].

End Session.

(** ** The transport script: [communicate_with_rstudio_console_with_rpc_low_level.py] *)

Module LowLevel.
Import Validator Synth Dispatch.

(** The namespace [parse_known_args] returns. *)
Record Args : Type := mkArgs {
  a_code : string;
  a_session_dir : string;
  a_id : string;
  a_rpostback_bin : string;
  a_isolate_code : string;
  a_rpc_timeout : string;
  a_help : bool
}.

(** A [subprocess.run] with a [timeout]: finished, or [TimeoutExpired]
    with what was captured. *)
Inductive run_outcome : Type :=
| Finished (proc : Proc)
| TimedOut (out err : string).

(** What one run of the script finds outside it. *)
Record LowWorld : Type := mkLowWorld {
  lw_session_dir : string;       (* the session directory [main] settles on, as text *)
  lw_state_file : file_read;     (* its [session-persistent-state] *)
  lw_env_file : file_read;       (* its [suspended-session-data/environment_vars] *)
  lw_before_mtime : string;      (* [str(int(st_mtime))] of [rpostback.log] before the
                                    call, empty when the file is absent or [stat] fails *)
  lw_after_mtime : string;       (* the same after the call *)
  lw_last_line : string;         (* [read_last_line] of the log *)
  lw_has_timeout : bool;         (* [has_timeout_binary()] *)
  lw_wrapped : Proc;             (* the run inside [timeout] *)
  lw_plain : run_outcome;        (* the run with [subprocess]'s own timeout *)
  lw_ps_rc : Z                   (* the return code of [ps -p <pid>] *)
}.

Definition usage : string :=
  "Usage:" +:+ nl
  +:+ "  communicate_with_rstudio_console_with_rpc_low_level.py --code '<R code>' "
  +:+ "[--session-dir <dir>] [--id <jsonrpc-id>] [--rpostback-bin <path>] "
  +:+ "[--isolate-code 0|1] [--rpc-timeout <seconds>]" +:+ nl +:+ nl
  +:+ "Examples:" +:+ nl
  +:+ "  communicate_with_rstudio_console_with_rpc_low_level.py --code 'print("
  +:+ q "Hello from codex!" +:+ ")'" +:+ nl
  +:+ "  communicate_with_rstudio_console_with_rpc_low_level.py --code 'dput(x, file = "
  +:+ q "/tmp/x.txt" +:+ ")' --id 7" +:+ nl.

Definition eprint (msg : string) : event := Print_stderr (ln msg).

Definition extract_state_value (file : file_read) (key : string) : string :=
  match file with
  | Text content => first_kv key (Py.split_nl content)
  | _ => EmptyString
  end.

Definition escape_code (code : string) : string :=
  let code := Py.replace_char "\" (Py.bsl +:+ Py.bsl) code in
  let code := Py.replace_char (ascii_of_nat 34) (Py.bsl +:+ Py.dq) code in
  let code := Py.replace_char (ascii_of_nat 10) (Py.bsl +:+ "n") code in
  code.

(** [int(text)] for a text of decimal digits. *)
Fixpoint int_from (acc : N) (text : string) : N :=
  match text with
  | EmptyString => acc
  | String c rest => int_from (10 * acc + N.of_nat (Py.code c - 48)) rest
  end.

Definition int_of (text : string) : N := int_from 0 text.

(** [run_rpostback]: the return code, the captured output, and the command
    that was run. *)
Definition run_rpostback (rpostback_bin payload : string) (rpc_timeout_seconds : N)
    (w : LowWorld) : Z * string * list string :=
  let cmd := [rpostback_bin; "--command"; "console_input"; "--argument"; payload] in
  if lw_has_timeout w then
    let proc := lw_wrapped w in
    (returncode proc, stdout proc +:+ stderr proc,
     ["timeout"; "--foreground"; "--signal=TERM"; "--kill-after=2";
      pretty rpc_timeout_seconds +:+ "s"] ++ cmd)
  else
    match lw_plain w with
    | Finished proc => (returncode proc, stdout proc +:+ stderr proc, cmd)
    | TimedOut out err => (124%Z, out +:+ err, cmd)
    end.

(** [session_pid_state]: the state, and the [ps] it ran to find it. *)
Definition session_pid_state (pid : string) (ps_rc : Z) : string * list event :=
  if Py.is_empty pid || negb (Re.fullmatch Re.no_flags digits pid)
  then ("unknown", [])
  else ((if (ps_rc =? 0)%Z then "alive" else "dead"), [Run_subprocess ["ps"; "-p"; pid]]).

(** The code as it goes into the payload, isolated or not. *)
Definition sent_code (args : Args) : string :=
  if Py.eqs (a_isolate_code args) "1"
  then "local({" +:+ nl +:+ a_code args +:+ nl +:+ "}, envir = new.env(parent = .GlobalEnv))"
  else a_code args.

Definition payload (cid escaped_code id : string) : string :=
  "{" +:+ q "jsonrpc" +:+ ":" +:+ q "2.0" +:+ ","
  +:+ q "method" +:+ ":" +:+ q "console_input" +:+ ","
  +:+ q "clientId" +:+ ":" +:+ q cid +:+ ","
  +:+ q "params" +:+ ":[" +:+ q escaped_code +:+ "," +:+ dq +:+ dq +:+ ",0],"
  +:+ q "id" +:+ ":" +:+ id
  +:+ "}".

Definition or_missing (value : string) : string :=
  if Py.truthy value then value else "<missing>".

(** [main], once [parse_known_args] has returned [args] and [unknown]: the
    exit status and what was run and printed. *)
Definition main (args : Args) (unknown : list string) (w : LowWorld) : Z * list event :=
  match unknown with
  | first :: _ =>
      (2%Z, [eprint ("Unknown argument: " +:+ first); eprint usage])
  | [] =>
  if a_help args then (0%Z, [Print_stdout usage]) else
  if Py.is_empty (a_code args) then
    (2%Z, [eprint "Missing required --code argument"; eprint usage]) else
  if negb (Py.mem (a_isolate_code args) ["0"; "1"]) then
    (2%Z, [eprint ("Invalid --isolate-code value: " +:+ a_isolate_code args
                   +:+ " (use 0 or 1)"); eprint usage]) else
  if negb (Re.fullmatch Re.no_flags digits (a_rpc_timeout args)) then
    (2%Z, [eprint ("Invalid --rpc-timeout value: " +:+ a_rpc_timeout args
                   +:+ " (use integer seconds)"); eprint usage]) else
  let rpc_timeout_seconds := int_of (a_rpc_timeout args) in
  let code := sent_code args in
  match lw_state_file w with
  | Absent => (1%Z, [eprint "Unable to locate an active RStudio session state file."])
  | _ =>
  let state_file := lw_session_dir w +:+ "/session-persistent-state" in
  let cid := extract_state_value (lw_state_file w) "active-client-id" in
  let abend := extract_state_value (lw_state_file w) "abend" in
  let env_session_pid := extract_state_value (lw_env_file w) "RSTUDIO_SESSION_PID" in
  if Py.is_empty cid then
    (1%Z, [eprint ("active-client-id not found in " +:+ state_file)]) else
  let escaped_code := escape_code code in
  let ran := run_rpostback (a_rpostback_bin args) (payload cid escaped_code (a_id args))
                           rpc_timeout_seconds w in
  let rpc_rc := ran.1.1 in
  let rpc_output := ran.1.2 in
  let ev :=
    (Run_subprocess ran.2
     :: (if Py.truthy rpc_output
         then [Print_stdout (if Py.endswith_char (ascii_of_nat 10) rpc_output
                             then rpc_output else rpc_output +:+ nl)]
         else [])) in
  if (rpc_rc =? 124)%Z || (rpc_rc =? 137)%Z then
    let pid_state := session_pid_state env_session_pid (lw_ps_rc w) in
    (1%Z,
     (ev ++ pid_state.2
      ++ [eprint ("rpostback timed out after " +:+ pretty rpc_timeout_seconds +:+ "s.");
          eprint ("Session metadata: dir=" +:+ lw_session_dir w
                  +:+ " abend=" +:+ or_missing abend
                  +:+ " active-client-id=" +:+ cid
                  +:+ " env-session-pid=" +:+ or_missing env_session_pid
                  +:+ " (" +:+ pid_state.1 +:+ ")")]
      ++ (if Py.eqs abend "1" || Py.eqs pid_state.1 "dead" then
            [eprint ("Hint: session snapshot metadata may be stale. Prefer live runtime env vars "
                     +:+ "(RSTUDIO_SESSION_STREAM/RS_PORT_TOKEN) over suspended-session-data values.")]
          else [])))
  else if Py.contains (q "error") rpc_output then
    (1%Z, (ev ++ [eprint "JSON-RPC error returned for console_input."]))
  else if Py.contains (q "result") rpc_output then (0%Z, ev)
  else
    let last_log :=
      if Py.truthy (lw_after_mtime w)
         && (negb (Py.truthy (lw_before_mtime w))
             || negb (Py.eqs (lw_after_mtime w) (lw_before_mtime w)))
      then lw_last_line w else EmptyString in
    (1%Z,
     (ev
      ++ (if Py.truthy last_log then
            eprint ("rpostback failed (rc=" +:+ pretty rpc_rc +:+ "): " +:+ last_log)
            :: (if Py.contains "Operation not permitted" last_log then
                  [eprint "Hint: run this command outside sandbox / with elevated permissions so it can access the local rsession socket."]
                else [])
          else [])
      ++ (if negb (rpc_rc =? 0)%Z then
            [eprint "Hint: if this call ran in sandbox, rerun the same single-segment command with escalation; sandbox postback access is a known failure mode.";
             eprint "Hint: stale snapshot env vars can break auth; avoid overriding live RStudio env vars when they are already present."]
          else [])
      ++ [eprint ("rpostback did not return a JSON-RPC result (rc=" +:+ pretty rpc_rc +:+ ").")]))
  end
  end.

(** Vocabulary for the statements. *)

(** The arguments [main] refuses with exit status 2. *)
Definition bad_arguments (args : Args) (unknown : list string) : Prop :=
  unknown <> [] \/
  (a_help args = false /\
   (a_code args = EmptyString \/
    Py.mem (a_isolate_code args) ["0"; "1"] = false \/
    Re.fullmatch Re.no_flags digits (a_rpc_timeout args) = false)).

(** The client id [main] reads from the state file. *)
Definition client_id (w : LowWorld) : string :=
  extract_state_value (lw_state_file w) "active-client-id".

(** What [run_rpostback] returns for the request of [args]. *)
Definition postback (args : Args) (w : LowWorld) : Z * string * list string :=
  run_rpostback (a_rpostback_bin args)
    (payload (client_id w) (escape_code (sent_code args)) (a_id args))
    (int_of (a_rpc_timeout args)) w.

(** The session answered the request with a JSON-RPC result. *)
Definition answered (args : Args) (w : LowWorld) : Prop :=
  lw_state_file w <> Absent /\
  client_id w <> EmptyString /\
  (postback args w).1.1 <> 124%Z /\ (postback args w).1.1 <> 137%Z /\
  Py.contains (q "error") (postback args w).1.2 = false /\
  Py.contains (q "result") (postback args w).1.2 = true.

(** A session that answers [print(1)]. *)
Definition answering : LowWorld :=
  mkLowWorld "/home/u/.local/share/rstudio/sessions/active/session-1"
    (Text ("active-client-id=" +:+ q "c0ffee" +:+ nl +:+ "abend=" +:+ q "0" +:+ nl))
    Absent EmptyString EmptyString EmptyString true
    (mkProc 0 ("{" +:+ q "result" +:+ ":null}") EmptyString)
    (TimedOut EmptyString EmptyString) 0.

Definition print_args : Args :=
  mkArgs "print(1)" EmptyString "1" "/usr/lib/rstudio-server/bin/rpostback" "1" "12" false.

End LowLevel.

(** ** The estimator: [estimate_export_seconds.py] *)

Module Estimate.
Import Validator Synth Dispatch.

(** The namespace [parse_args] returns. *)
Record EArgs : Type := mkEArgs {
  ea_timeout : string;
  ea_rpc_timeout : string;
  ea_help : bool;
  ea_expr : list string
}.

(** What one run of the estimator finds outside it. *)
Record EWorld : Type := mkEWorld {
  ew_find_rpc_script : option string;  (* [None]: [FileNotFoundError] *)
  ew_mkstemp : result string;
  ew_proc : result Proc;
  ew_polls : list (option string)      (* each round begun before the deadline: the text
                                          of the result file once it is there, not empty
                                          and readable *)
}.

Definition usage : string :=
  "Usage:" +:+ nl
  +:+ "  estimate_export_seconds.py [--timeout <seconds>] [--rpc-timeout <seconds>] '<R expression>'"
  +:+ nl +:+ nl
  +:+ "Description:" +:+ nl
  +:+ "  Evaluate object size for the provided R expression in the live RStudio session and print:"
  +:+ nl
  +:+ "    max(5, ceiling(0.5 * size_in_MB + 10))" +:+ nl +:+ nl
  +:+ "Examples:" +:+ nl
  +:+ "  estimate_export_seconds.py 'total'" +:+ nl
  +:+ "  estimate_export_seconds.py --timeout 120 --rpc-timeout 120 'list(meta = total@meta.data)'"
  +:+ nl.

Definition eprint (msg : string) : event := Print_stderr (ln msg).

Definition is_int_string (value : string) : bool :=
  Re.fullmatch Re.no_flags digits value.

Definition escape_for_r_string (value : string) : string :=
  let value := Py.replace_char "\" (Py.bsl +:+ Py.bsl) value in
  let value := Py.replace_char (ascii_of_nat 34) (Py.bsl +:+ Py.dq) value in
  let value := Py.replace_char (ascii_of_nat 10) (Py.bsl +:+ "n") value in
  value.

(** The lines of the code the estimator sends. *)
Definition code_lines (out_path r_expr : string) : list string :=
  [ ".codex_result_out_path <- " +:+ q (escape_for_r_string out_path);
    ".codex_result <- tryCatch({ "
      +:+ ".codex_size_mb <- as.numeric(object.size((" +:+ r_expr +:+ "))) / (1024^2); "
      +:+ "max(5, ceiling(0.5 * .codex_size_mb + 10)) "
      +:+ "}, error = function(e) e)";
    "if (inherits(.codex_result, " +:+ q "error" +:+ ")) {";
    "  writeLines(paste0(" +:+ q "__ERROR__:"
      +:+ ", conditionMessage(.codex_result)), .codex_result_out_path)";
    "} else {";
    "  dput(.codex_result, file = .codex_result_out_path)";
    "}" ].

(** The loop that waits for the result file, and what follows it. *)
Fixpoint wait (out_path : string) (polls : list (option string)) : Z * list event :=
  match polls with
  | [] => (1%Z, [eprint ("Timed out waiting for result file: " +:+ out_path)])
  | Some content :: _ => (0%Z, [Poll_result_file out_path; Print_stdout content])
  | None :: rest =>
      let later := wait out_path rest in
      (later.1, Poll_result_file out_path :: Sleep_200ms :: later.2)
  end.

(** [main], once [parse_args] has returned [args]: the exit status, or the
    exception that leaves [main], and what was run, printed and removed. *)
Definition main (args : EArgs) (w : EWorld) : result Z * list event :=
  if ea_help args then (Ok 0%Z, [Print_stdout usage]) else
  if negb (is_int_string (ea_timeout args)) then
    (Ok 2%Z, [eprint "--timeout must be an integer number of seconds."]) else
  if negb (is_int_string (ea_rpc_timeout args)) then
    (Ok 2%Z, [eprint "--rpc-timeout must be an integer number of seconds."]) else
  match ea_expr args with
  | [] => (Ok 2%Z, [eprint usage])
  | _ =>
  let r_expr := Py.join " " (ea_expr args) in
  if Py.contains nl r_expr then (Ok 2%Z, [eprint "R expression must be one line."]) else
  match ew_find_rpc_script w with
  | None =>
      (Ok 1%Z,
       [eprint "Unable to locate communicate_with_rstudio_console_with_rpc_low_level.py"])
  | Some rpc_script =>
  match ew_mkstemp w with
  | Raise e => (Raise e, [])
  | Ok out_path =>
  let code := Py.join nl (code_lines out_path r_expr) in
  let cmd := ["python3"; rpc_script; "--code"; code; "--rpc-timeout"; ea_rpc_timeout args] in
  let body :=
    match ew_proc w with
    | Raise e => (Raise e, [Run_subprocess cmd])
    | Ok proc =>
        if negb (returncode proc =? 0)%Z then
          (Ok 1%Z,
           (Run_subprocess cmd
            :: (if Py.truthy (stdout proc) then [Print_stdout (stdout proc)] else [])
            ++ (if Py.truthy (stderr proc) then [Print_stderr (stderr proc)] else [])))
        else
          let waited := wait out_path (ew_polls w) in
          (Ok waited.1, Run_subprocess cmd :: waited.2)
    end in
  (body.1, (body.2 ++ [Unlink out_path]))
  end
  end
  end.

(** Vocabulary for the statements. *)

(** The arguments the estimator refuses with exit status 2. *)
Definition refused (args : EArgs) : Prop :=
  is_int_string (ea_timeout args) = false \/
  is_int_string (ea_rpc_timeout args) = false \/
  ea_expr args = [] \/
  Py.contains nl (Py.join " " (ea_expr args)) = true.

(** A run that asks for the size of [total] and finds the answer in the
    second round. *)
Definition total_args : EArgs := mkEArgs "30" "30" false ["total"].

Definition total_world : EWorld :=
  mkEWorld (Some "/opt/r-assist/scripts/communicate_with_rstudio_console_with_rpc_low_level.py")
           (Ok "/tmp/codex_estimate_export_seconds_0.txt")
           (Ok (mkProc 0 EmptyString EmptyString))
           [None; Some ("12" +:+ nl)].

End Estimate.

(** ** The syntax check before a send *)

Module ParseCheck.
Import Validator Synth Dispatch.

(** The line boundaries of [str.splitlines] below code point 256. *)
Definition is_linebreak (c : ascii) : bool :=
  Py.between 10 13 c || Py.between 28 30 c || (Py.code c =? 133)%nat.

(** [s.splitlines()]: a carriage return with the line feed after it is one
    boundary, and a boundary at the very end opens no line. *)
Fixpoint splitlines (s : string) : list string :=
  match s with
  | EmptyString => []
  | String c s' =>
      if is_linebreak c then
        match s' with
        | String d s'' =>
            if (Py.code c =? 13)%nat && (Py.code d =? 10)%nat
            then EmptyString :: splitlines s''
            else EmptyString :: splitlines s'
        | EmptyString => [EmptyString]
        end
      else
        match splitlines s' with
        | line :: lines => String c line :: lines
        | [] => [String c EmptyString]
        end
  end.

Definition is_digit (c : ascii) : bool := Py.between 48 57 c.

(** The pattern of [extract_parse_error_line] from just after its first
    colon: digits, a colon, digits, a colon; the first digits. *)
Definition match_position (s : string) : option string :=
  let '(line_digits, tail) := Session.span is_digit s in
  if Py.is_empty line_digits then None
  else
    match tail with
    | String ":" tail =>
        let '(column_digits, tail) := Session.span is_digit tail in
        if Py.is_empty column_digits then None
        else match tail with
             | String ":" _ => Some line_digits
             | _ => None
             end
    | _ => None
    end.

(** [re.search] of that pattern in one line: the leftmost match. *)
Fixpoint search_position (line : string) : option string :=
  match line with
  | EmptyString => None
  | String c rest =>
      if Ascii.eqb c ":" then
        match match_position rest with
        | Some line_digits => Some line_digits
        | None => search_position rest
        end
      else search_position rest
  end.

Fixpoint first_position (lines : list string) : option N :=
  match lines with
  | [] => None
  | line :: rest =>
      match search_position line with
      | Some line_digits => Some (LowLevel.int_of line_digits)
      | None => first_position rest
      end
  end.

Definition extract_parse_error_line (parse_output : string) : option N :=
  first_position (splitlines parse_output).

(** [range(start, end + 1)] for the window of the snippet: the line numbers
    from [max(1, line_no - 2)] to [min(count, line_no + 2)]. *)
Definition snippet_window (count : nat) (line_no : N) : list N :=
  let start := N.max 1 (line_no - 2) in
  let stop := N.min (N.of_nat count) (line_no + 2) in
  if (stop <? start)%N then []
  else map N.of_nat (seq (N.to_nat start) (N.to_nat (stop + 1 - start))).

Fixpoint spaces (n : nat) : string :=
  match n with
  | O => EmptyString
  | S n' => " " +:+ spaces n'
  end.

(** [f"{idx:4d}"] *)
Definition pad4 (idx : N) : string :=
  spaces (4 - String.length (pretty idx)) +:+ pretty idx.

Definition snippet_row (lines : list string) (line_no idx : N) : string :=
  (if (idx =? line_no)%N then ">>" else "  ") +:+ " " +:+ pad4 idx +:+ ": "
  +:+ nth (N.to_nat idx - 1) lines EmptyString.

Definition format_parse_error_snippet (r_code : string) (line_no : N) : string :=
  let lines := splitlines r_code in
  if (line_no <? 1)%N || (match lines with [] => true | _ => false end) then EmptyString
  else
    Py.join nl ("R snippet around parse error:"
                :: map (snippet_row lines line_no) (snippet_window (length lines) line_no)).

(** What one syntax check finds outside the script. *)
Record CheckWorld : Type := mkCheckWorld {
  cw_mkstemp_code : result string;
  cw_mkstemp_log : result string;
  cw_write_code : result unit;
  cw_rscript : result Proc;
  cw_write_log : result unit;
  cw_read_log : result string;
  cw_write_out : result unit
}.

Definition syntax_error : exn := ValidationError "R syntax check failed.".

(** [check_r_code_parse]: the outcome and what was written, run, printed
    and removed. *)
Definition check_r_code_parse (r_code : string) (expect_result : bool) (out_path : string)
    (w : CheckWorld) : result unit * list event :=
  match cw_mkstemp_code w with
  | Raise e => (Raise e, [])
  | Ok code_path =>
  match cw_mkstemp_log w with
  | Raise e => (Raise e, [])
  | Ok log_path =>
  let body :=
    let ev := [Write_text code_path r_code] in
    match cw_write_code w with
    | Raise e => (Raise e, ev)
    | Ok _ =>
    let expr := "parse(file = " +:+ q (escape_for_r_string code_path) +:+ ")" in
    let ev := (ev ++ [Run_subprocess ["Rscript"; "-e"; expr]]) in
    match cw_rscript w with
    | Raise e => (Raise e, ev)
    | Ok proc =>
    let ev := (ev ++ [Write_text log_path (stdout proc +:+ stderr proc)]) in
    match cw_write_log w with
    | Raise e => (Raise e, ev)
    | Ok _ =>
    if negb (returncode proc =? 0)%Z then
      match cw_read_log w with
      | Raise e => (Raise e, ev)
      | Ok parse_out =>
      let snippet :=
        match extract_parse_error_line parse_out with
        | Some line_no => format_parse_error_snippet r_code line_no
        | None => EmptyString
        end in
      let ev :=
        (ev ++ [Print_stderr (ln "__SYNTAX_ERROR__"); Print_stderr (ln parse_out)]
            ++ (if Py.truthy snippet then [Print_stderr (ln snippet)] else [])) in
      if expect_result then
        let payload :=
          "__SYNTAX_ERROR__" +:+ nl +:+ parse_out
          +:+ (if Py.truthy snippet then nl +:+ snippet +:+ nl else EmptyString) in
        let ev := (ev ++ [Write_text out_path payload]) in
        match cw_write_out w with
        | Raise e => (Raise e, ev)
        | Ok _ => (Raise syntax_error, ev)
        end
      else (Raise syntax_error, ev)
      end
    else (Ok tt, ev)
    end
    end
    end in
  (body.1, (body.2 ++ [Unlink code_path; Unlink log_path]))
  end
  end.

(** A check of a one-line fragment whose parse fails at line 1. *)
Definition failing_check : CheckWorld :=
  mkCheckWorld (Ok "/tmp/codex_rstudio_check_0.R") (Ok "/tmp/codex_rstudio_check_parse_0.txt")
    (Ok tt) (Ok (mkProc 1 EmptyString "Error in parse: /tmp/codex_rstudio_check_0.R:1:3: unexpected symbol"))
    (Ok tt) (Ok "Error in parse: /tmp/codex_rstudio_check_0.R:1:3: unexpected symbol") (Ok tt).

End ParseCheck.

(** ** Further vocabulary: the inputs of the loop *)

Module Inputs.
Import Validator Synth Dispatch Repl.

(** An input that is a line other than the three commands that dispatch or
    leave: whatever else it says, valid or not. *)
Definition stays (i : input) : Prop :=
  match i with
  | Line text _ =>
      Py.strip text <> "send" /\ Py.strip text <> "quit" /\ Py.strip text <> "exit"
  | _ => False
  end.

End Inputs.

(** * Properties *)

(** ** Texts *)

#[local] Arguments String.append !_ _ : simpl nomatch.

Section Texts.

Lemma append_nil_r (s : string) : s +:+ EmptyString = s.
Proof. induction s as [|c s IH]; simpl; [reflexivity | now rewrite IH]. Qed.

Lemma append_assoc (a b c : string) : (a +:+ b) +:+ c = a +:+ b +:+ c.
Proof. induction a as [|x a IH]; simpl; [reflexivity | now rewrite IH]. Qed.

Lemma is_empty_true (s : string) : Py.is_empty s = true <-> s = EmptyString.
Proof. destruct s; simpl; split; intros H; congruence. Qed.

Lemma startswith_append (p rest : string) : Py.startswith p (p +:+ rest) = true.
Proof.
  induction p as [|c p IH]; simpl; [reflexivity |].
  now rewrite Ascii.eqb_refl, IH.
Qed.

Lemma startswith_split (p s : string) :
  Py.startswith p s = true -> s = p +:+ Py.drop (String.length p) s.
Proof.
  revert s; induction p as [|c p IH]; intros [|x s]; simpl; try discriminate; auto.
  intros H. apply andb_true_iff in H as [Hc Hp].
  apply Ascii.eqb_eq in Hc. subst x. f_equal. now apply IH.
Qed.

Lemma startswith_trans_append (p s t : string) :
  Py.startswith p s = true -> Py.startswith p (s +:+ t) = true.
Proof.
  intros H. rewrite (startswith_split _ _ H), append_assoc.
  apply startswith_append.
Qed.

Lemma contains_unfold (sub s : string) :
  Py.contains sub s =
  Py.startswith sub s ||
  match s with EmptyString => false | String _ s' => Py.contains sub s' end.
Proof. destruct s; reflexivity. Qed.

(** [sub in s] holds exactly when [s] is some text, [sub], some text. *)
Lemma contains_spec (sub s : string) :
  Py.contains sub s = true <-> exists a b, s = a +:+ sub +:+ b.
Proof.
  split.
  - induction s as [|c s IH]; simpl; intros H.
    + rewrite orb_false_r in H. exists EmptyString, (Py.drop (String.length sub) EmptyString).
      now apply startswith_split.
    + apply orb_true_iff in H as [H|H].
      * exists EmptyString, (Py.drop (String.length sub) (String c s)).
        now apply startswith_split.
      * destruct (IH H) as (a & b & ->). now exists (String c a), b.
  - intros (a & b & ->). induction a as [|c a IH]; simpl.
    + now rewrite contains_unfold, startswith_append.
    + rewrite IH. apply orb_true_r.
Qed.

Lemma contains_append_l (sub a b : string) :
  Py.contains sub a = true -> Py.contains sub (a +:+ b) = true.
Proof.
  rewrite !contains_spec. intros (x & y & ->).
  exists x, (y +:+ b). now rewrite !append_assoc.
Qed.

Lemma contains_append_r (sub a b : string) :
  Py.contains sub b = true -> Py.contains sub (a +:+ b) = true.
Proof.
  rewrite !contains_spec. intros (x & y & ->).
  exists (a +:+ x), y. now rewrite !append_assoc.
Qed.

Lemma split_once_spec (sep s a b : string) :
  Py.split_once sep s = Some (a, b) -> s = a +:+ sep +:+ b.
Proof.
  revert a b; induction s as [|c s IH]; intros a b; simpl.
  - destruct (Py.startswith sep EmptyString) eqn:E; [|discriminate].
    intros [= <- <-]. now apply startswith_split.
  - destruct (Py.startswith sep (String c s)) eqn:E.
    + intros [= <- <-]. now apply startswith_split.
    + destruct (Py.split_once sep s) as [[a' b']|]; [|discriminate].
      intros [= <- <-]. simpl. f_equal. now apply IH.
Qed.

(** [split(sep, 1)] finds a separator exactly when [sep in s]. *)
Lemma split_once_none (sep s : string) :
  Py.split_once sep s = None <-> Py.contains sep s = false.
Proof.
  induction s as [|c s IH]; simpl.
  - destruct (Py.startswith sep EmptyString); simpl; split; congruence.
  - destruct (Py.startswith sep (String c s)); simpl; [split; congruence|].
    rewrite <- IH. destruct (Py.split_once sep s) as [[? ?]|]; split; congruence.
Qed.

(** A two-character token that shares no character with [":="] lies on
    one side of the separator. *)
Lemma contains_around_sep (x y : ascii) (a b : string) :
  x <> ":"%char -> x <> "="%char -> y <> ":"%char ->
  Py.contains (String x (String y EmptyString)) (a +:+ ":=" +:+ b) = true ->
  Py.contains (String x (String y EmptyString)) a = true \/
  Py.contains (String x (String y EmptyString)) b = true.
Proof.
  intros Hx1 Hx2 Hy.
  assert (Hne : forall u v : ascii, u <> v -> Ascii.eqb u v = false)
    by (intros u v; apply Ascii.eqb_neq).
  induction a as [|c a IH]; intros H.
  - right. cbn in H. rewrite (Hne _ _ Hx1), (Hne _ _ Hx2) in H. simpl in H.
    destruct b; exact H.
  - cbn [String.append Py.contains] in H. apply orb_true_iff in H as [H|H].
    + left. cbn in H. apply andb_true_iff in H as [Hc H].
      destruct a as [|c2 a]; cbn in H.
      * rewrite (Hne _ _ Hy) in H. discriminate.
      * rewrite andb_true_r in H. cbn. rewrite Hc, H. reflexivity.
    + destruct (IH H) as [Ha|Hb]; [left|right; exact Hb].
      cbn [Py.contains]. rewrite Ha. apply orb_true_r.
Qed.

Lemma contains_head_in (f : ascii -> bool) (c : ascii) (rest s : string) :
  Py.contains (String c rest) s = true -> Py.all_chars f s = true -> f c = true.
Proof.
  induction s as [|x s IH]; simpl; [discriminate|].
  intros H Hall. apply andb_true_iff in Hall as [Hx Hs].
  apply orb_true_iff in H as [H|H]; [|now apply IH].
  apply andb_true_iff in H as [Hc _]. apply Ascii.eqb_eq in Hc. now subst.
Qed.

Lemma lstrip_keeps (f : ascii -> bool) (c : ascii) (rest s : string) :
  f c = false ->
  Py.contains (String c rest) s = true ->
  Py.contains (String c rest) (Py.lstrip_by f s) = true.
Proof.
  intros Hc. induction s as [|x s IH]; [now simpl|].
  intros H. cbn [Py.lstrip_by]. destruct (f x) eqn:Hx; [|exact H].
  apply IH. cbn [Py.contains] in H. apply orb_true_iff in H as [H|H]; [|exact H].
  cbn in H. apply andb_true_iff in H as [E _]. apply Ascii.eqb_eq in E. congruence.
Qed.

Lemma rstrip_solid (f : ascii -> bool) (sub b : string) :
  Py.all_chars (fun c => negb (f c)) sub = true ->
  Py.rstrip_by f (sub +:+ b) = sub +:+ Py.rstrip_by f b.
Proof.
  induction sub as [|c sub IH]; simpl; [reflexivity|].
  intros H. apply andb_true_iff in H as [Hc Hs].
  rewrite (IH Hs). apply negb_true_iff in Hc. now rewrite Hc, andb_false_r.
Qed.

Lemma rstrip_after (f : ascii -> bool) (a t : string) :
  Py.is_empty (Py.rstrip_by f t) = false ->
  Py.rstrip_by f (a +:+ t) = a +:+ Py.rstrip_by f t.
Proof.
  intros Ht. induction a as [|c a IH]; simpl; [reflexivity|].
  rewrite IH. destruct a; simpl; [now rewrite Ht|reflexivity].
Qed.

Lemma rstrip_keeps (f : ascii -> bool) (c : ascii) (rest s : string) :
  Py.all_chars (fun c => negb (f c)) (String c rest) = true ->
  Py.contains (String c rest) s = true ->
  Py.contains (String c rest) (Py.rstrip_by f s) = true.
Proof.
  intros Hsolid H. apply contains_spec in H as (a & b & ->).
  rewrite rstrip_after.
  - rewrite rstrip_solid by exact Hsolid. apply contains_spec. eauto.
  - rewrite rstrip_solid by exact Hsolid. reflexivity.
Qed.

(** [strip] keeps every occurrence of a token without whitespace. *)
Lemma strip_keeps (c : ascii) (rest s : string) :
  Py.all_chars (fun c => negb (Py.isspace c)) (String c rest) = true ->
  Py.contains (String c rest) s = true ->
  Py.contains (String c rest) (Py.strip s) = true.
Proof.
  intros Hsolid H. unfold Py.strip.
  apply rstrip_keeps; [exact Hsolid|].
  apply lstrip_keeps; [|exact H].
  simpl in Hsolid. apply andb_true_iff in Hsolid as [Hc _].
  now apply negb_true_iff in Hc.
Qed.

End Texts.

(** ** The matcher *)

Section Matcher.
Import Re.

Lemma chr_eq_refl (fl : flags) (c : ascii) : chr_eq fl c c = true.
Proof. unfold chr_eq. destruct (ignorecase fl); apply Ascii.eqb_refl. Qed.

Lemma lit_cons (c : ascii) (p : string) (fl : flags) (prev : option ascii) (s : string)
    (k : option ascii -> string -> bool) :
  m fl (lit (String c p)) prev s k =
  one (chr_eq fl c) s (fun p' s' => m fl (lit p) p' s' k).
Proof. destruct p; reflexivity. Qed.

(** A literal matches at the head of a text that starts with it. *)
Lemma m_lit_append (fl : flags) (p rest : string) (prev : option ascii)
    (k : option ascii -> string -> bool) :
  (forall pr, k pr rest = true) ->
  m fl (lit p) prev (p +:+ rest) k = true.
Proof.
  intros Hk. revert prev. induction p as [|c p IH]; intros prev.
  - simpl. apply Hk.
  - rewrite lit_cons. simpl. now rewrite chr_eq_refl, IH.
Qed.

Lemma search_from_lit (fl : flags) (p s : string) (prev : option ascii) :
  Py.contains p s = true -> search_from fl (lit p) prev s = true.
Proof.
  revert prev. induction s as [|c s IH]; intros prev H.
  - simpl in *. rewrite orb_false_r in *.
    rewrite (startswith_split _ _ H). now rewrite m_lit_append.
  - simpl in H. apply orb_true_iff in H as [H|H].
    + cbn [search_from]. rewrite (startswith_split _ _ H).
      now rewrite m_lit_append.
    + cbn [search_from]. rewrite (IH _ H). apply orb_true_r.
Qed.

(** [re.search] finds a literal wherever the text contains it. *)
Lemma search_lit (fl : flags) (p s : string) :
  Py.contains p s = true -> search fl (lit p) s = true.
Proof. apply search_from_lit. Qed.

(** A starred one-character pattern, matched to the end of the text,
    accepts exactly the texts made of such characters. *)
Lemma star_one_to_end (f : ascii -> bool) (n : nat) (prev : option ascii) (s : string) :
  (String.length s < n)%nat ->
  star_loop (fun _ s k => one f s k) (fun _ s' => Py.is_empty s') n prev s =
  Py.all_chars f s.
Proof.
  revert prev s. induction n as [|n IH]; intros prev s Hn; [lia|].
  destruct s as [|x s]; [reflexivity|].
  cbn [star_loop Py.is_empty orb one Py.all_chars String.length].
  cbn [String.length] in Hn.
  rewrite IH by lia.
  replace (String.length s <? S (String.length s))%nat with true
    by (symmetry; apply Nat.ltb_lt; lia).
  reflexivity.
Qed.

(** [re.fullmatch] of the identifier pattern, character by character. *)
Lemma fullmatch_identifier (s : string) :
  fullmatch no_flags Validator.identifier s =
  match s with
  | EmptyString => false
  | String c rest => Validator.ident_start c && Py.all_chars Validator.ident_rest rest
  end.
Proof.
  destruct s as [|c rest]; [reflexivity|].
  unfold fullmatch, Validator.identifier.
  cbn [m one]. fold (Validator.ident_start c). f_equal.
  now rewrite (star_one_to_end Validator.ident_rest) by lia.
Qed.

Lemma ident_start_rest (c : ascii) :
  Validator.ident_start c = true -> Validator.ident_rest c = true.
Proof.
  unfold Validator.ident_start, Validator.ident_rest. cbn [in_class existsb ignorecase no_flags andb orb].
  rewrite !orb_false_r. intros H.
  apply orb_true_iff in H as [H|H]; [now rewrite H|].
  apply orb_true_iff in H as [H|H]; rewrite H; now rewrite ?orb_true_r.
Qed.

Lemma identifier_chars (s : string) :
  fullmatch no_flags Validator.identifier s = true ->
  Py.all_chars Validator.ident_rest s = true.
Proof.
  rewrite fullmatch_identifier. destruct s as [|c rest]; [discriminate|].
  intros H. apply andb_true_iff in H as [Hc Hr]. cbn [Py.all_chars].
  now rewrite (ident_start_rest _ Hc), Hr.
Qed.

End Matcher.

(** ** The validator *)

(** One step of a run that returned: the first check of [H] passed. *)
Ltac ok_step H :=
  cbn [mbind result_bind] in H;
  lazymatch type of H with
  | Raise _ = Ok _ => discriminate H
  | (?r ≫= _) = Ok _ =>
      destruct r; cbn [mbind result_bind] in H; [|discriminate H]
  end.

Section Validation.
Import Re Validator Spec.

Lemma validates_raise_if (c : bool) (msg : string) :
  validates (raise_if c (ValidationError msg)).
Proof. destruct c; exact I. Qed.

Lemma validates_bind {A B : Type} (r : result A) (f : A -> result B) :
  validates r -> (forall a, validates (f a)) -> validates (r ≫= f).
Proof. destruct r as [a|[]]; simpl; auto. Qed.

Lemma validates_for_each {A : Type} (f : A -> result unit) (xs : list A) :
  (forall x, validates (f x)) -> validates (for_each f xs).
Proof.
  intros Hf. induction xs as [|x xs IH]; [exact I|].
  simpl. apply validates_bind; auto.
Qed.

Lemma rejects_validates {A : Type} (r : result A) : rejects r -> validates r.
Proof. intros [msg ->]. exact I. Qed.

(** A check that can only reject, before a check that rejects, rejects. *)
Lemma rejects_after {A B : Type} (r : result A) (f : A -> result B) :
  validates r -> (forall a, rejects (f a)) -> rejects (r ≫= f).
Proof.
  destruct r as [a|[msg| | |]]; simpl; intros H Hf; try contradiction; [apply Hf|].
  now exists msg.
Qed.

Lemma rejects_raise_if (msg : string) : rejects (raise_if true (ValidationError msg)).
Proof. now exists msg. Qed.

Lemma rejects_first {A B : Type} (r : result A) (f : A -> result B) :
  rejects r -> rejects (r ≫= f).
Proof. intros [msg ->]. now exists msg. Qed.

Lemma validates_common_blocklist (code label : string) :
  validates (validate_common_blocklist code label).
Proof.
  unfold validate_common_blocklist.
  apply validates_bind.
  - apply validates_for_each. intros p. apply validates_raise_if.
  - intros _. destruct (contains_regex code source_call); [|exact I].
    apply validates_bind; intros; apply validates_raise_if.
Qed.

Lemma validates_identifier (value label : string) :
  validates (validate_identifier value label).
Proof. apply validates_raise_if. Qed.

Lemma validates_assignment_free (code label : string) :
  validates (validate_assignment_free code label).
Proof.
  unfold validate_assignment_free.
  apply validates_bind; intros; apply validates_raise_if.
Qed.

(** [validate_assignment_free] rejects every fragment with an arrow. *)
Lemma assignment_free_rejects (code label : string) :
  has_arrow code -> rejects (validate_assignment_free code label).
Proof.
  unfold validate_assignment_free, contains_regex, left_arrow, right_arrow.
  intros [H|H].
  - rewrite (search_lit _ _ _ H). apply rejects_first, rejects_raise_if.
  - apply rejects_after; [apply validates_raise_if|].
    intros _. rewrite (search_lit _ _ _ H). apply rejects_raise_if.
Qed.

(** And it accepts the fragments on which neither pattern is found. *)
Lemma assignment_free_accepts (code label : string) :
  contains_regex code left_arrow = false ->
  contains_regex code right_arrow = false ->
  validate_assignment_free code label = Ok tt.
Proof. unfold validate_assignment_free. now intros -> ->. Qed.

Lemma has_arrow_trim (code : string) : has_arrow code -> has_arrow (trim code).
Proof. intros [H|H]; [left|right]; now apply strip_keeps. Qed.

Lemma arrow_not_identifier (name : string) :
  has_arrow name -> fullmatch no_flags identifier name = false.
Proof.
  intros H. destruct (fullmatch no_flags identifier name) eqn:E; [|reflexivity].
  apply identifier_chars in E.
  destruct H as [H|H]; now apply (contains_head_in _ _ _ _ H) in E.
Qed.

Lemma validates_name_expr_spec (spec label : string) :
  validates (validate_name_expr_spec spec label).
Proof.
  unfold validate_name_expr_spec.
  destruct (Py.split_once ":=" spec) as [[name_part expr_part]|]; [|exact I].
  repeat first
    [ apply validates_raise_if | apply validates_common_blocklist
    | apply validates_identifier | apply validates_assignment_free | exact I
    | apply validates_bind; [|intros _] ].
Qed.

(** A [Create] spec with an arrow anywhere is rejected. *)
Lemma name_expr_spec_rejects_arrow (spec label : string) :
  has_arrow spec -> rejects (validate_name_expr_spec spec label).
Proof.
  intros Harrow. unfold validate_name_expr_spec.
  destruct (Py.split_once ":=" spec) as [[name_part expr_part]|] eqn:Hsplit;
    [|eexists; reflexivity].
  apply split_once_spec in Hsplit. subst spec.
  assert (Hside : has_arrow name_part \/ has_arrow expr_part).
  { destruct Harrow as [H|H];
      apply contains_around_sep in H; try discriminate;
      destruct H as [H|H]; [left; left| right; left | left; right | right; right]; exact H. }
  apply rejects_after; [apply validates_raise_if|intros _].
  destruct Hside as [Hn|He].
  - apply rejects_first. unfold validate_identifier.
    rewrite (arrow_not_identifier _ (has_arrow_trim _ Hn)). apply rejects_raise_if.
  - apply rejects_after; [apply validates_identifier|intros _].
    apply rejects_after; [apply validates_raise_if|intros _].
    apply rejects_after; [apply validates_common_blocklist|intros _].
    apply rejects_first. apply assignment_free_rejects, has_arrow_trim, He.
Qed.

End Validation.

(** ** Arrows and the validator roles (C2) *)

Section Arrows.
Import Re Validator Spec.

Lemma result_expr_rejects_arrow (code : string) :
  has_arrow code -> rejects (validate_result_expr code).
Proof.
  intros H. unfold validate_result_expr.
  do 2 (apply rejects_after; [apply validates_raise_if|intros _]).
  apply rejects_after; [apply validates_common_blocklist|intros _].
  now apply assignment_free_rejects.
Qed.

Lemma export_expr_rejects_arrow (code : string) :
  has_arrow code -> rejects (validate_state_export_expr code).
Proof.
  intros H. unfold validate_state_export_expr.
  do 2 (apply rejects_after; [apply validates_raise_if|intros _]).
  apply rejects_after; [apply validates_common_blocklist|intros _].
  now apply assignment_free_rejects.
Qed.

(** C2, as the code has it: a fragment that contains a left-arrow or a
    right-arrow token is rejected in the roles that check for assignment,
    which are the result expression, the export expression and the [Create]
    spec (the arrow anywhere in the spec, in particular in its expression).
    The append and modify roles make no such check. *)
Theorem C2_arrow_rejected_in_expression_roles (code : string) :
  has_arrow code ->
  rejects (validate_result_expr code) /\
  rejects (validate_state_export_expr code) /\
  (forall label, rejects (validate_name_expr_spec code label)) /\
  (forall name label, rejects (validate_name_expr_spec (name +:+ ":=" +:+ code) label)).
Proof.
  intros H. repeat split.
  - now apply result_expr_rejects_arrow.
  - now apply export_expr_rejects_arrow.
  - intros label. now apply name_expr_spec_rejects_arrow.
  - intros name label. apply name_expr_spec_rejects_arrow.
    destruct H as [H|H]; [left|right]; now do 2 apply contains_append_r.
Qed.

Lemma C2_arrow_rejected_witness :
  has_arrow "x <- 1" /\
  rejects (validate_result_expr "x <- 1") /\
  rejects (validate_state_export_expr "x <- 1") /\
  (forall label, rejects (validate_name_expr_spec "x <- 1" label)) /\
  (forall name label, rejects (validate_name_expr_spec (name +:+ ":=" +:+ "x <- 1") label)).
Proof.
  assert (H : has_arrow "x <- 1") by (left; reflexivity).
  split; [exact H|]. exact (C2_arrow_rejected_in_expression_roles "x <- 1" H).
Defined.

(** C2 as stated fails for the append and modify roles: both accept a
    fragment with a left arrow and a fragment with a right arrow. *)
Lemma C2_append_and_modify_accept_arrows :
  has_arrow "x <- 1" /\ has_arrow "1 -> x" /\
  validate_append_snippet "x <- 1" = Ok tt /\
  validate_append_snippet "1 -> x" = Ok tt /\
  validate_modify_global_snippet "x <- 1" = Ok tt /\
  validate_modify_global_snippet "1 -> x" = Ok tt.
Proof.
  split; [left; reflexivity|]. split; [right; reflexivity|].
  repeat split; vm_compute; reflexivity.
Qed.

End Arrows.

(** ** [Create] specs (C8) *)

Section CreateSpecs.
Import Re Validator Spec.

Lemma is_empty_false (s : string) : s <> EmptyString -> Py.is_empty s = false.
Proof. destruct s; [congruence|reflexivity]. Qed.

(** C8, as the code has it: a [Create] spec is rejected when it lacks
    [:=], when the trimmed name or the trimmed expression is empty, and when
    the trimmed name does not match the identifier pattern; a spec that
    passes these three checks, whose expression passes the truncation check,
    the common blocklist and the no-assignment check, yields the trimmed
    (name, expression) pair.  No other result is possible: the call returns
    that pair or raises [ValidationError]. *)
Theorem C8_create_spec_validation (spec label : string) :
  validates (validate_name_expr_spec spec label) /\
  (Py.contains ":=" spec = false -> rejects (validate_name_expr_spec spec label)) /\
  forall name_part expr_part,
    Py.split_once ":=" spec = Some (name_part, expr_part) ->
    let name := trim name_part in
    let expr := trim expr_part in
    let what := label +:+ " expression '" +:+ name +:+ "'" in
    (name = EmptyString \/ expr = EmptyString ->
     rejects (validate_name_expr_spec spec label)) /\
    (fullmatch no_flags identifier name = false ->
     rejects (validate_name_expr_spec spec label)) /\
    (name <> EmptyString -> expr <> EmptyString ->
     fullmatch no_flags identifier name = true ->
     contains_regex expr looks_incomplete = false ->
     validate_common_blocklist expr what = Ok tt ->
     validate_assignment_free expr what = Ok tt ->
     validate_name_expr_spec spec label = Ok (name, expr)) /\
    (forall r, validate_name_expr_spec spec label = Ok r -> r = (name, expr)).
Proof.
  split; [apply validates_name_expr_spec|]. split.
  - intros H. apply split_once_none in H. unfold validate_name_expr_spec.
    rewrite H. eexists; reflexivity.
  - intros name_part expr_part Hsplit name expr what.
    unfold validate_name_expr_spec. rewrite Hsplit. fold name expr. fold what.
    repeat split.
    + intros Hempty. apply rejects_first.
      replace (Py.is_empty name || Py.is_empty expr) with true; [apply rejects_raise_if|].
      symmetry. apply orb_true_iff.
      destruct Hempty as [-> | ->]; [left|right]; reflexivity.
    + intros Hid. apply rejects_after; [apply validates_raise_if|intros _].
      apply rejects_first. unfold validate_identifier. rewrite Hid.
      apply rejects_raise_if.
    + intros Hn He Hid Htrunc Hblock Hfree.
      rewrite (is_empty_false _ Hn), (is_empty_false _ He).
      unfold validate_identifier. rewrite Hid, Htrunc, Hblock, Hfree. reflexivity.
    + intros r Hr. repeat ok_step Hr. now injection Hr as <-.
Qed.

Lemma C8_create_spec_witness :
  validate_name_expr_spec " my.var := f(1) " "create" = Ok ("my.var", "f(1)").
Proof.
  destruct (C8_create_spec_validation " my.var := f(1) " "create") as (_ & _ & H).
  destruct (H " my.var " " f(1) " eq_refl) as (_ & _ & Hok & _).
  apply Hok; try reflexivity; discriminate.
Defined.

(** C8 as stated fails: this spec passes the three structural checks, the
    truncation check and the common blocklist, and is rejected all the same,
    by the no-assignment check on its expression. *)
Lemma C8_blocklist_is_not_the_last_check :
  Py.split_once ":=" "x := (y <- 2)" = Some ("x ", " (y <- 2)") /\
  trim "x " = "x" /\ trim " (y <- 2)" = "(y <- 2)" /\
  fullmatch no_flags identifier "x" = true /\
  contains_regex "(y <- 2)" looks_incomplete = false /\
  validate_common_blocklist "(y <- 2)" "create expression 'x'" = Ok tt /\
  validate_name_expr_spec "x := (y <- 2)" "create" =
    Raise (ValidationError "create expression 'x' cannot contain '<-' assignment.").
Proof. repeat split; vm_compute; reflexivity. Qed.

End CreateSpecs.

(** ** Validation of a request before it is sent (C3, C9, C4) *)

Section SendValidation.
Import Re Validator Synth Dispatch Repl Spec.

Lemma validates_append_snippet (snippet : string) :
  validates (validate_append_snippet snippet).
Proof.
  unfold validate_append_snippet, validate_append_file_restrictions.
  repeat first
    [ apply validates_raise_if | apply validates_common_blocklist
    | apply validates_for_each; intros ?
    | apply validates_bind; [|intros _] ].
Qed.

Lemma validates_result_expr (expr : string) : validates (validate_result_expr expr).
Proof.
  unfold validate_result_expr.
  repeat first
    [ apply validates_raise_if | apply validates_common_blocklist
    | apply validates_assignment_free | apply validates_bind; [|intros _] ].
Qed.

Lemma validates_modify_global_snippet (snippet : string) :
  validates (validate_modify_global_snippet snippet).
Proof.
  unfold validate_modify_global_snippet.
  apply validates_bind; [apply validates_raise_if|intros _].
  apply validates_common_blocklist.
Qed.

Lemma validates_ensure_int_string (value label : string) :
  validates (ensure_int_string value label).
Proof. apply validates_raise_if. Qed.

Lemma truthy_empty (s : string) : s = EmptyString -> Py.truthy s = false.
Proof. now intros ->. Qed.

Lemma nonempty_true {A : Type} (l : list A) : l <> [] -> nonempty l = true.
Proof. destruct l; [congruence|reflexivity]. Qed.

(** C3: a request whose export expression is set together with a result
    expression, a [Create] spec or a [Modify] snippet fails send validation,
    with the error of the exclusion check; [send_current_state] raises it
    before doing anything, so [build_r_code] is never reached. *)
Theorem C3_export_excludes_other_terminals (state : State) (w : World) :
  Py.truthy (state_export_expr state) = true ->
  Py.truthy (result_expr state) = true \/ create_global_specs state <> []
    \/ modify_global_snippets state <> [] ->
  (forall tmp, validate_state_for_send state tmp = Raise export_combined) /\
  send_current_state state w = (Raise export_combined, []) /\
  Call_build_r_code ∉ (send_current_state state w).2.
Proof.
  intros Hexport Hother.
  assert (Hval : forall tmp, validate_state_for_send state tmp = Raise export_combined).
  { intros tmp. unfold validate_state_for_send. rewrite Hexport.
    replace (Py.truthy (result_expr state) || nonempty (create_global_specs state)
             || nonempty (modify_global_snippets state)) with true.
    - rewrite !orb_true_r. reflexivity.
    - symmetry. destruct Hother as [H|[H|H]].
      + now rewrite H.
      + rewrite (nonempty_true _ H). now rewrite orb_true_r.
      + rewrite (nonempty_true _ H). now rewrite orb_true_r. }
  split; [exact Hval|].
  unfold send_current_state. rewrite Hval. split; [reflexivity|].
  cbn. apply not_elem_of_nil.
Qed.

Lemma C3_export_excludes_witness :
  send_current_state (request ["export: x"; "create: y := 1"]) (quiet_world 0)
  = (Raise export_combined, []).
Proof.
  refine (proj1 (proj2 (C3_export_excludes_other_terminals _ _ _ _))).
  - vm_compute; reflexivity.
  - right; left; vm_compute; discriminate.
Defined.

Lemma validates_create_check (snippet : string) :
  validates (validate_name_expr_spec snippet "create" ;; Ok tt).
Proof. apply validates_bind; [apply validates_name_expr_spec|intros _; exact I]. Qed.

(** The checks of [validate_state_for_send] up to the capture-output check
    can only reject. *)
Ltac pass_check :=
  apply rejects_after;
  [ first [ apply validates_raise_if | apply validates_ensure_int_string
          | apply validates_for_each; intros ?;
            first [ apply validates_append_snippet | apply validates_create_check
                  | apply validates_modify_global_snippet ]
          | exact I ]
  | intros _ ].

Lemma capture_without_result_rejected (state : State) (tmp : Mkstemp) :
  capture_output state = true ->
  result_expr state = EmptyString ->
  state_export_expr state = EmptyString ->
  rejects (validate_state_for_send state tmp).
Proof.
  intros Hcap Hres Hexp. unfold validate_state_for_send.
  rewrite Hcap, Hres, Hexp. cbn [Py.truthy Py.is_empty negb orb andb].
  do 3 pass_check.
  apply rejects_after.
  { destruct (benchmark_mode state); [|exact I].
    apply validates_bind; intros; apply validates_raise_if. }
  intros _. do 8 pass_check.
  apply rejects_first, rejects_raise_if.
Qed.

(** C9, as the code has it: a request with capture-output set and neither a
    result nor an export expression always fails send validation with a
    [ValidationError], raised by [send_current_state] before it resolves the
    session or does anything else.  The error is the one of the
    capture-output check whenever the request is valid but for that flag;
    when an earlier check fails, it is that check's error. *)
Theorem C9_capture_output_requires_result_or_export (state : State) (w : World) :
  capture_output state = true ->
  result_expr state = EmptyString ->
  state_export_expr state = EmptyString ->
  (forall tmp, rejects (validate_state_for_send state tmp)) /\
  (exists msg, send_current_state state w = (Raise (ValidationError msg), [])) /\
  (forall tmp ctx,
     validate_state_for_send (set_capture_output state false) tmp = Ok ctx ->
     validate_state_for_send state tmp = Raise capture_needs_result).
Proof.
  intros Hcap Hres Hexp. split; [|split].
  - intros tmp. now apply capture_without_result_rejected.
  - destruct (capture_without_result_rejected state (w_mkstemp w) Hcap Hres Hexp)
      as [msg Hmsg].
    exists msg. unfold send_current_state. now rewrite Hmsg.
  - intros tmp ctx H. unfold validate_state_for_send in *.
    cbn [set_capture_output append_code_snippets result_expr state_export_expr
         create_global_specs modify_global_snippets request_id timeout_seconds
         rpc_timeout_seconds benchmark_mode benchmark_unit capture_output out_path] in H.
    rewrite Hcap. rewrite Hres, Hexp in *.
    cbn [Py.truthy Py.is_empty negb orb andb] in *.
    repeat ok_step H. reflexivity.
Qed.

Lemma C9_capture_output_witness :
  validate_state_for_send (request ["append: x = 1"; "capture-output: on"])
    (w_mkstemp (quiet_world 0)) = Raise capture_needs_result.
Proof.
  refine (proj2 (proj2 (C9_capture_output_requires_result_or_export
            (request ["append: x = 1"; "capture-output: on"]) (quiet_world 0) _ _ _)) _
            (mkSendContext false EmptyString false EmptyString true) _);
    reflexivity.
Defined.

(** C9 as stated fails on the error it names: with no capability at all the
    request is rejected by the first check, and with an append fragment and a
    request id that is no integer by the check of the id. *)
Lemma C9_earlier_check_reports_first :
  let bare := set_capture_output initial_state true in
  let bad_id := set_request_id (request ["append: x = 1"; "capture-output: on"]) "seven" in
  capture_output bare = true /\ result_expr bare = EmptyString /\
  state_export_expr bare = EmptyString /\
  validate_state_for_send bare (w_mkstemp (quiet_world 0)) = Raise no_capability /\
  capture_output bad_id = true /\ result_expr bad_id = EmptyString /\
  state_export_expr bad_id = EmptyString /\
  validate_state_for_send bad_id (w_mkstemp (quiet_world 0))
    = Raise (ValidationError "id must be an integer.").
Proof. repeat split; vm_compute; reflexivity. Qed.

Lemma concat_all_app (a b : list string) :
  Py.concat_all (a ++ b) = Py.concat_all a +:+ Py.concat_all b.
Proof.
  induction a as [|x a IH]; [reflexivity|].
  cbn [app Py.concat_all]. now rewrite IH, append_assoc.
Qed.

(** What validation returns for a request of [Append] fragments only. *)
Lemma append_only_context (state : State) (tmp : Mkstemp) (ctx : SendContext) :
  only_appends state ->
  validate_state_for_send state tmp = Ok ctx ->
  capture_output state = false /\
  ctx = mkSendContext false (out_path state) false EmptyString true.
Proof.
  intros (Happ & Hres & Hexp & Hcre & Hmod) H.
  unfold validate_state_for_send in H.
  rewrite Hres, Hexp, Hcre, Hmod, (nonempty_true _ Happ) in H.
  cbn [Py.truthy Py.is_empty negb orb andb nonempty for_each] in H.
  cbn [raise_if mbind result_bind] in H.
  destruct (capture_output state); cbn [andb orb negb raise_if] in H; repeat ok_step H.
  now injection H as <-.
Qed.

(** C4: for a request whose only capabilities are [Append] fragments, send
    validation sets [expect_result] to false, and the fragment [build_r_code]
    then produces is the synthesizer's own lines around the user's fragments
    with none of the four blocks that write the outcome: no line of the
    synthesizer's own calls [dput] or [writeLines] or sets
    [.codex_result_written], while every one of the four omitted blocks
    does. *)
Theorem C4_append_only_writes_no_result (state : State) (tmp : Mkstemp) (ctx : SendContext) :
  only_appends state ->
  validate_state_for_send state tmp = Ok ctx ->
  expect_result ctx = false /\
  append_only ctx = true /\
  build_r_code state ctx = Ok (append_only_fragment (append_code_snippets state)) /\
  forallb (fun line => negb (writes_result line)) append_only_own_lines = true /\
  length (filter (fun line => writes_result line) r_serialize) = 12.
Proof.
  intros Honly H.
  destruct (append_only_context _ _ _ Honly H) as [Hcap ->].
  destruct Honly as (Happ & Hres & Hexp & Hcre & Hmod).
  split; [reflexivity|]. split; [reflexivity|]. split; [|split].
  - unfold build_r_code, exec_lines, result_lines, export_lines, append_only_fragment.
    rewrite Hres, Hexp, Hcre, Hmod, Hcap.
    cbn [Py.truthy Py.is_empty negb create_loop mbind result_bind map Py.join
         join_lines expect_result ctx_out_path].
    rewrite !app_nil_r. reflexivity.
  - vm_compute. reflexivity.
  - vm_compute. reflexivity.
Qed.

Lemma C4_append_only_witness :
  build_r_code (request ["append: x = 1"])
    (mkSendContext false EmptyString false EmptyString true)
  = Ok (append_only_fragment [" x = 1"]).
Proof.
  refine (proj1 (proj2 (proj2 (C4_append_only_writes_no_result
            (request ["append: x = 1"]) (w_mkstemp (quiet_world 0)) _ _ _)))).
  - repeat split; vm_compute; discriminate.
  - vm_compute; reflexivity.
Defined.

End SendValidation.

(** ** Dispatch and the wait for the result (C5, C10) *)

Section Dispatching.
Import Re Validator Synth Dispatch Repl Spec.

Lemma no_poll_app (a b : list event) :
  existsb is_poll_event (a ++ b) = existsb is_poll_event a || existsb is_poll_event b.
Proof. apply existsb_app. Qed.

Lemma busy_check_no_poll (files : PropertyFiles) :
  existsb is_poll_event (check_session_busy_before_rpc files).2 = false.
Proof. unfold check_session_busy_before_rpc. now destruct (Py.eqs _ _). Qed.

Lemma rpc_send_no_poll (script : string) (args : list string) (suppress : bool)
    (seconds : string) (use_timeout : bool) (run : result Proc) :
  existsb is_poll_event (run_rpc_send script args suppress seconds use_timeout run).2 = false.
Proof.
  unfold run_rpc_send. destruct run as [proc|e]; [|reflexivity].
  destruct ((returncode proc =? 124)%Z || (returncode proc =? 137)%Z);
    cbn [snd]; rewrite !no_poll_app;
    destruct (negb suppress && Py.truthy (stdout proc)), (Py.truthy (stderr proc));
    reflexivity.
Qed.

(** [run_rpc_send] turns the exit statuses 124 and 137 into the return
    value 124, after the message that the send timed out. *)
Lemma rpc_send_timeout (script : string) (args : list string) (suppress : bool)
    (seconds : string) (use_timeout : bool) (proc : Proc) :
  returncode proc = 124%Z \/ returncode proc = 137%Z ->
  let sent := run_rpc_send script args suppress seconds use_timeout (Ok proc) in
  sent.1 = Ok 124%Z /\
  last sent.2 = Some (Print_stderr (ln ("RPC send timed out after " +:+ seconds +:+ "s."))).
Proof.
  intros Hrc. unfold run_rpc_send.
  replace ((returncode proc =? 124)%Z || (returncode proc =? 137)%Z) with true
    by (destruct Hrc as [-> | ->]; reflexivity).
  split; [reflexivity|]. cbn [snd]. rewrite !app_assoc. apply last_snoc.
Qed.

Lemma cleanup_no_poll (ctx : SendContext) (success : bool) :
  existsb is_poll_event (send_cleanup ctx success) = false.
Proof.
  unfold send_cleanup. rewrite no_poll_app.
  destruct (is_temp_out_path ctx && Py.truthy (ctx_out_path ctx)),
    (negb success && Py.truthy (state_export_path ctx)); reflexivity.
Qed.

(** When the transport exits with 124 or 137, the body of the send never
    polls: it ends at or before the check of the return code. *)
Lemma send_body_timeout (state : State) (ctx : SendContext) (w : World) (proc : Proc) :
  w_rpc_proc w = Ok proc ->
  returncode proc = 124%Z \/ returncode proc = 137%Z ->
  let body := send_body state ctx w in
  existsb is_poll_event body.2 = false /\
  (exists e, body.1 = Raise e) /\
  ((exists argv, Run_subprocess argv ∈ body.2) -> body.1 = Raise rpc_send_failed).
Proof.
  intros Hproc Hrc. unfold send_body.
  destruct (w_resolve_session_dir w) as [session_dir|e].
  2:{ cbn. split; [reflexivity|]. split; [eexists; reflexivity|].
      intros [argv H]. apply list_elem_of_singleton in H; discriminate H. }
  destruct (w_load_session_environment w) as [?|e].
  2:{ cbn. split; [reflexivity|]. split; [eexists; reflexivity|]. intros [argv H].
      repeat (apply elem_of_cons in H as [H|H]; [discriminate H|]).
      now apply elem_of_nil in H. }
  destruct (build_r_code state ctx) as [r_code|e].
  2:{ cbn. split; [reflexivity|]. split; [eexists; reflexivity|]. intros [argv H].
      repeat (apply elem_of_cons in H as [H|H]; [discriminate H|]).
      now apply elem_of_nil in H. }
  destruct (w_check_r_code_parse w) as [?|e].
  2:{ cbn [fst snd]. split; [|split; [eexists; reflexivity|]].
      - rewrite !no_poll_app. now destruct (append_only ctx).
      - intros [argv H]. exfalso. revert H. rewrite !elem_of_app.
        destruct (append_only ctx); rewrite ?elem_of_cons, ?elem_of_nil;
          intuition discriminate. }
  destruct (w_find_rpc_script w) as [rpc_script|e].
  2:{ cbn [fst snd]. split; [|split; [eexists; reflexivity|]].
      - rewrite !no_poll_app. now destruct (append_only ctx), (print_code state).
      - intros [argv H]. exfalso. revert H. rewrite !elem_of_app.
        destruct (append_only ctx), (print_code state);
          rewrite ?elem_of_cons, ?elem_of_nil; intuition discriminate. }
  set (ev0 := (_ ++ _ ++ [Call_find_rpc_script]) : list event).
  assert (Hev0 : existsb is_poll_event ev0 = false).
  { subst ev0. rewrite !no_poll_app. now destruct (append_only ctx), (print_code state). }
  assert (Hrun0 : forall argv, Run_subprocess argv ∉ ev0).
  { intros argv. subst ev0. rewrite !elem_of_app.
    destruct (append_only ctx), (print_code state);
      rewrite ?elem_of_cons, ?elem_of_nil; intuition discriminate. }
  set (written := if expect_result ctx then _ else _).
  assert (Hwr : existsb is_poll_event written.2 = false)
    by (subst written; now destruct (expect_result ctx)).
  assert (Hwrun : forall argv, Run_subprocess argv ∉ written.2).
  { intros argv. subst written.
    destruct (expect_result ctx); cbn; rewrite ?elem_of_cons, ?elem_of_nil;
      intuition discriminate. }
  destruct written.1 as [?|e].
  2:{ cbn [fst snd]. split; [|split; [eexists; reflexivity|]].
      - now rewrite no_poll_app, Hev0, Hwr.
      - intros [argv H]. exfalso. apply elem_of_app in H as [H|H];
          [now apply Hrun0 in H | now apply Hwrun in H]. }
  pose proof (busy_check_no_poll (w_executing w)) as Hbusy.
  assert (Hbrun : forall argv, Run_subprocess argv ∉ (check_session_busy_before_rpc (w_executing w)).2).
  { intros argv. unfold check_session_busy_before_rpc.
    destruct (Py.eqs _ _); cbn; rewrite ?elem_of_cons, ?elem_of_nil; intuition discriminate. }
  destruct (check_session_busy_before_rpc (w_executing w)).1.
  2:{ cbn [fst snd negb]. split; [|split; [eexists; reflexivity|]].
      - now rewrite !no_poll_app, Hev0, Hwr, Hbusy.
      - intros [argv H]. exfalso. rewrite !elem_of_app in H.
        destruct H as [[H|H]|H];
          [now apply Hrun0 in H | now apply Hwrun in H | now apply Hbrun in H]. }
  cbn [negb]. rewrite Hproc.
  match goal with |- context [run_rpc_send ?a ?b ?c ?d ?e (Ok proc)] =>
    destruct (rpc_send_timeout a b c d e proc Hrc) as [Hsent _];
    pose proof (rpc_send_no_poll a b c d e (Ok proc)) as Hsentev
  end.
  rewrite Hsent. cbn [Z.eqb negb Pos.eqb fst snd].
  split; [|split; [eexists; reflexivity|intros _; reflexivity]].
  now rewrite !no_poll_app, Hev0, Hwr, Hbusy, Hsentev.
Qed.

(** C5: when the transport subprocess exits with 124 or 137,
    [run_rpc_send] reports a timeout (it prints that the send timed out and
    returns 124), and [send_current_state] fails without ever polling for the
    result file or calling the diagnoser: once the subprocess has run, with
    the error of the return-code check. *)
Theorem C5_transport_timeout_fails_before_polling (state : State) (w : World) (proc : Proc) :
  w_rpc_proc w = Ok proc ->
  returncode proc = 124%Z \/ returncode proc = 137%Z ->
  (forall script args suppress seconds use_timeout,
     let sent := run_rpc_send script args suppress seconds use_timeout (Ok proc) in
     sent.1 = Ok 124%Z /\
     last sent.2 = Some (Print_stderr (ln ("RPC send timed out after " +:+ seconds +:+ "s.")))) /\
  let sent := send_current_state state w in
  (exists e, sent.1 = Raise e) /\
  existsb is_poll_event sent.2 = false /\
  ((exists argv, Run_subprocess argv ∈ sent.2) -> sent.1 = Raise rpc_send_failed).
Proof.
  intros Hproc Hrc. split.
  { intros. now apply rpc_send_timeout. }
  unfold send_current_state.
  destruct (validate_state_for_send state (w_mkstemp w)) as [ctx|e].
  - destruct (send_body_timeout state ctx w proc Hproc Hrc) as (Hpoll & Hfail & Hrun).
    cbn [fst snd]. split; [exact Hfail|]. split.
    + now rewrite no_poll_app, Hpoll, cleanup_no_poll.
    + intros [argv H]. apply Hrun. exists argv.
      apply elem_of_app in H as [H|H]; [exact H|exfalso].
      unfold send_cleanup in H. apply elem_of_app in H.
      destruct (is_temp_out_path ctx && Py.truthy (ctx_out_path ctx)),
        (negb (is_ok (send_body state ctx w).1) && Py.truthy (state_export_path ctx));
        rewrite ?elem_of_cons, ?elem_of_nil in H; intuition discriminate.
  - cbn [fst snd]. split; [eexists; reflexivity|]. split; [reflexivity|].
    intros [argv H]. now apply elem_of_nil in H.
Qed.

Lemma C5_transport_timeout_witness :
  (send_current_state (request ["append: x = 1"]) (quiet_world 137)).1
  = Raise rpc_send_failed.
Proof.
  refine (proj2 (proj2 (proj2 (C5_transport_timeout_fails_before_polling
            (request ["append: x = 1"]) (quiet_world 137)
            (mkProc 137 EmptyString EmptyString) eq_refl (or_intror eq_refl)))) _).
  eexists. apply (list_elem_of_lookup_2 _ 7). vm_compute. reflexivity.
Defined.

Lemma causes_cases (executing_value : string) (out_exists : bool) (out_size : Z)
    (pid_state abend_value : string) :
  let running := Py.eqs executing_value "1" in
  let delayed := out_exists && (out_size =? 0)%Z && negb running in
  let unavailable := negb out_exists in
  let liveness :=
    Py.mem pid_state ["dead_or_not_rsession"; "invalid"] || Py.eqs abend_value "1" in
  causes_from executing_value out_exists out_size pid_state abend_value =
  if running || delayed || unavailable || liveness then
    (if running then ["compute_still_running"] else [])
    ++ (if delayed then ["handoff_or_write_delay"] else [])
    ++ (if unavailable then ["output_path_unavailable"] else [])
    ++ (if liveness then ["session_liveness_issue"] else [])
  else ["unknown"].
Proof.
  cbv zeta. unfold causes_from.
  destruct (Py.eqs executing_value "1"), out_exists, (out_size =? 0)%Z,
    (Py.mem pid_state _ || Py.eqs abend_value "1"); reflexivity.
Qed.

(** [x in xs] is membership. *)
Lemma mem_elem_of (x : string) (xs : list string) : x ∈ xs <-> Py.mem x xs = true.
Proof.
  unfold Py.mem, Py.eqs. induction xs as [|y xs IH]; cbn [existsb].
  - rewrite elem_of_nil. split; [contradiction|discriminate].
  - rewrite elem_of_cons, orb_true_iff, IH, String.eqb_eq. reflexivity.
Qed.


End Dispatching.

(** ** The REPL turn (C6) *)

Section ReplTurn.
Import Validator Synth Dispatch Repl Spec.

Lemma apply_send (state : State) (line : string) :
  Py.strip line = "send" -> apply_input_line state line = (state, [], Ok Send).
Proof. intros H. unfold apply_input_line. now rewrite H. Qed.

Lemma send_turn (state : State) (line : string) (w : World) :
  Py.strip line = "send" ->
  (repl_turn state line w).1.1 = clear_capabilities state.
Proof.
  intros H. unfold repl_turn. rewrite (apply_send _ _ H).
  destruct (send_current_state state w) as [[?|e] ev]; [reflexivity|].
  now destruct e.
Qed.

(** C6: whatever [send_current_state] does on a [send] command (it returns,
    or it raises any exception), the turn leaves the state as
    [clear_capabilities] makes it: no append snippet, no result expression,
    no export expression, no create spec, no modify snippet; and when the
    loop goes on, it goes on from that state. *)
Theorem C6_send_clears_capabilities (state : State) (line : string) (w : World) :
  Py.strip line = "send" ->
  let after := (repl_turn state line w).1.1 in
  after = clear_capabilities state /\
  append_code_snippets after = [] /\
  result_expr after = EmptyString /\
  state_export_expr after = EmptyString /\
  create_global_specs after = [] /\
  modify_global_snippets after = [] /\
  pending_capability_count after = 0%nat /\
  (forall rest,
     (repl_turn state line w).2 = Continue ->
     repl_loop state (Line line w :: rest) =
       let '(final, ev, t) := repl_loop (clear_capabilities state) rest in
       (final, Print_stdout (build_prompt state) :: (repl_turn state line w).1.2 ++ ev, t)).
Proof.
  intros H. cbv zeta. rewrite (send_turn _ _ _ H). repeat split.
  intros rest Hcont. cbn [repl_loop].
  pose proof (send_turn state line w H) as Hst.
  destruct (repl_turn state line w) as [[after ev] t]. cbn [fst snd] in *.
  subst after t. reflexivity.
Qed.

Lemma C6_send_clears_witness :
  (repl_turn (request ["append: x = 1"; "result: x"; "create: y := 2"]) " send "
     (quiet_world 1)).1.1
  = clear_capabilities (request ["append: x = 1"; "result: x"; "create: y := 2"]).
Proof.
  refine (proj1 (C6_send_clears_capabilities _ " send " (quiet_world 1) _)).
  vm_compute. reflexivity.
Defined.

End ReplTurn.

(** ** The benchmark unit (C7) *)

Section Benchmark.
Import Validator Synth Dispatch Repl Spec RSem.

Lemma bench_ms_line_is_new (expr : string) :
  existsb (Py.eqs bench_ms_line) [bench_t0_line; bench_try_line expr] = false.
Proof. vm_compute. reflexivity. Qed.

Lemma result_lines_benchmark (state : State) :
  Py.truthy (result_expr state) = true ->
  benchmark_mode state = true ->
  result_lines state =
  [bench_t0_line; bench_try_line (result_expr state)]
  ++ (if Py.eqs (benchmark_unit state) "ms" then [bench_ms_line] else []).
Proof. intros Hres Hbench. unfold result_lines. now rewrite Hres, Hbench. Qed.



End Benchmark.

(** ** The namespace check (C1) *)

Section NamespaceCheck.
Import Validator Synth Dispatch Repl Spec RSem.

Lemma setdiff_elem (x y : list string) (n : string) :
  n ∈ setdiff x y <-> n ∈ x /\ n ∉ y.
Proof. unfold setdiff. now rewrite elem_of_remove_dups, list_elem_of_difference. Qed.

Lemma has_length (l : list string) : (0 <? length l)%nat = true <-> exists n, n ∈ l.
Proof.
  destruct l as [|n l]; cbn.
  - split; [discriminate|]. intros [n H]. now apply elem_of_nil in H.
  - split; [|reflexivity]. intros _. exists n. apply elem_of_cons. now left.
Qed.

(** The check stops the run exactly on an undeclared change. *)
Lemma leak_check_spec (before after declared : list string) :
  leak_check before after declared = Stop_leak <-> undeclared_change before after declared.
Proof.
  unfold leak_check, undeclared_change.
  destruct (_ || _) eqn:E.
  - split; [intros _|reflexivity].
    apply orb_true_iff in E as [E|E]; apply has_length in E as [n Hn];
      rewrite !setdiff_elem in Hn; [left|right]; exists n.
    + tauto.
    + tauto.
  - split; [discriminate|]. intros H. exfalso.
    apply orb_false_iff in E as [E1 E2].
    destruct H as [(n & Ha & Hb & Hd)|(n & Hb & Ha)].
    + assert (Hlen : (0 <? length (setdiff (setdiff after before) declared))%nat = true).
      { apply has_length. exists n. rewrite !setdiff_elem. tauto. }
      congruence.
    + assert (Hlen : (0 <? length (setdiff (setdiff before after) []))%nat = true).
      { apply has_length. exists n. rewrite !setdiff_elem.
        split; [tauto|apply not_elem_of_nil]. }
      congruence.
Qed.

(** The loop over the [Create] specs collects the names they declare. *)
Lemma create_loop_declares (specs seen names lines names' lines' : list string) :
  create_loop specs seen names lines = Ok (names', lines') ->
  exists declared, names' = names ++ declared /\ declares specs declared.
Proof.
  revert seen names lines. induction specs as [|spec rest IH]; intros seen names lines H.
  - cbn in H. injection H as <- <-. exists []. split; [now rewrite app_nil_r|constructor].
  - cbn [create_loop] in H.
    destruct (validate_name_expr_spec spec "create") as [[name expr]|e] eqn:Hspec;
      cbn [mbind result_bind] in H; [|discriminate H].
    destruct (raise_if _ _); cbn [mbind result_bind] in H; [|discriminate H].
    apply IH in H as (declared & -> & Hrest).
    exists (name :: declared). split; [now rewrite <- app_assoc|].
    constructor; [now exists expr|exact Hrest].
Qed.




End NamespaceCheck.

(** ** Escaping and layout of the emitted text *)

Section Escaping.
Import Validator Text.

Lemma replace_char_app (old : ascii) (new a b : string) :
  Py.replace_char old new (a +:+ b) =
  Py.replace_char old new a +:+ Py.replace_char old new b.
Proof.
  induction a as [|c a IH]; [reflexivity|].
  cbn [String.append Py.replace_char]. rewrite IH.
  destruct (Ascii.eqb c old); [now rewrite append_assoc|reflexivity].
Qed.

(** The three passes of [escape_for_r_string] act on each character by
    itself. *)
Lemma escape_cons (c : ascii) (s : string) :
  escape_for_r_string (String c s) = escape_char c +:+ escape_for_r_string s.
Proof.
  unfold escape_for_r_string, escape_char.
  cbn [Py.replace_char].
  destruct (Ascii.eqb c "\") eqn:Eb.
  - rewrite !replace_char_app. reflexivity.
  - cbn [Py.replace_char]. destruct (Ascii.eqb c (ascii_of_nat 34)) eqn:Eq.
    + rewrite !replace_char_app. reflexivity.
    + cbn [Py.replace_char]. destruct (Ascii.eqb c (ascii_of_nat 10)) eqn:En; reflexivity.
Qed.

Lemma all_chars_app (f : ascii -> bool) (a b : string) :
  Py.all_chars f (a +:+ b) = Py.all_chars f a && Py.all_chars f b.
Proof.
  induction a as [|c a IH]; [reflexivity|].
  cbn [String.append Py.all_chars]. now rewrite IH, andb_assoc.
Qed.

Lemma escape_char_no_newline (c : ascii) : no_newline (escape_char c) = true.
Proof.
  unfold escape_char, no_newline.
  destruct (Ascii.eqb c "\"); [reflexivity|].
  destruct (Ascii.eqb c (ascii_of_nat 34)); [reflexivity|].
  destruct (Ascii.eqb c (ascii_of_nat 10)) eqn:En; [reflexivity|].
  cbn. rewrite andb_true_r. unfold Py.is_nl, Py.code.
  apply negb_true_iff, Nat.eqb_neq. intros H.
  apply Ascii.eqb_neq in En. apply En.
  rewrite <- (ascii_nat_embedding c), H. reflexivity.
Qed.

Lemma unescape_escape_char (c : ascii) (rest : string) :
  r_unescape (escape_char c +:+ rest) = String c (r_unescape rest).
Proof.
  unfold escape_char.
  destruct (Ascii.eqb c "\") eqn:Eb.
  { apply Ascii.eqb_eq in Eb. subst c. reflexivity. }
  destruct (Ascii.eqb c (ascii_of_nat 34)) eqn:Eq.
  { apply Ascii.eqb_eq in Eq. subst c. reflexivity. }
  destruct (Ascii.eqb c (ascii_of_nat 10)) eqn:En.
  { apply Ascii.eqb_eq in En. subst c. reflexivity. }
  cbn [String.append r_unescape]. now rewrite Eb.
Qed.

(** X1: [escape_for_r_string] is undone by R's reading of the literal, so
    it loses nothing and two texts never escape to the same text; its output
    spans one line, whatever the input. *)
Theorem X1_escape_round_trip (value : string) :
  r_unescape (escape_for_r_string value) = value /\
  no_newline (escape_for_r_string value) = true /\
  (forall other, escape_for_r_string other = escape_for_r_string value -> other = value).
Proof.
  assert (Hround : forall s, r_unescape (escape_for_r_string s) = s).
  { induction s as [|c s IH]; [reflexivity|].
    now rewrite escape_cons, unescape_escape_char, IH. }
  split; [apply Hround|]. split.
  - induction value as [|c s IH]; [reflexivity|].
    rewrite escape_cons. unfold no_newline in *.
    rewrite all_chars_app, IH, andb_true_r. apply escape_char_no_newline.
  - intros other H. rewrite <- (Hround other), H. apply Hround.
Qed.

End Escaping.

Section Layout.
Import Validator Synth Text.

Lemma is_nl_eqb (c : ascii) : Ascii.eqb c (ascii_of_nat 10) = Py.is_nl c.
Proof.
  unfold Py.is_nl, Py.code. destruct (Ascii.eqb c (ascii_of_nat 10)) eqn:E.
  - apply Ascii.eqb_eq in E. now subst c.
  - symmetry. apply Nat.eqb_neq. intros H. apply Ascii.eqb_neq in E. apply E.
    rewrite <- (ascii_nat_embedding c), H. reflexivity.
Qed.

Lemma split_nl_cons (s : string) : exists l ls, Py.split_nl s = l :: ls.
Proof.
  induction s as [|c s (l & ls & IH)]; cbn [Py.split_nl]; [eauto|].
  destruct (Py.is_nl c); [eauto|]. rewrite IH. eauto.
Qed.

(** Splitting at newlines goes through a newline between two texts. *)
Lemma split_nl_app (a b : string) :
  Py.split_nl (a +:+ Py.nl +:+ b) = Py.split_nl a ++ Py.split_nl b.
Proof.
  induction a as [|c a IH]; [reflexivity|].
  cbn [String.append Py.split_nl]. rewrite IH.
  destruct (Py.is_nl c); [reflexivity|].
  destruct (split_nl_cons a) as (l & ls & ->). reflexivity.
Qed.

Lemma split_nl_one_line (s : string) : no_newline s = true -> Py.split_nl s = [s].
Proof.
  unfold no_newline. induction s as [|c s IH]; [reflexivity|].
  cbn [Py.all_chars Py.split_nl]. intros H. apply andb_true_iff in H as [Hc Hs].
  apply negb_true_iff in Hc. now rewrite Hc, (IH Hs).
Qed.

Lemma join_cons (sep l : string) (ls : list string) :
  ls <> [] -> Py.join sep (l :: ls) = l +:+ sep +:+ Py.join sep ls.
Proof. destruct ls; [congruence|reflexivity]. Qed.

Lemma split_nl_join (ls : list string) :
  ls <> [] -> Py.split_nl (Py.join Py.nl ls) = flat_map Py.split_nl ls.
Proof.
  induction ls as [|l ls IH]; [congruence|]. intros _.
  destruct ls as [|l' ls].
  - cbn [Py.join flat_map]. now rewrite app_nil_r.
  - rewrite join_cons by discriminate. rewrite split_nl_app, IH by discriminate.
    reflexivity.
Qed.

Lemma endswith_char_app (c : ascii) (a b : string) :
  b <> EmptyString -> Py.endswith_char c (a +:+ b) = Py.endswith_char c b.
Proof.
  intros Hb. induction a as [|x a IH]; [reflexivity|].
  cbn [String.append Py.endswith_char]. rewrite IH.
  destruct (a +:+ b) eqn:E; [|reflexivity].
  destruct a; cbn in E; [congruence|discriminate].
Qed.

Lemma rstrip_nl_after (t : string) :
  open_ended t = true -> Py.rstrip_nl (t +:+ Py.nl) = t.
Proof.
  unfold open_ended, Py.rstrip_nl. induction t as [|c t IH]; [reflexivity|].
  intros H. cbn [String.append Py.rstrip_by].
  destruct t as [|c2 t].
  - cbn in H |- *. rewrite is_nl_eqb in H. apply negb_true_iff in H. now rewrite H.
  - rewrite IH by exact H. reflexivity.
Qed.

Lemma join_not_empty (ls : list string) :
  last_line ls <> EmptyString -> Py.join Py.nl ls <> EmptyString.
Proof.
  destruct ls as [|l [|l' ls]]; [now cbn|now cbn|].
  intros _. rewrite join_cons by discriminate. now destruct l.
Qed.

Lemma join_open_ended (ls : list string) :
  last_line ls <> EmptyString -> open_ended (last_line ls) = true ->
  open_ended (Py.join Py.nl ls) = true.
Proof.
  induction ls as [|l ls IH]; [now cbn|].
  destruct ls as [|l' ls]; [now cbn|].
  intros Hne Hopen. rewrite join_cons by discriminate.
  change (last_line (l :: l' :: ls)) with (last_line (l' :: ls)) in Hne, Hopen.
  unfold open_ended.
  rewrite endswith_char_app by discriminate.
  rewrite (endswith_char_app _ Py.nl) by now apply join_not_empty.
  now apply IH.
Qed.

(** The layout of a block, with the two ways the [rstrip] can lose a
    line ruled out. *)
Lemma indent_block_lines (lines : list string) (indent : string) :
  last_line lines <> EmptyString ->
  open_ended (last_line lines) = true ->
  indent_block (join_lines lines) indent =
    Py.concat_all (map (fun line => indent +:+ line +:+ Py.nl) (flat_map Py.split_nl lines)).
Proof.
  intros Hne Hopen.
  assert (Hls : lines <> []) by (intros ->; now apply Hne).
  unfold indent_block, join_lines. destruct lines as [|l ls]; [congruence|].
  destruct (Py.is_empty (Py.join Py.nl (l :: ls) +:+ Py.nl)) eqn:E.
  - apply is_empty_true in E. destruct (Py.join Py.nl (l :: ls)); discriminate E.
  - rewrite rstrip_nl_after by now apply join_open_ended.
    now rewrite split_nl_join.
Qed.

Lemma flat_map_one_line (lines : list string) :
  forallb no_newline lines = true -> flat_map Py.split_nl lines = lines.
Proof.
  induction lines as [|l ls IH]; [reflexivity|].
  cbn [forallb flat_map]. intros H. apply andb_true_iff in H as [Hl Hls].
  now rewrite (split_nl_one_line _ Hl), (IH Hls).
Qed.

(** X2: [indent_block] of [join_lines] puts every line of every fragment on
    a line of its own behind the indent, in order, provided the last
    fragment is not empty and does not end with a newline (a trailing
    newline, and an empty last fragment, are lost to the [rstrip]).  For
    fragments of one line each, that is one output line per fragment. *)
Theorem X2_indent_block_lays_out_lines (lines : list string) (indent : string) :
  last_line lines <> EmptyString ->
  open_ended (last_line lines) = true ->
  indent_block (join_lines lines) indent =
    Py.concat_all (map (fun line => indent +:+ line +:+ Py.nl) (flat_map Py.split_nl lines)) /\
  (forallb no_newline lines = true ->
   indent_block (join_lines lines) indent =
     Py.concat_all (map (fun line => indent +:+ line +:+ Py.nl) lines)).
Proof.
  intros Hne Hopen. split; [now apply indent_block_lines|].
  intros Hone. rewrite indent_block_lines by assumption.
  now rewrite flat_map_one_line.
Qed.

Lemma X2_indent_block_witness :
  indent_block (join_lines ["y = 2"; "z <- y" +:+ Py.nl +:+ "w = 3"]) "    " =
  Py.concat_all (map (fun line => "    " +:+ line +:+ Py.nl) ["y = 2"; "z <- y"; "w = 3"]).
Proof.
  refine (proj1 (X2_indent_block_lays_out_lines
            ["y = 2"; "z <- y" +:+ Py.nl +:+ "w = 3"] "    " _ _)).
  - vm_compute. discriminate.
  - vm_compute. reflexivity.
Defined.

End Layout.

Section ModifyBlock.
Import Validator Synth Text.

Lemma no_newline_app (a b : string) :
  no_newline (a +:+ b) = no_newline a && no_newline b.
Proof. apply all_chars_app. Qed.

Lemma escape_no_newline (value : string) : no_newline (escape_for_r_string value) = true.
Proof.
  induction value as [|c s IH]; [reflexivity|].
  now rewrite escape_cons, no_newline_app, IH, escape_char_no_newline.
Qed.

Lemma modify_line_no_newline (snippet : string) : no_newline (modify_line snippet) = true.
Proof.
  unfold modify_line, q. rewrite !no_newline_app, escape_no_newline. reflexivity.
Qed.

Lemma endswith_char_last (c x : ascii) (a : string) :
  Py.endswith_char c (a +:+ String x EmptyString) = Ascii.eqb x c.
Proof. now rewrite endswith_char_app by discriminate. Qed.

Lemma modify_line_shape (snippet : string) :
  modify_line snippet <> EmptyString /\ open_ended (modify_line snippet) = true.
Proof.
  split; [discriminate|].
  unfold open_ended, modify_line.
  now rewrite !endswith_char_app by discriminate.
Qed.

(** X3: each [Modify] snippet, of however many lines, becomes exactly one
    line of the fragment: the block of the modify lines is one indented
    [eval(parse(text = ...))] line per snippet, in order, and no such line
    holds a newline. *)
Theorem X3_modify_block_one_line_per_snippet (snippets : list string) :
  forallb no_newline (map modify_line snippets) = true /\
  indent_block (join_lines (map modify_line snippets)) "  " =
    Py.concat_all (map (fun snippet => "  " +:+ modify_line snippet +:+ Py.nl) snippets).
Proof.
  assert (Hone : forallb no_newline (map modify_line snippets) = true).
  { induction snippets as [|x xs IH]; [reflexivity|].
    cbn [map forallb]. now rewrite modify_line_no_newline, IH. }
  split; [exact Hone|].
  destruct snippets as [|x xs]; [reflexivity|].
  assert (Hlast : exists y, last_line (map modify_line (x :: xs)) = modify_line y).
  { clear Hone. revert x. induction xs as [|x' xs IH]; intros x; [now exists x|].
    destruct (IH x') as [y Hy]. exists y. exact Hy. }
  destruct Hlast as [y Hy].
  rewrite indent_block_lines.
  - rewrite flat_map_one_line by exact Hone. now rewrite map_map.
  - rewrite Hy. apply modify_line_shape.
  - rewrite Hy. apply modify_line_shape.
Qed.

End ModifyBlock.

(** ** Identifiers, integers and the blocked tokens *)

Section MoreValidation.
Import Re Validator Synth Spec Text.

(** X4: [validate_identifier] accepts exactly the texts that start with a
    letter or a dot and go on with letters, digits, dots and underscores;
    the empty text is refused.  (So [.2x] is accepted.) *)
Theorem X4_identifier_shape (value label : string) :
  validate_identifier value label = Ok tt <->
  exists c rest,
    value = String c rest /\
    (Py.between 65 90 c || Py.between 97 122 c || (Py.code c =? 46)%nat) = true /\
    Py.all_chars (fun x => Py.between 65 90 x || Py.between 97 122 x || Py.between 48 57 x
                           || (Py.code x =? 46)%nat || (Py.code x =? 95)%nat) rest = true.
Proof.
  assert (Hch : forall a b : ascii, Ascii.eqb a b = (Py.code b =? Py.code a)%nat).
  { intros a b. unfold Py.code. destruct (Ascii.eqb a b) eqn:E.
    - apply Ascii.eqb_eq in E. subst. now rewrite Nat.eqb_refl.
    - symmetry. apply Nat.eqb_neq. intros H. apply Ascii.eqb_neq in E. apply E.
      now rewrite <- (ascii_nat_embedding a), <- (ascii_nat_embedding b), H. }
  assert (Hstart : forall c, ident_start c
            = Py.between 65 90 c || Py.between 97 122 c || (Py.code c =? 46)%nat).
  { intros c. unfold ident_start. cbn [in_class existsb ignorecase no_flags andb item_has].
    rewrite !orb_false_r, Hch, !orb_assoc. reflexivity. }
  assert (Hrest : forall c, ident_rest c
            = Py.between 65 90 c || Py.between 97 122 c || Py.between 48 57 c
              || (Py.code c =? 46)%nat || (Py.code c =? 95)%nat).
  { intros c. unfold ident_rest. cbn [in_class existsb ignorecase no_flags andb item_has].
    rewrite !orb_false_r, !Hch, !orb_assoc. reflexivity. }
  assert (Hall : forall s, Py.all_chars ident_rest s
            = Py.all_chars (fun x => Py.between 65 90 x || Py.between 97 122 x
                || Py.between 48 57 x || (Py.code x =? 46)%nat || (Py.code x =? 95)%nat) s).
  { induction s as [|x s IH]; [reflexivity|]. cbn [Py.all_chars]. now rewrite IH, Hrest. }
  unfold validate_identifier. rewrite fullmatch_identifier.
  destruct value as [|c rest].
  - split; [discriminate|]. now intros (c & rest & H & _).
  - rewrite Hstart, Hall. split.
    + intros H. exists c, rest. split; [reflexivity|].
      apply andb_true_iff.
      destruct (_ && _); [reflexivity|discriminate H].
    + intros (c' & rest' & [= <- <-] & H1 & H2). now rewrite H1, H2.
Qed.

Lemma fullmatch_digits (s : string) :
  fullmatch no_flags digits s = negb (Py.is_empty s) && Py.all_chars Py.isdigit s.
Proof.
  destruct s as [|c rest]; [reflexivity|].
  unfold fullmatch, digits, plus. cbn [m one Py.is_empty negb andb Py.all_chars].
  f_equal. now rewrite (star_one_to_end Py.isdigit) by lia.
Qed.


End MoreValidation.

(** ** What the blocklists catch *)

Section Blocklists.
Import Re Validator Synth Spec Text Policy.

(** A literal matches any spelling of it that differs only in case. *)
Lemma m_lit_any_case (p written rest : string) (prev : option ascii)
    (k : option ascii -> string -> bool) :
  Py.str_lower written = Py.str_lower p ->
  (forall pr, k pr rest = true) ->
  m im_flags (lit p) prev (written +:+ rest) k = true.
Proof.
  intros Hcase Hk. revert written prev Hcase.
  induction p as [|c p IH]; intros [|x written] prev Hcase; try discriminate Hcase.
  - cbn. apply Hk.
  - cbn [Py.str_lower] in Hcase. injection Hcase as Hc Hp.
    rewrite lit_cons. cbn [String.append one].
    rewrite IH by assumption.
    unfold chr_eq. cbn [ignorecase im_flags]. rewrite Hc, Ascii.eqb_refl. reflexivity.
Qed.

Lemma m_alts_lit (name : string) (names : list string) (prev : option ascii) (s : string)
    (k : option ascii -> string -> bool) :
  In name names ->
  m im_flags (lit name) prev s k = true ->
  m im_flags (alts (map lit names)) prev s k = true.
Proof.
  intros Hin Hm. induction names as [|n ns IH]; [contradiction|].
  destruct ns as [|n' ns].
  - destruct Hin as [->|[]]. exact Hm.
  - change (alts (map lit (n :: n' :: ns))) with (Alt (lit n) (alts (map lit (n' :: ns)))).
    cbn [m]. destruct Hin as [->|Hin]; [now rewrite Hm|].
    rewrite (IH Hin). apply orb_true_r.
Qed.

(** Blanks are taken by a starred [\s]. *)
Lemma star_space_blanks (blanks rest : string) (n : nat) (prev : option ascii)
    (k : option ascii -> string -> bool) :
  Py.all_chars Py.isspace blanks = true ->
  (String.length blanks < n)%nat ->
  (forall pr, k pr rest = true) ->
  star_loop (m im_flags Space) k n prev (blanks +:+ rest) = true.
Proof.
  intros Hall Hn Hk. revert n prev Hn.
  induction blanks as [|c blanks IH]; intros n prev Hn.
  - destruct n; [lia|]. cbn [String.append star_loop]. now rewrite Hk.
  - destruct n; [lia|]. cbn [Py.all_chars] in Hall. apply andb_true_iff in Hall as [Hc Hb].
    cbn [String.append star_loop m one String.length]. rewrite Hc.
    rewrite IH by (assumption || (cbn [String.length] in Hn; lia)).
    replace (String.length (blanks +:+ rest) <? S (String.length (blanks +:+ rest)))%nat
      with true by (symmetry; apply Nat.ltb_lt; lia).
    apply orb_true_r.
Qed.

Lemma length_append (a b : string) :
  String.length (a +:+ b) = (String.length a + String.length b)%nat.
Proof. induction a as [|c a IH]; [reflexivity|]. cbn. now rewrite IH. Qed.

(** The name, blanks and the parenthesis match the tail of a call
    pattern. *)
Lemma call_tail_matches (name written blanks after : string) (names : list string)
    (prev : option ascii) :
  In name names ->
  Py.str_lower written = Py.str_lower name ->
  Py.all_chars Py.isspace blanks = true ->
  m im_flags (Cat (words names) open_paren) prev
    (written +:+ blanks +:+ "(" +:+ after) (fun _ _ => true) = true.
Proof.
  intros Hin Hcase Hblanks. cbn [m]. unfold words.
  apply (m_alts_lit name); [exact Hin|].
  apply m_lit_any_case; [exact Hcase|]. intros pr.
  unfold open_paren. cbn [m].
  apply star_space_blanks; [exact Hblanks| |reflexivity].
  rewrite length_append. lia.
Qed.

Lemma m_cat (fl : flags) (r1 r2 : regex) (prev : option ascii) (s : string)
    (k : option ascii -> string -> bool) :
  m fl (Cat r1 r2) prev s k = m fl r1 prev s (fun p' s' => m fl r2 p' s' k).
Proof. reflexivity. Qed.

Lemma m_alt (fl : flags) (r1 r2 : regex) (prev : option ascii) (s : string)
    (k : option ascii -> string -> bool) :
  m fl (Alt r1 r2) prev s k = m fl r1 prev s k || m fl r2 prev s k.
Proof. reflexivity. Qed.

Lemma m_bol (fl : flags) (prev : option ascii) (s : string)
    (k : option ascii -> string -> bool) :
  m fl Bol prev s k = at_bol fl prev && k prev s.
Proof. reflexivity. Qed.

Lemma m_ncls (fl : flags) (items : list item) (prev : option ascii) (s : string)
    (k : option ascii -> string -> bool) :
  m fl (NCls items) prev s k = one (fun x => negb (in_class fl items x)) s k.
Proof. reflexivity. Qed.

Lemma search_from_cons (fl : flags) (r : regex) (prev : option ascii) (c : ascii)
    (s : string) :
  search_from fl r prev (String c s) =
  m fl r prev (String c s) (fun _ _ => true) || search_from fl r (Some c) s.
Proof. reflexivity. Qed.

Lemma search_from_later (r : regex) (before s : string) (prev : option ascii) :
  (forall pr, search_from im_flags r pr s = true) ->
  search_from im_flags r prev (before +:+ s) = true.
Proof.
  intros H. revert prev. induction before as [|c before IH]; intros prev; [apply H|].
  cbn [String.append search_from]. rewrite IH. apply orb_true_r.
Qed.

Lemma search_from_here (r : regex) (s : string) (prev : option ascii) :
  m im_flags r prev s (fun _ _ => true) = true -> search_from im_flags r prev s = true.
Proof. intros H. destruct s; cbn [search_from]; now rewrite H. Qed.

(** The pattern of a blocked call is found in every text that calls one of
    its names. *)
Lemma call_pattern_found (names : list string) (name code : string) :
  In name names -> calls name code ->
  contains_regex code (seq [boundary; words names; open_paren]) = true.
Proof.
  intros Hin (before & written & blanks & after & -> & Hb & Hcase & Hblanks).
  unfold contains_regex, search.
  change (seq [boundary; words names; open_paren])
    with (Cat boundary (Cat (words names) open_paren)).
  assert (Htail := fun prev => call_tail_matches name written blanks after names prev
                                 Hin Hcase Hblanks).
  generalize dependent (written +:+ blanks +:+ "(" +:+ after). intros tail Htail.
  assert (Hgen : forall prev, (prev = None \/ before <> EmptyString) ->
            search_from im_flags (Cat boundary (Cat (words names) open_paren)) prev
              (before +:+ tail) = true).
  { induction before as [|c before IH]; intros prev Hprev.
    - destruct Hprev as [->|H]; [|congruence].
      apply search_from_here. unfold boundary.
      rewrite m_cat, m_alt, m_bol. cbn beta. cbn [String.append at_bol andb].
      now rewrite Htail.
    - destruct before as [|c2 before].
      + apply search_from_here. cbn [at_boundary] in Hb. unfold boundary.
        rewrite m_cat, m_alt, m_ncls. cbn [String.append one]. rewrite Hb.
        cbn [andb]. rewrite Htail. apply orb_true_r.
      + change (String c (String c2 before) +:+ tail)
          with (String c (String c2 before +:+ tail)).
        rewrite search_from_cons.
        rewrite IH; [apply orb_true_r|exact Hb|right; discriminate]. }
  apply Hgen. now left.
Qed.

Lemma for_each_rejects {A : Type} (f : A -> result unit) (x : A) (xs : list A) :
  (forall y, validates (f y)) -> In x xs -> rejects (f x) -> rejects (for_each f xs).
Proof.
  intros Hval Hin Hx. induction xs as [|y ys IH]; [contradiction|].
  cbn [for_each]. destruct Hin as [->|Hin].
  - now apply rejects_first.
  - apply rejects_after; [apply Hval|]. intros _. now apply IH.
Qed.

Lemma common_pattern_rejects (p : pattern) (code label : string) :
  In p COMMON_BLOCKED_PATTERNS -> contains_regex code (ast p) = true ->
  rejects (validate_common_blocklist code label).
Proof.
  intros Hin Hfound. unfold validate_common_blocklist. apply rejects_first.
  apply (for_each_rejects _ p); [intros; apply validates_raise_if|exact Hin|].
  rewrite Hfound. apply rejects_raise_if.
Qed.

Lemma blocklist_rejects_call (name code label : string) :
  In name blocked_calls -> calls name code ->
  rejects (validate_common_blocklist code label).
Proof.
  intros Hin Hcalls.
  assert (Hsplit : In name ["save"; "saveRDS"; "load"; "setwd"; "options"; "Sys.setenv";
                            "library"; "require"; "attach"; "detach"; "sink"; "system";
                            "system2"] \/ In name ["q"; "quit"]).
  { unfold blocked_calls in Hin. cbn [In] in *. intuition. }
  destruct Hsplit as [H|H].
  - eapply (common_pattern_rejects (Pattern _ _)).
    + right. right. left. reflexivity.
    + cbn [ast]. now apply (call_pattern_found _ name).
  - eapply (common_pattern_rejects (Pattern _ _)).
    + right. right. right. left. reflexivity.
    + cbn [ast]. now apply (call_pattern_found _ name).
Qed.

Lemma blocklist_rejects_double_arrow (code label : string) :
  has_double_arrow code -> rejects (validate_common_blocklist code label).
Proof.
  intros [H|H].
  - eapply (common_pattern_rejects (Pattern _ _)); [left; reflexivity|].
    cbn [ast]. now apply search_lit.
  - eapply (common_pattern_rejects (Pattern _ _)); [right; left; reflexivity|].
    cbn [ast]. now apply search_lit.
Qed.

Lemma double_arrow_has_arrow (code : string) : has_double_arrow code -> has_arrow code.
Proof.
  intros [H|H]; apply contains_spec in H as (a & b & ->).
  - left. apply contains_spec. exists (a +:+ "<"), b. now rewrite append_assoc.
  - right. apply contains_spec. exists a, (">" +:+ b). reflexivity.
Qed.

(** What the common blocklist rejects is rejected in the four roles that
    start with it. *)
Lemma roles_reject (code : string) :
  (forall label, rejects (validate_common_blocklist code label)) ->
  rejects (validate_append_snippet code) /\
  rejects (validate_modify_global_snippet code) /\
  rejects (validate_result_expr code) /\
  rejects (validate_state_export_expr code).
Proof.
  intros H. repeat split.
  - unfold validate_append_snippet.
    apply rejects_after; [apply validates_raise_if|intros _]. apply rejects_first, H.
  - unfold validate_modify_global_snippet.
    apply rejects_after; [apply validates_raise_if|intros _]. apply H.
  - unfold validate_result_expr.
    do 2 (apply rejects_after; [apply validates_raise_if|intros _]). apply rejects_first, H.
  - unfold validate_state_export_expr.
    do 2 (apply rejects_after; [apply validates_raise_if|intros _]). apply rejects_first, H.
Qed.

(** X6: a fragment that contains one of the double arrows is rejected in
    all five roles: append, modify, result expression, export expression
    and [Create] spec. *)
Theorem X6_double_arrow_rejected_everywhere (code : string) :
  has_double_arrow code ->
  rejects (validate_append_snippet code) /\
  rejects (validate_modify_global_snippet code) /\
  rejects (validate_result_expr code) /\
  rejects (validate_state_export_expr code) /\
  (forall label, rejects (validate_name_expr_spec code label)).
Proof.
  intros H.
  destruct (roles_reject code (fun label => blocklist_rejects_double_arrow code label H))
    as (Ha & Hm & Hr & He).
  repeat split; try assumption.
  intros label. apply name_expr_spec_rejects_arrow. now apply double_arrow_has_arrow.
Qed.

Lemma X6_double_arrow_witness :
  rejects (validate_modify_global_snippet "total <<- total + 1").
Proof.
  refine (proj1 (proj2 (X6_double_arrow_rejected_everywhere "total <<- total + 1" _))).
  left. reflexivity.
Defined.



(** X8: an appended fragment that calls one of the file-writing or
    device-opening functions of the append pattern (its name in any letter
    case, at a boundary, then any blanks and the opening parenthesis) is
    rejected. *)
Theorem X8_append_may_not_write_files (name code : string) :
  In name append_blocked_calls ->
  calls name code ->
  rejects (validate_append_snippet code).
Proof.
  intros Hin Hcalls. unfold validate_append_snippet.
  apply rejects_after; [apply validates_raise_if|intros _].
  apply rejects_after; [apply validates_common_blocklist|intros _].
  apply rejects_after; [apply validates_raise_if|intros _].
  unfold validate_append_file_restrictions, APPEND_FILE_BLOCKED_PATTERNS.
  cbn [for_each ast]. apply rejects_first. unfold append_blocked_calls in Hin.
  rewrite (call_pattern_found _ name code Hin Hcalls). apply rejects_raise_if.
Qed.

Lemma X8_append_may_not_write_files_witness :
  rejects (validate_append_snippet "x = 1; write.csv(x, 'x.csv')").
Proof.
  apply (X8_append_may_not_write_files "write.csv").
  - unfold append_blocked_calls. cbn. tauto.
  - exists "x = 1; ", "write.csv", EmptyString, "x, 'x.csv')". repeat split; reflexivity.
Defined.

End Blocklists.

(** ** Requests: what validation guarantees and what the REPL keeps *)

Section RequestInvariants.
Import Re Validator Synth Dispatch Repl Spec Requests.

(** A failed check of a passed run was not triggered. *)
Ltac raise_step H Hc :=
  cbn [mbind result_bind] in H;
  lazymatch type of H with
  | (raise_if ?c _ ≫= _) = Ok _ =>
      destruct c eqn:Hc; cbn [raise_if mbind result_bind] in H; [discriminate H|]
  end.

Ltac keep_step H E :=
  cbn [mbind result_bind] in H;
  lazymatch type of H with
  | (?r ≫= _) = Ok _ =>
      destruct r as [[]|] eqn:E; cbn [mbind result_bind] in H; [|discriminate H]
  end.

Lemma for_each_ok {A : Type} (f : A -> result unit) (xs : list A) :
  for_each f xs = Ok tt <-> Forall (fun x => f x = Ok tt) xs.
Proof.
  induction xs as [|x xs IH]; cbn [for_each].
  - split; [constructor|reflexivity].
  - rewrite Forall_cons, <- IH. destruct (f x) as [[]|e]; cbn [mbind result_bind].
    + tauto.
    + split; [discriminate|]. now intros [H _].
Qed.

Lemma truthy_false (s : string) : Py.truthy s = false <-> s = EmptyString.
Proof. destruct s; cbn; split; congruence. Qed.

Lemma nonempty_false {A : Type} (l : list A) : nonempty l = false <-> l = [].
Proof. destruct l; cbn; split; congruence. Qed.

(** X9: what a request that passed [validate_state_for_send] is known to
    satisfy, and what the context says about it: it holds a capability;
    export stands alone among the terminal capabilities; benchmark mode has
    a result and nothing else terminal; capture-output has a result or an
    export; a result file is expected exactly for a result or an export, and
    it is a temporary one exactly when none was named; the send is
    append-only exactly when appends are all there is; and an export path
    exists only for an export. *)
Theorem X9_validated_request (state : State) (tmp : Mkstemp) (ctx : SendContext) :
  validate_state_for_send state tmp = Ok ctx ->
  let has_result := Py.truthy (result_expr state) in
  let has_export := Py.truthy (state_export_expr state) in
  pending_capability_count state <> 0%nat /\
  (has_export = true ->
   has_result = false /\ create_global_specs state = [] /\ modify_global_snippets state = []) /\
  (benchmark_mode state = true ->
   has_result = true /\ has_export = false /\ create_global_specs state = []
   /\ modify_global_snippets state = []) /\
  Py.mem (benchmark_unit state) ["seconds"; "ms"] = true /\
  (capture_output state = true -> has_result || has_export = true) /\
  expect_result ctx = has_result || has_export /\
  (append_only ctx = true <-> only_appends state) /\
  (is_temp_out_path ctx = true <-> expect_result ctx = true /\ out_path state = EmptyString) /\
  (is_temp_out_path ctx = false -> ctx_out_path ctx = out_path state) /\
  (has_export = false -> state_export_path ctx = EmptyString) /\
  stored_valid state.
Proof.
  intros H. cbv zeta. unfold validate_state_for_send in H.
  raise_step H Hany. raise_step H Hexp. raise_step H Hunit.
  assert (Hbench : benchmark_mode state = true ->
            Py.truthy (result_expr state) = true /\
            Py.truthy (state_export_expr state) || nonempty (create_global_specs state)
              || nonempty (modify_global_snippets state) = false).
  { intros Hb. rewrite Hb in H. cbn [mbind result_bind] in H.
    destruct (Py.truthy (result_expr state)); cbn [negb raise_if mbind result_bind] in H;
      [|discriminate H].
    destruct (Py.truthy (state_export_expr state) || nonempty (create_global_specs state)
              || nonempty (modify_global_snippets state));
      cbn [raise_if mbind result_bind] in H; [discriminate H|].
    now split. }
  keep_step H Ebench. keep_step H Eid. keep_step H Etimeout. keep_step H Erpc.
  keep_step H Eappend. keep_step H Eresult. keep_step H Eexport.
  keep_step H Ecreate. keep_step H Emodify. raise_step H Hcapture.
  apply negb_false_iff in Hany, Hunit.
  assert (Hctx : expect_result ctx
                 = Py.truthy (result_expr state) || Py.truthy (state_export_expr state)
               /\ append_only ctx
                  = nonempty (append_code_snippets state)
                    && negb (Py.truthy (result_expr state) || Py.truthy (state_export_expr state)
                             || nonempty (create_global_specs state)
                             || nonempty (modify_global_snippets state))
               /\ (is_temp_out_path ctx
                   = (Py.truthy (result_expr state) || Py.truthy (state_export_expr state))
                     && Py.is_empty (out_path state))
               /\ (is_temp_out_path ctx = false -> ctx_out_path ctx = out_path state)
               /\ (Py.truthy (state_export_expr state) = false
                   -> state_export_path ctx = EmptyString)).
  { destruct ((Py.truthy (result_expr state) || Py.truthy (state_export_expr state))
              && Py.is_empty (out_path state)) eqn:Etmp;
      cbn [mbind result_bind] in H.
    - destruct (mkstemp_result tmp) as [path|]; cbn [mbind result_bind] in H;
        [|discriminate H].
      destruct (Py.truthy (state_export_expr state)) eqn:Ee.
      + destruct (mkstemp_state tmp); cbn [mbind result_bind] in H; [|discriminate H].
        injection H as <-. cbn. rewrite ?orb_true_r. repeat split; try discriminate; auto.
      + cbn [mbind result_bind] in H. injection H as <-. cbn.
        repeat split; try discriminate; auto.
    - destruct (Py.truthy (state_export_expr state)) eqn:Ee.
      + destruct (mkstemp_state tmp); cbn [mbind result_bind] in H; [|discriminate H].
        injection H as <-. cbn. rewrite ?orb_true_r. repeat split; try discriminate; auto.
      + cbn [mbind result_bind] in H. injection H as <-. cbn.
        repeat split; try discriminate; auto. }
  destruct Hctx as (Hexpect & Honly & Htemp & Hpath & Hexport).
  assert (Hstored : stored_valid state).
  { unfold stored_valid. repeat split.
    - now apply for_each_ok.
    - destruct (Py.truthy (result_expr state)) eqn:E; [now right|left; now apply truthy_false].
    - destruct (Py.truthy (state_export_expr state)) eqn:E;
        [now right|left; now apply truthy_false].
    - apply for_each_ok in Ecreate. eapply Forall_impl; [exact Ecreate|].
      intros spec Hspec. cbn beta in Hspec.
      destruct (validate_name_expr_spec spec "create"); [reflexivity|discriminate Hspec].
    - now apply for_each_ok.
    - exact Eid.
    - exact Etimeout.
    - exact Erpc.
    - exact Hunit. }
  split.
  { unfold pending_capability_count. intros Hzero.
    destruct (append_code_snippets state), (Py.truthy (result_expr state)),
      (Py.truthy (state_export_expr state)), (create_global_specs state),
      (modify_global_snippets state); cbn in Hany, Hzero; try discriminate; lia. }
  split.
  { intros He. rewrite He in Hexp. cbn [andb] in Hexp.
    apply orb_false_iff in Hexp as [Hexp Hm]. apply orb_false_iff in Hexp as [Hr Hc].
    split; [exact Hr|]. split; now apply nonempty_false. }
  split.
  { intros Hb. destruct (Hbench Hb) as [Hr Hrest].
    apply orb_false_iff in Hrest as [Hrest Hm]. apply orb_false_iff in Hrest as [He Hc].
    split; [exact Hr|]. split; [exact He|]. split; now apply nonempty_false. }
  split; [exact Hunit|]. split.
  { intros Hc. rewrite Hc in Hcapture. cbn [andb] in Hcapture.
    now apply negb_false_iff in Hcapture. }
  split; [exact Hexpect|]. split.
  { rewrite Honly. unfold only_appends. rewrite andb_true_iff, negb_true_iff, !orb_false_iff.
    rewrite !truthy_false, !nonempty_false. split.
    - intros [Ha (((Hr & He) & Hc) & Hm)]. repeat split; try assumption.
      intros E. now rewrite E in Ha.
    - intros (Ha & Hr & He & Hc & Hm). split; [now apply nonempty_true|]. now repeat split. }
  split.
  { rewrite Htemp, Hexpect, andb_true_iff, is_empty_true. reflexivity. }
  split; [exact Hpath|]. split; [exact Hexport|exact Hstored].
Qed.

Lemma X9_validated_request_witness :
  expect_result terminal_context = false /\
  stored_valid created_request.
Proof.
  destruct (X9_validated_request created_request (w_mkstemp (quiet_world 0)) terminal_context)
    as (_ & _ & _ & _ & _ & H1 & _ & _ & _ & _ & H2).
  - vm_compute. reflexivity.
  - split; [reflexivity|exact H2].
Defined.

End RequestInvariants.

Section ReplInvariants.
Import Re Validator Synth Dispatch Repl Spec Requests.

Lemma stored_valid_initial : stored_valid initial_state.
Proof.
  unfold stored_valid, initial_state.
  cbn [append_code_snippets result_expr state_export_expr create_global_specs
       modify_global_snippets request_id timeout_seconds rpc_timeout_seconds benchmark_unit].
  repeat split; try apply Forall_nil_2; try (left; reflexivity); vm_compute; reflexivity.
Qed.

Lemma stored_valid_clear (state : State) :
  stored_valid state -> stored_valid (clear_capabilities state).
Proof.
  intros (_ & _ & _ & _ & _ & Hid & Ht & Hr & Hu).
  unfold stored_valid, clear_capabilities.
  cbn [append_code_snippets result_expr state_export_expr create_global_specs
       modify_global_snippets request_id timeout_seconds rpc_timeout_seconds benchmark_unit].
  repeat split; try apply Forall_nil_2; try (left; reflexivity); assumption.
Qed.

(** The branches of [apply_input_line], one after the other. *)
Ltac next_branch :=
  lazymatch goal with
  | |- context [if ?c then _ else _] => destruct c eqn:?
  | |- context [match Py.split_once ?a ?b with _ => _ end] =>
      destruct (Py.split_once a b) as [[? ?]|] eqn:?
  end.

Ltac by_parts Hv :=
  let Ha := fresh "Ha" in let Hr := fresh "Hr" in let He := fresh "He" in
  let Hc := fresh "Hc" in let Hm := fresh "Hm" in let Hid := fresh "Hid" in
  let Ht := fresh "Ht" in let Hp := fresh "Hp" in let Hu := fresh "Hu" in
  destruct Hv as (Ha & Hr & He & Hc & Hm & Hid & Ht & Hp & Hu);
  unfold stored_valid;
  cbn [fst snd set_append set_result set_export set_create set_modify set_session_dir
       set_request_id set_rpostback_bin set_out_path set_timeout set_rpc_timeout
       set_benchmark_mode set_benchmark_unit set_print_code set_capture_output
       append_code_snippets result_expr state_export_expr create_global_specs
       modify_global_snippets request_id timeout_seconds rpc_timeout_seconds benchmark_unit];
  repeat split; try assumption.

Lemma apply_keeps_stored_valid (state : State) (line : string) :
  stored_valid state -> stored_valid (apply_input_line state line).1.1.
Proof.
  intros Hv. unfold apply_input_line.
  repeat (next_branch; try exact Hv); try (now apply stored_valid_clear).
  all: unfold checked, checked_bool.
  all: try match goal with
       | |- context [match ?r with Ok _ => _ | Raise _ => _ end] =>
           destruct r as [[]|] eqn:Hcheck; try exact Hv
       end.
  all: try (by_parts Hv; fail).
  - by_parts Hv. apply Forall_app. split; [assumption|]. now constructor.
  - by_parts Hv. now right.
  - by_parts Hv. now right.
  - by_parts Hv. apply Forall_app. split; [assumption|]. constructor; [|constructor].
    destruct (validate_name_expr_spec _ "create"); [reflexivity|discriminate Hcheck].
  - by_parts Hv. apply Forall_app. split; [assumption|]. now constructor.
  - by_parts Hv.
    match goal with |- ?c = true => destruct c; [reflexivity|discriminate Hcheck] end.
Qed.

(** X10: every state the REPL can reach keeps what its input lines checked:
    each stored append, result, export, create and modify text still passes
    its validator, the request id and both timeouts are integer texts, and
    the benchmark unit is one of the two units. *)
Theorem X10_repl_keeps_stored_values_valid (state : State) (lines : list string) :
  stored_valid state ->
  stored_valid (after_lines state lines) /\
  stored_valid (after_lines initial_state lines) /\
  stored_valid (clear_capabilities state).
Proof.
  assert (H : forall s, stored_valid s -> stored_valid (after_lines s lines)).
  { unfold after_lines. induction lines as [|line lines IH]; intros s Hs; [exact Hs|].
    cbn [fold_left]. apply IH. now apply apply_keeps_stored_valid. }
  intros Hv. split; [now apply H|]. split; [apply H, stored_valid_initial|].
  now apply stored_valid_clear.
Qed.

Lemma X10_repl_keeps_witness :
  stored_valid (after_lines initial_state ["append: x = 1"; "id: 7"; "id: seven"; "send"]).
Proof.
  exact (proj1 (proj2 (X10_repl_keeps_stored_values_valid initial_state
           ["append: x = 1"; "id: 7"; "id: seven"; "send"] stored_valid_initial))).
Defined.

End ReplInvariants.

Section ReplBehaviour.
Import Re Validator Synth Dispatch Repl Spec Requests.

Lemma validates_raise {A : Type} (r : result A) (e : exn) :
  validates r -> r = Raise e -> exists msg, e = ValidationError msg.
Proof. intros H ->. destruct e; try contradiction. eauto. Qed.

Lemma validates_parse_bool (value : string) : validates (parse_bool value).
Proof.
  unfold parse_bool. destruct (Py.mem _ _); [exact I|]. destruct (Py.mem _ _); exact I.
Qed.

Ltac next_case :=
  lazymatch goal with
  | |- context [if ?c then _ else _] => destruct c eqn:?
  | |- context [match Py.split_once ?a ?b with _ => _ end] =>
      destruct (Py.split_once a b) as [[? ?]|] eqn:?
  end.

(** X11: an input line that [apply_input_line] refuses changes nothing: the
    state is the one before, nothing was printed, and the exception is a
    [ValidationError]. *)
Theorem X11_refused_line_changes_nothing (state : State) (line : string) (e : exn) :
  (apply_input_line state line).2 = Raise e ->
  (apply_input_line state line).1.1 = state /\
  (apply_input_line state line).1.2 = [] /\
  exists msg, e = ValidationError msg.
Proof.
  unfold apply_input_line.
  repeat (next_case; try (cbn [fst snd]; discriminate)).
  all: unfold checked, checked_bool.
  all: try match goal with
       | |- context [match ?r with Ok _ => _ | Raise _ => _ end] =>
           let E := fresh "E" in
           destruct r as [?|e'] eqn:E; cbn [fst snd]; [discriminate|];
           intros [= <-]; split; [reflexivity|]; split; [reflexivity|];
           revert E; apply validates_raise
       end.
  all: try (cbn [fst snd]; intros [= <-]; repeat split; eauto; fail).
  all: lazymatch goal with
       | |- validates (validate_append_snippet _) => apply validates_append_snippet
       | |- validates (validate_result_expr _) => apply validates_result_expr
       | |- validates (validate_modify_global_snippet _) =>
           apply validates_modify_global_snippet
       | |- validates (ensure_int_string _ _) => apply validates_ensure_int_string
       | |- validates (parse_bool _) => apply validates_parse_bool
       | |- validates (raise_if _ _) => apply validates_raise_if
       | |- validates (validate_state_export_expr _) => idtac
       | |- _ => apply validates_create_check
       end.
  unfold validate_state_export_expr.
  repeat first [ apply validates_raise_if | apply validates_common_blocklist
               | apply validates_assignment_free | apply validates_bind; [|intros _] ].
Qed.

Lemma X11_refused_line_witness :
  (apply_input_line created_request "create: 2x := 1").1.1 = created_request.
Proof.
  refine (proj1 (X11_refused_line_changes_nothing created_request "create: 2x := 1"
                   (ValidationError "create name '2x' is not a valid identifier.") _)).
  vm_compute. reflexivity.
Defined.

Lemma validate_cleared (state : State) (tmp : Mkstemp) :
  validate_state_for_send (clear_capabilities state) tmp = Raise no_capability.
Proof. reflexivity. Qed.

(** X12: a second [send] straight after a [send] never dispatches: the
    first one left no capability, so the second is refused by the first
    check of validation, prints that error and nothing else, and the loop
    goes on with the same cleared state. *)
Theorem X12_send_after_send_is_refused (state : State) (line1 line2 : string)
    (w1 w2 : World) :
  Py.strip line1 = "send" ->
  Py.strip line2 = "send" ->
  let cleared := (repl_turn state line1 w1).1.1 in
  repl_turn cleared line2 w2 =
    (cleared, [Print_stderr (ln "At least one capability is required.")], Continue).
Proof.
  intros H1 H2. cbv zeta. rewrite (send_turn state line1 w1 H1).
  unfold repl_turn. rewrite (apply_send _ _ H2).
  unfold send_current_state. rewrite validate_cleared. reflexivity.
Qed.

Lemma X12_send_after_send_witness :
  repl_turn (repl_turn created_request "send" (quiet_world 0)).1.1 "send" (quiet_world 0) =
    ((repl_turn created_request "send" (quiet_world 0)).1.1,
     [Print_stderr (ln "At least one capability is required.")], Continue).
Proof.
  apply (X12_send_after_send_is_refused created_request "send" "send"); reflexivity.
Defined.

Lemma create_checks_ok (specs : list string) :
  Forall (fun spec => is_ok (validate_name_expr_spec spec "create") = true) specs ->
  for_each (fun snippet => validate_name_expr_spec snippet "create" ;; Ok tt) specs = Ok tt.
Proof.
  intros H. apply for_each_ok. eapply Forall_impl; [exact H|].
  intros spec Hok. cbn beta in *.
  now destruct (validate_name_expr_spec spec "create").
Qed.

Ltac in_list := first [left; reflexivity | right; in_list].

(** A check of a failed run: it raised the error, or it passed. *)
Ltac raise_case H :=
  cbn [mbind result_bind] in H;
  lazymatch type of H with
  | (raise_if ?c _ ≫= _) = Raise _ =>
      destruct c; cbn [raise_if mbind result_bind] in H;
      [injection H as <-; left; cbn [In]; in_list|]
  | ((raise_if ?c _ ≫= _) ≫= _) = Raise _ =>
      destruct c; cbn [raise_if mbind result_bind] in H;
      [injection H as <-; left; cbn [In]; in_list|]
  end.

(** X13: for a state the REPL built, [validate_state_for_send] can fail only
    on how the capabilities and options combine (no capability, export with
    another terminal capability, benchmark without a result or with another
    terminal capability, capture-output without a result or export), or
    because a temporary file could not be made: the per-value checks it
    repeats always pass. *)
Theorem X13_stored_values_pass_again (state : State) (tmp : Mkstemp) (e : exn) :
  stored_valid state ->
  validate_state_for_send state tmp = Raise e ->
  In e combination_errors \/ mkstemp_result tmp = Raise e \/ mkstemp_state tmp = Raise e.
Proof.
  intros (Ha & Hr & He & Hc & Hm & Hid & Ht & Hp & Hu) H.
  unfold validate_state_for_send in H.
  rewrite Hid, Ht, Hp, Hu in H.
  rewrite (proj2 (for_each_ok _ _) Ha), (proj2 (for_each_ok _ _) Hm),
    (create_checks_ok _ Hc) in H.
  assert (Hr' : (if Py.truthy (result_expr state)
                 then validate_result_expr (result_expr state) else Ok tt) = Ok tt).
  { destruct Hr as [Hr|Hr]; rewrite Hr;
      [reflexivity|now destruct (Py.truthy (result_expr state))]. }
  assert (He' : (if Py.truthy (state_export_expr state)
                 then validate_state_export_expr (state_export_expr state) else Ok tt)
                = Ok tt).
  { destruct He as [He|He]; rewrite He;
      [reflexivity|now destruct (Py.truthy (state_export_expr state))]. }
  rewrite Hr', He' in H.
  unfold combination_errors.
  change (raise_if (negb true)) with (raise_if false) in H.
  raise_case H. raise_case H.
  destruct (benchmark_mode state); [raise_case H; raise_case H|]; raise_case H.
  all: cbn [mbind result_bind] in H.
  all: destruct ((Py.truthy (result_expr state) || Py.truthy (state_export_expr state))
                 && Py.is_empty (out_path state));
    [ destruct (mkstemp_result tmp); cbn [mbind result_bind] in H;
      [|injection H as <-; right; left; reflexivity] |];
    (destruct (Py.truthy (state_export_expr state)); cbn [mbind result_bind] in H;
     [|discriminate H]);
    (destruct (mkstemp_state tmp); cbn [mbind result_bind] in H;
     [discriminate H|injection H as <-; right; right; reflexivity]).
Qed.

Lemma X13_stored_values_witness :
  In no_capability combination_errors \/
  mkstemp_result (w_mkstemp (quiet_world 0)) = Raise no_capability \/
  mkstemp_state (w_mkstemp (quiet_world 0)) = Raise no_capability.
Proof.
  apply (X13_stored_values_pass_again initial_state).
  - apply stored_valid_initial.
  - reflexivity.
Defined.

End ReplBehaviour.

(** ** The steps of a send *)

Section Sending.
Import Re Validator Synth Dispatch Repl Spec Requests Sends.

Lemma read_executing_flag (files : PropertyFiles) :
  Py.eqs (read_executing files) "1" = Py.eqs (get_executing_flag_value files) "1".
Proof.
  unfold get_executing_flag_value, read_executing.
  destruct (get_session_property_file files) as [[| |content]|]; try reflexivity.
  destruct (Py.remove_spaces content); reflexivity.
Qed.

(** X14: the busy check before the transport and the flag the timeout
    diagnoser reports read the same file the same way: the check refuses
    exactly when the reported flag is [1]; the reported flag is never empty;
    and a session without the file is never taken for busy. *)
Theorem X14_busy_check_agrees_with_the_reported_flag (files : PropertyFiles) :
  ((check_session_busy_before_rpc files).1 = false
   <-> get_executing_flag_value files = "1") /\
  get_executing_flag_value files <> EmptyString /\
  (get_session_property_file files = None ->
   (check_session_busy_before_rpc files).1 = true).
Proof.
  split; [|split].
  - unfold check_session_busy_before_rpc. rewrite read_executing_flag.
    unfold Py.eqs. destruct (String.eqb_spec (get_executing_flag_value files) "1");
      cbn [fst]; split; congruence.
  - unfold get_executing_flag_value.
    destruct (get_session_property_file files); [|discriminate].
    destruct (read_executing files); cbn; discriminate.
  - intros H. unfold check_session_busy_before_rpc, read_executing. now rewrite H.
Qed.

(** The outcome of the body of a send, without its trace. *)
Lemma send_body_outcome (state : State) (ctx : SendContext) (w : World) :
  (send_body state ctx w).1 =
  (session_dir ← w_resolve_session_dir w;
   w_load_session_environment w ;;
   r_code ← build_r_code state ctx;
   w_check_r_code_parse w ;;
   rpc_script ← w_find_rpc_script w;
   (if expect_result ctx then w_write_out w else Ok tt) ;;
   raise_if (Py.eqs (read_executing (w_executing w)) "1")
     (SendError "Failed busy precheck.") ;;
   proc ← w_rpc_proc w;
   raise_if (negb (returncode proc =? 0)%Z) (SendError "Failed to send RPC request.") ;;
   raise_if (expect_result ctx && negb (w_final_poll w))
     (SendError "Timed out waiting for result file.")).
Proof.
  unfold send_body, check_session_busy_before_rpc, run_rpc_send.
  destruct (w_resolve_session_dir w) as [session_dir|?]; [|reflexivity].
  destruct (w_load_session_environment w) as [[]|?]; [|reflexivity].
  destruct (build_r_code state ctx) as [r_code|?]; [|reflexivity].
  destruct (w_check_r_code_parse w) as [[]|?]; [|reflexivity].
  destruct (w_find_rpc_script w) as [rpc_script|?]; [|reflexivity].
  cbn [mbind result_bind].
  destruct (expect_result ctx); cbn [fst snd].
  - destruct (w_write_out w) as [[]|?]; [|reflexivity]. cbn [mbind result_bind].
    destruct (Py.eqs _ "1"); [reflexivity|]. cbn [fst snd negb raise_if mbind result_bind].
    destruct (w_rpc_proc w) as [proc|?]; [|reflexivity]. cbn [mbind result_bind].
    destruct (returncode proc =? 124)%Z eqn:H1;
      [apply Z.eqb_eq in H1; rewrite H1; cbn; reflexivity|].
    destruct (returncode proc =? 137)%Z eqn:H2;
      [apply Z.eqb_eq in H2; rewrite H2; cbn; reflexivity|].
    cbn [orb fst snd]. destruct (returncode proc =? 0)%Z; [|reflexivity].
    cbn [negb raise_if mbind result_bind andb].
    destruct (w_final_poll w); reflexivity.
  - cbn [mbind result_bind].
    destruct (Py.eqs _ "1"); [reflexivity|]. cbn [fst snd negb raise_if mbind result_bind].
    destruct (w_rpc_proc w) as [proc|?]; [|reflexivity]. cbn [mbind result_bind].
    destruct (returncode proc =? 124)%Z eqn:H1;
      [apply Z.eqb_eq in H1; rewrite H1; cbn; reflexivity|].
    destruct (returncode proc =? 137)%Z eqn:H2;
      [apply Z.eqb_eq in H2; rewrite H2; cbn; reflexivity|].
    cbn [orb fst snd]. destruct (returncode proc =? 0)%Z; reflexivity.
Qed.

Lemma eqs_false (a b : string) : Py.eqs a b = false <-> a <> b.
Proof. unfold Py.eqs. destruct (String.eqb_spec a b); split; congruence. Qed.

Lemma send_body_succeeds (state : State) (ctx : SendContext) (w : World) :
  (send_body state ctx w).1 = Ok tt <->
  delivered state w ctx /\ (expect_result ctx = true -> w_final_poll w = true).
Proof.
  rewrite send_body_outcome. unfold delivered, ready. split.
  - intros H.
    destruct (w_resolve_session_dir w) as [session_dir|?]; [|discriminate H].
    destruct (w_load_session_environment w) as [[]|?]; [|discriminate H].
    destruct (build_r_code state ctx) as [r_code|?]; [|discriminate H].
    destruct (w_check_r_code_parse w) as [[]|?]; [|discriminate H].
    destruct (w_find_rpc_script w) as [rpc_script|?]; [|discriminate H].
    cbn [mbind result_bind] in H.
    assert (Hw : expect_result ctx = true -> w_write_out w = Ok tt).
    { intros He. rewrite He in H. now destruct (w_write_out w) as [[]|?]. }
    destruct (if expect_result ctx then w_write_out w else Ok tt); [|discriminate H].
    cbn [mbind result_bind] in H.
    destruct (Py.eqs _ "1") eqn:Hbusy; [discriminate H|]. apply eqs_false in Hbusy.
    cbn [raise_if mbind result_bind] in H.
    destruct (w_rpc_proc w) as [proc|?]; [|discriminate H]. cbn [mbind result_bind] in H.
    destruct (returncode proc =? 0)%Z eqn:Hrc; [|discriminate H]. apply Z.eqb_eq in Hrc.
    cbn [negb raise_if mbind result_bind] in H.
    split; [split|].
    + exists session_dir, r_code, rpc_script. repeat split; auto.
    + now exists proc.
    + intros He. rewrite He in H. now destruct (w_final_poll w).
  - intros [[(session_dir & r_code & rpc_script & -> & -> & -> & -> & -> & Hw & Hbusy)
             (proc & -> & Hrc)] Hpoll].
    cbn [mbind result_bind].
    apply eqs_false in Hbusy. rewrite Hbusy, Hrc.
    destruct (expect_result ctx); [rewrite Hw, Hpoll by reflexivity|]; reflexivity.
Qed.


(** The trace of the body of a send: events of the steps before the
    transport, then, once they all passed, the transport and the wait. *)
Lemma send_body_trace (state : State) (ctx : SendContext) (w : World) :
  exists pre post,
    (send_body state ctx w).2 = pre ++ post /\
    forallb before_transport pre = true /\
    ((post = [] /\ forall session_dir r_code rpc_script,
                     ~ ready state w ctx session_dir r_code rpc_script) \/
     exists session_dir r_code rpc_script extra,
       ready state w ctx session_dir r_code rpc_script /\
       post =
         (run_rpc_send rpc_script (transport_args state session_dir r_code ++ extra)
            (expect_result ctx) (rpc_timeout_seconds state) (w_which_timeout w)
            (w_rpc_proc w)).2
         ++ (if expect_result ctx && exited_zero (w_rpc_proc w)
             then wait_events (ctx_out_path ctx) w else [])).
Proof.
  unfold send_body.
  destruct (w_resolve_session_dir w) as [session_dir|?] eqn:Hresolve.
  2:{ eexists _, []. rewrite app_nil_r. repeat split; auto. left. split; [reflexivity|].
      intros ? ? ? (H & _). congruence. }
  destruct (w_load_session_environment w) as [[]|?] eqn:Hload.
  2:{ eexists _, []. rewrite app_nil_r. repeat split; auto. left. split; [reflexivity|].
      intros ? ? ? (_ & H & _). congruence. }
  destruct (build_r_code state ctx) as [r_code|?] eqn:Hbuild.
  2:{ eexists _, []. rewrite app_nil_r. repeat split; auto. left. split; [reflexivity|].
      intros ? ? ? (_ & _ & H & _). congruence. }
  destruct (w_check_r_code_parse w) as [[]|?] eqn:Hparse.
  2:{ eexists _, []. rewrite app_nil_r. cbn [fst snd]. split; [reflexivity|]. split.
      - rewrite !forallb_app. now destruct (append_only ctx).
      - left. split; [reflexivity|]. intros ? ? ? (_ & _ & _ & H & _). congruence. }
  destruct (w_find_rpc_script w) as [rpc_script|?] eqn:Hfind.
  2:{ eexists _, []. rewrite app_nil_r. cbn [fst snd]. split; [reflexivity|]. split.
      - rewrite !forallb_app. now destruct (append_only ctx), (print_code state).
      - left. split; [reflexivity|]. intros ? ? ? (_ & _ & _ & _ & H & _). congruence. }
  set (ev0 := (_ ++ _ ++ [Call_find_rpc_script]) : list event).
  assert (Hev0 : forallb before_transport ev0 = true).
  { subst ev0. rewrite !forallb_app. now destruct (append_only ctx), (print_code state). }
  set (written := if expect_result ctx then _ else _).
  assert (Hwr : forallb before_transport written.2 = true)
    by (subst written; now destruct (expect_result ctx)).
  assert (Hwo : written.1 = if expect_result ctx then w_write_out w else Ok tt)
    by (subst written; now destruct (expect_result ctx)).
  destruct written.1 as [[]|?].
  2:{ eexists _, []. rewrite app_nil_r. cbn [fst snd]. split; [reflexivity|]. split.
      - now rewrite forallb_app, Hev0, Hwr.
      - left. split; [reflexivity|]. intros ? ? ? (_ & _ & _ & _ & _ & H & _).
        destruct (expect_result ctx); [|discriminate Hwo].
        rewrite H in Hwo by reflexivity. discriminate Hwo. }
  assert (Hbev : forallb before_transport (check_session_busy_before_rpc (w_executing w)).2
                 = true).
  { unfold check_session_busy_before_rpc. now destruct (Py.eqs _ _). }
  assert (Hb : (check_session_busy_before_rpc (w_executing w)).1 = true <->
               read_executing (w_executing w) <> "1").
  { unfold check_session_busy_before_rpc. rewrite <- eqs_false.
    destruct (Py.eqs _ _); cbn [fst]; split; congruence. }
  destruct (check_session_busy_before_rpc (w_executing w)).1.
  2:{ eexists _, []. rewrite app_nil_r. cbn [fst snd negb]. split; [reflexivity|]. split.
      - now rewrite !forallb_app, Hev0, Hwr, Hbev.
      - left. split; [reflexivity|]. intros ? ? ? (_ & _ & _ & _ & _ & _ & H).
        apply Hb in H. discriminate H. }
  cbn [negb].
  exists ((ev0 ++ written.2) ++ (check_session_busy_before_rpc (w_executing w)).2).
  eexists. split; [|split; [now rewrite !forallb_app, Hev0, Hwr, Hbev|]].
  2:{ right. exists session_dir, r_code, rpc_script,
        (if Py.truthy (rpostback_bin state)
         then ["--rpostback-bin"; rpostback_bin state] else []).
      split; [|reflexivity]. unfold ready. repeat split; auto.
      - intros He. rewrite He in Hwo. now symmetry.
      - now apply Hb. }
  unfold transport_args, wait_events.
  match goal with |- context [run_rpc_send ?a ?b ?c ?d ?e ?f] =>
    set (sent := run_rpc_send a b c d e f) end.
  assert (Hs : exited_zero (w_rpc_proc w)
               = match sent.1 with Ok rc => (rc =? 0)%Z | Raise _ => false end).
  { subst sent. unfold run_rpc_send, exited_zero.
    destruct (w_rpc_proc w) as [proc|?]; [|reflexivity].
    destruct (returncode proc =? 124)%Z eqn:H1;
      [apply Z.eqb_eq in H1; rewrite H1; reflexivity|].
    destruct (returncode proc =? 137)%Z eqn:H2;
      [apply Z.eqb_eq in H2; rewrite H2; reflexivity|].
    reflexivity. }
  rewrite Hs. destruct sent.1 as [rc|?]; cbn [fst snd].
  2:{ now rewrite andb_false_r, app_nil_r. }
  destruct (rc =? 0)%Z; cbn [negb fst snd].
  2:{ now rewrite andb_false_r, app_nil_r. }
  rewrite andb_true_r.
  destruct (expect_result ctx); [|cbn [fst snd]; now rewrite !app_nil_r].
  destruct (w_final_poll w); cbn [negb fst snd]; now rewrite <- ?app_assoc.
Qed.

Lemma cleanup_only_unlinks (ctx : SendContext) (success : bool) (e : event) :
  In e (send_cleanup ctx success) -> exists p, e = Unlink p.
Proof.
  unfold send_cleanup. rewrite in_app_iff.
  destruct (is_temp_out_path ctx && _), (negb success && _); cbn;
    intros H; decompose [or] H; try contradiction; subst; eauto.
Qed.

Lemma before_transport_in (pre : list event) (e : event) :
  forallb before_transport pre = true -> In e pre -> before_transport e = true.
Proof. intros H. now apply forallb_forall. Qed.

(** What [run_rpc_send] does: it runs the transport script, wrapped in
    [timeout] or not, and prints. *)
Lemma rpc_send_events (script : string) (args : list string) (suppress : bool)
    (seconds : string) (use_timeout : bool) (run : result Proc) (e : event) :
  In e (run_rpc_send script args suppress seconds use_timeout run).2 ->
  (exists wrapper, e = Run_subprocess (wrapper ++ "python3" :: script :: args)) \/
  (suppress = false /\ exists proc, run = Ok proc /\ e = Print_stdout (stdout proc)) \/
  (exists text, e = Print_stderr text).
Proof.
  unfold run_rpc_send.
  assert (Hrun : forall e', Run_subprocess
            (if use_timeout
             then ["timeout"; "--foreground"; "--signal=TERM"; "--kill-after=2";
                   seconds +:+ "s"] ++ "python3" :: script :: args
             else "python3" :: script :: args) = e' ->
          exists wrapper, e' = Run_subprocess (wrapper ++ "python3" :: script :: args)).
  { intros e' <-. destruct use_timeout; [eexists; reflexivity|now exists []]. }
  destruct run as [proc|?]; [|cbn [snd In]; intros [H|[]]; left; now apply Hrun].
  assert (Hout : In e (if negb suppress && Py.truthy (stdout proc)
                       then [Print_stdout (stdout proc)] else []) ->
                 suppress = false /\ exists proc', Ok proc = Ok proc' /\ e = Print_stdout (stdout proc')).
  { destruct suppress; cbn [negb andb In]; [intros []|].
    destruct (Py.truthy (stdout proc)); cbn [In]; [|intros []]. intros [<-|[]]. eauto. }
  assert (Herr : In e (if Py.truthy (stderr proc)
                       then [Print_stderr (stderr proc)] else []) ->
                 exists text, e = Print_stderr text).
  { destruct (Py.truthy (stderr proc)); cbn [In]; [|intros []]. intros [<-|[]]. eauto. }
  destruct (_ || _); cbn [snd]; rewrite !in_app_iff; cbn [In]; intros H;
    decompose [or] H; try contradiction; auto.
  right. right. subst e. eauto.
Qed.

Lemma diagnose_events (d : DiagObs) (e : event) :
  In e (diagnose_result_wait_timeout d) ->
  e = Call_diagnose_result_wait_timeout \/ exists text, e = Print_stderr text.
Proof.
  unfold diagnose_result_wait_timeout. rewrite !in_app_iff.
  assert (Hpair : forall (c : bool) (a b : string),
            In e (if c then [Print_stderr a; Print_stderr b] else []) ->
            exists text, e = Print_stderr text).
  { intros [] a b; cbn [In]; intros H; decompose [or] H; try contradiction; subst; eauto. }
  cbn [In]. intros H. decompose [or] H; subst;
    first [contradiction | solve [eauto] | right; eapply Hpair; eassumption].
Qed.

Lemma poll_loop_events (path : string) (polls : list (option string)) (e : event) :
  In e (poll_loop path polls) ->
  e = Poll_result_file path \/ e = Sleep_200ms \/
  exists content, e = Print_stdout content /\ In (Some content) polls.
Proof.
  induction polls as [|[content|] polls IH]; cbn [poll_loop In].
  - intros [].
  - intros [<-|[<-|[]]]; [now left|]. right. right. exists content. auto.
  - intros [<-|[<-|H]]; [now left|now right; left|].
    destruct (IH H) as [?|[?|(content & ? & ?)]]; auto.
    right. right. exists content. auto.
Qed.

Lemma wait_events_in (path : string) (w : World) (e : event) :
  In e (wait_events path w) ->
  e = Poll_result_file path \/ e = Sleep_200ms \/
  (exists content, e = Print_stdout content /\ In (Some content) (w_polls w)) \/
  (w_final_poll w = false /\
   (e = Call_diagnose_result_wait_timeout \/ exists text, e = Print_stderr text)).
Proof.
  unfold wait_events. rewrite !in_app_iff. cbn [In]. intros [H|[[<-|[]]|H]]; [|now left|].
  - apply poll_loop_events in H. tauto.
  - destruct (w_final_poll w); [destruct H|]. right. right. right. split; [reflexivity|].
    destruct H as [<-|H]; [eauto|]. now apply diagnose_events in H.
Qed.



Lemma exited_zero_true (run : result Proc) :
  exited_zero run = true <-> exists proc, run = Ok proc /\ returncode proc = 0%Z.
Proof.
  destruct run as [proc|e]; cbn [exited_zero].
  - rewrite Z.eqb_eq. split; [intros H; now exists proc|now intros (? & [= <-] & H)].
  - split; [discriminate|now intros (? & [=] & _)].
Qed.

(** The trace of a send whose request passed validation, event by event. *)
Lemma send_events (state : State) (w : World) (ctx : SendContext) (e : event) :
  validate_state_for_send state (w_mkstemp w) = Ok ctx ->
  In e (send_current_state state w).2 ->
  before_transport e = true \/
  (exists argv, e = Run_subprocess argv) \/
  (expect_result ctx = false /\
   exists proc, w_rpc_proc w = Ok proc /\ e = Print_stdout (stdout proc)) \/
  (expect_result ctx = true /\ delivered state w ctx /\
   In e (wait_events (ctx_out_path ctx) w)) \/
  In e (send_cleanup ctx (is_ok (send_body state ctx w).1)).
Proof.
  intros Hv. unfold send_current_state. rewrite Hv. cbn [snd]. rewrite in_app_iff.
  intros [H|H]; [|now repeat right].
  destruct (send_body_trace state ctx w) as (pre & post & Heq & Hpre & Hpost).
  rewrite Heq in H. apply in_app_iff in H as [H|H].
  { left. now apply (before_transport_in _ _ Hpre). }
  destruct Hpost as [[-> _]|(session_dir & r_code & rpc_script & extra & Hready & ->)];
    [destruct H|].
  apply in_app_iff in H as [H|H].
  - apply rpc_send_events in H as [[wrapper ->]|[[Hs (proc & Hp & ->)]|[text ->]]].
    + right. left. eauto.
    + right. right. left. eauto.
    + now left.
  - destruct (expect_result ctx) eqn:He; [|destruct H].
    destruct (exited_zero (w_rpc_proc w)) eqn:Hz; [|destruct H].
    right. right. right. left. split; [reflexivity|]. split; [|exact H].
    split; [eauto|now apply exited_zero_true].
Qed.

(** Once every step before the transport passed and the transport exited
    with 0, a send that expects a result waits for it. *)
Lemma delivered_waits (state : State) (w : World) (ctx : SendContext) (e : event) :
  validate_state_for_send state (w_mkstemp w) = Ok ctx ->
  expect_result ctx = true -> delivered state w ctx ->
  In e (wait_events (ctx_out_path ctx) w) -> In e (send_current_state state w).2.
Proof.
  intros Hv He [(session_dir & r_code & rpc_script & Hready) Hz] H.
  unfold send_current_state. rewrite Hv. cbn [snd]. apply in_app_iff. left.
  destruct (send_body_trace state ctx w) as (pre & post & -> & _ & Hpost).
  apply in_app_iff. right.
  destruct Hpost as [[_ Hno]|(? & ? & ? & ? & _ & ->)]; [now apply Hno in Hready|].
  apply exited_zero_true in Hz. rewrite He, Hz. apply in_app_iff. now right.
Qed.

Lemma unlink_if (c : bool) (q p : string) :
  In (Unlink p) (if c && Py.truthy q then [Unlink q] else []) <->
  c = true /\ p = q /\ p <> EmptyString.
Proof.
  destruct c; cbn [andb].
  2:{ split; [intros []|intros (? & _); discriminate]. }
  destruct q as [|a q]; cbn.
  - split; [intros []|]. intros (_ & -> & H). now destruct H.
  - split.
    + intros [[= <-]|[]]. repeat split. discriminate.
    + intros (_ & -> & _). now left.
Qed.





(** X19: what a send prints on standard output is, when a result is
    expected, only the text of the result file as a round of the wait found
    it (the transport's own output is suppressed), and otherwise only the
    transport's standard output.  So a result that turns up only at the last
    look, after the rounds, is never printed. *)
Theorem X19_what_a_send_prints_on_stdout (state : State) (w : World) (ctx : SendContext)
    (text : string) :
  validate_state_for_send state (w_mkstemp w) = Ok ctx ->
  In (Print_stdout text) (send_current_state state w).2 ->
  if expect_result ctx then In (Some text) (w_polls w)
  else exists proc, w_rpc_proc w = Ok proc /\ text = stdout proc.
Proof.
  intros Hv H.
  pose proof (send_events _ _ _ _ Hv H) as [Hb|[[? Hr]|[(He & proc & Hp & Hr)|[Hw|Hu]]]];
    try discriminate.
  - rewrite He. exists proc. split; [exact Hp|]. now injection Hr.
  - destruct Hw as (He & _ & Hw). rewrite He.
    apply wait_events_in in Hw as [Hw|[Hw|[(content & Hw & Hin)|[_ [Hw|[? Hw]]]]]];
      try discriminate Hw. injection Hw as ->. exact Hin.
  - apply cleanup_only_unlinks in Hu as [? Hu]. discriminate Hu.
Qed.

Lemma X19_what_a_send_prints_witness :
  In (Some "[1] 2") (w_polls (answering_world "[1] 2")).
Proof.
  refine (X19_what_a_send_prints_on_stdout (request ["result: 1 + 1"])
            (answering_world "[1] 2")
            (mkSendContext true "/tmp/codex_rstudio_capability_result_0.txt" true
                           EmptyString false)
            "[1] 2" eq_refl _).
  apply (nth_error_In _ 11). vm_compute. reflexivity.
Defined.

End Sending.

(** ** Diagnoser hints *)

Section DiagnoserHints.
Import Re Validator Synth Dispatch Repl Spec Hints.

Lemma ln_inj (x y : string) : ln x = ln y -> x = y.
Proof.
  unfold ln. revert y. induction x as [|c x IH]; intros [|d y]; cbn; intros H;
    try reflexivity; try discriminate H.
  - destruct y; discriminate H.
  - destruct x; discriminate H.
  - injection H as -> H. f_equal. now apply IH.
Qed.

Lemma in_hint_pair (c : bool) (a b h : string) :
  In (Print_stderr (ln h)) (if c then [Print_stderr (ln a); Print_stderr (ln b)] else [])
  <-> c && (Py.eqs h a || Py.eqs h b) = true.
Proof.
  unfold Py.eqs. rewrite andb_true_iff, orb_true_iff, !String.eqb_eq.
  destruct c; cbn [In]; [|split; [intros []|intros [[=] _]]].
  split.
  - intros [[= H]|[[= H]|[]]]; apply ln_inj in H; auto.
  - intros [_ [->| ->]]; auto.
Qed.

Lemma mem_In (x : string) (xs : list string) : In x xs <-> Py.mem x xs = true.
Proof.
  unfold Py.mem, Py.eqs. induction xs as [|y xs IH]; cbn [existsb In].
  - split; [contradiction|discriminate].
  - rewrite orb_true_iff, <- IH, String.eqb_eq. intuition congruence.
Qed.

(** X20: the hints of the timeout diagnoser follow the causes it lists: for
    each of the four causes that have a hint, the first line of that hint is
    printed exactly when the cause is in the list; so for [unknown] alone no
    hint is printed. *)
Theorem X20_hints_follow_the_causes (d : DiagObs) (cause : string) :
  In cause hinted_causes ->
  In (Print_stderr (ln (hint_of cause))) (diagnose_result_wait_timeout d)
  <-> In cause (timeout_causes d).
Proof.
  intros Hc. unfold diagnose_result_wait_timeout, timeout_causes.
  rewrite causes_cases. cbv zeta.
  set (running := Py.eqs (get_executing_flag_value (d_executing d)) "1").
  set (delayed := d_out_exists d && (result_file_size_bytes (d_out_size d) =? 0)%Z
                  && negb running).
  set (unavailable := negb (d_out_exists d)).
  set (liveness := Py.mem (pid_state_of d) ["dead_or_not_rsession"; "invalid"]
                   || Py.eqs (abend_value_of d) "1").
  rewrite !in_app_iff, !in_hint_pair, mem_In.
  assert (Hhead : forall x y,
            In (Print_stderr (ln (hint_of cause)))
               [Call_diagnose_result_wait_timeout;
                Print_stderr (ln ("Timeout diagnostics: causes=" +:+ x));
                Print_stderr (ln ("Timeout diagnostics: executing=" +:+ y))] <-> false = true).
  { intros x y. split; [|discriminate]. cbn [In].
    unfold hinted_causes in Hc. cbn [In] in Hc.
    decompose [or] Hc; try contradiction; subst cause; cbn;
      intros H; decompose [or] H; try contradiction; discriminate. }
  rewrite Hhead, <- !orb_true_iff. clear Hhead.
  unfold hinted_causes in Hc. cbn [In] in Hc.
  decompose [or] Hc; try contradiction; subst cause;
    destruct running, delayed, unavailable, liveness; vm_compute;
    split; intros H; exact H.
Qed.

Lemma X20_hints_witness :
  In (Print_stderr (ln "Likely cause: R code is still running in the live console."))
     (diagnose_result_wait_timeout (w_diag (quiet_world 0))).
Proof.
  refine (proj2 (X20_hints_follow_the_causes (w_diag (quiet_world 0))
                   "compute_still_running" _) _).
  - left. reflexivity.
  - left. reflexivity.
Defined.

End DiagnoserHints.

(** ** Declared names *)

Section DeclaredNames.
Import Re Validator Synth Dispatch Repl Spec Hints.

Lemma create_loop_runs (specs declared : list string) :
  declares specs declared ->
  forall seen names lines,
    (NoDup declared -> (forall name, name ∈ declared -> name ∉ seen) ->
     exists lines', create_loop specs seen names lines = Ok (names ++ declared, lines')) /\
    (~ (NoDup declared /\ forall name, name ∈ declared -> name ∉ seen) ->
     exists name, name ∈ declared /\
       create_loop specs seen names lines = Raise (duplicate_error name)).
Proof.
  induction 1 as [|spec name specs declared [expr Hspec] _ IH]; intros seen names lines.
  - split.
    + intros _ _. exists lines. cbn. now rewrite app_nil_r.
    + intros H. exfalso. apply H. split; [constructor|]. intros ? Hin.
      now apply elem_of_nil in Hin.
  - cbn [create_loop]. rewrite Hspec. cbn [mbind result_bind].
    destruct (Py.mem name seen) eqn:Hmem; cbn [raise_if mbind result_bind].
    + apply mem_elem_of in Hmem. split.
      * intros _ Hd. exfalso. apply (Hd name); [now left|exact Hmem].
      * intros _. exists name. split; [now left|reflexivity].
    + assert (Hn : name ∉ seen) by (rewrite mem_elem_of, Hmem; discriminate).
      destruct (IH (name :: seen) (names ++ [name]) (lines ++ create_lines name expr))
        as [IHok IHdup].
      split.
      * intros Hnd Hd. apply NoDup_cons in Hnd as [Hnew Hnd].
        destruct (IHok Hnd) as [lines' ->].
        { intros n Hin Hs. apply elem_of_cons in Hs as [->|Hs]; [contradiction|].
          apply (Hd n); [now right|exact Hs]. }
        exists lines'. now rewrite <- app_assoc.
      * intros Hno. destruct IHdup as (n & Hin & ->).
        { intros [Hnd Hd]. apply Hno. split.
          - apply NoDup_cons. split; [|exact Hnd].
            intros Hin. apply (Hd name Hin). now left.
          - intros n Hin. apply elem_of_cons in Hin as [->|Hin]; [exact Hn|].
            intros Hs. apply (Hd n Hin). now right. }
        exists n. split; [now right|reflexivity].
Qed.

(** X21: when every [Create] spec of a request is valid, [build_r_code]
    produces code exactly when the names the specs declare are all
    different; otherwise it raises the duplicate-name error for one of the
    declared names.  Nothing else in [build_r_code] can fail. *)
Theorem X21_create_names_must_differ (state : State) (ctx : SendContext)
    (declared : list string) :
  declares (create_global_specs state) declared ->
  (NoDup declared <-> is_ok (build_r_code state ctx) = true) /\
  (~ NoDup declared ->
   exists name, name ∈ declared /\
     build_r_code state ctx = Raise (duplicate_error name)).
Proof.
  intros Hd.
  destruct (create_loop_runs _ _ Hd [] [] []) as [Hok Hdup].
  assert (Hfail : ~ NoDup declared ->
            exists name, name ∈ declared /\
              build_r_code state ctx = Raise (duplicate_error name)).
  { intros Hno. destruct Hdup as (name & Hin & Hl); [now intros [? _]|].
    exists name. split; [exact Hin|]. unfold build_r_code. now rewrite Hl. }
  split; [|exact Hfail]. split.
  - intros Hnd. destruct (Hok Hnd) as [lines' Hl].
    { intros ? _ Hin. now apply elem_of_nil in Hin. }
    unfold build_r_code. now rewrite Hl.
  - intros Hb. destruct (decide (NoDup declared)) as [Hnd|Hno]; [exact Hnd|].
    destruct (Hfail Hno) as (? & _ & Hr). rewrite Hr in Hb. discriminate Hb.
Qed.

Lemma X21_create_names_witness :
  is_ok (build_r_code created_request terminal_context) = true.
Proof.
  refine (proj1 (proj1 (X21_create_names_must_differ created_request terminal_context
                          ["y"] _)) _).
  - unfold declares.
    replace (create_global_specs created_request) with [" y := 2"]
      by (vm_compute; reflexivity).
    constructor; [|constructor]. exists "2". vm_compute. reflexivity.
  - apply NoDup_singleton.
Defined.

End DeclaredNames.

(** ** The session *)

Section SessionDirectory.
Import Re Validator Synth Dispatch Repl Spec Session.

Lemma first_with_pid_in (current_pid dir : string) (candidates : list SessionDir) :
  first_with_pid current_pid candidates = Some dir ->
  exists candidate, candidate ∈ candidates /\ sd_path candidate = dir /\
    sd_has_state candidate = true /\
    exists content, sd_env candidate = Some content /\
      extract_kv_value (Some content) "RSTUDIO_SESSION_PID" = current_pid.
Proof.
  induction candidates as [|c rest IH]; cbn [first_with_pid]; [discriminate|].
  assert (Hrest : first_with_pid current_pid rest = Some dir ->
            exists candidate, candidate ∈ c :: rest /\ sd_path candidate = dir /\
              sd_has_state candidate = true /\
              exists content, sd_env candidate = Some content /\
                extract_kv_value (Some content) "RSTUDIO_SESSION_PID" = current_pid).
  { intros H. destruct (IH H) as (x & Hin & Hx). exists x. split; [now right|exact Hx]. }
  destruct (sd_env c) as [content|] eqn:Henv; [|exact Hrest].
  destruct (sd_has_state c) eqn:Hstate; cbn [negb]; [|exact Hrest].
  destruct (Py.eqs _ current_pid) eqn:Heq; [|exact Hrest].
  intros [= <-]. exists c. split; [now left|]. repeat split; auto.
  exists content. split; [exact Henv|]. now apply String.eqb_eq in Heq.
Qed.

Lemma first_with_state_spec (candidates : list SessionDir) :
  match first_with_state candidates with
  | Some dir => exists candidate, candidate ∈ candidates /\ sd_path candidate = dir /\
                  sd_has_state candidate = true
  | None => Forall (fun candidate => sd_has_state candidate = false) candidates
  end.
Proof.
  induction candidates as [|c rest IH]; cbn [first_with_state]; [constructor|].
  destruct (sd_has_state c) eqn:Hstate.
  - exists c. split; [now left|]. now split.
  - destruct (first_with_state rest) as [dir|].
    + destruct IH as (x & Hin & Hx). exists x. split; [now right|exact Hx].
    + now constructor.
Qed.


End SessionDirectory.

Section SessionEnvironment.
Import Re Validator Synth Dispatch Repl Spec Session.

Lemma drop_append (p s : string) : Py.drop (String.length p) (p +:+ s) = s.
Proof. induction p as [|c p IH]; cbn; [reflexivity|exact IH]. Qed.

Lemma span_spec (f : ascii -> bool) (k tail : string) :
  Py.all_chars f k = true ->
  match tail with EmptyString => True | String c _ => f c = false end ->
  span f (k +:+ tail) = (k, tail).
Proof.
  intros Hk Ht. induction k as [|c k IH]; cbn.
  - destruct tail as [|c tail]; cbn; [reflexivity|now rewrite Ht].
  - cbn in Hk. apply andb_true_iff in Hk as [Hc Hk]. now rewrite Hc, IH.
Qed.

Lemma span_inv (f : ascii -> bool) (s k tail : string) :
  span f s = (k, tail) ->
  s = k +:+ tail /\ Py.all_chars f k = true.
Proof.
  revert k tail. induction s as [|c s IH]; intros k tail; cbn.
  - intros [= <- <-]. now split.
  - destruct (f c) eqn:Hc.
    + destruct (span f s) as [k' tail'] eqn:Hs. intros [= <- <-].
      destruct (IH _ _ eq_refl) as [-> Hk]. cbn. now rewrite Hc.
    + intros [= <- <-]. now split.
Qed.

(** On a name, the pattern of [apply_env_file] and the pattern of
    [extract_kv_value] match the same lines with the same value. *)
Lemma env_line_kv (key line value : string) :
  is_env_key key = true ->
  env_line line = Some (key, value) <-> kv_line key line = Some value.
Proof.
  intros Hkey. destruct key as [|c k]; [discriminate Hkey|].
  cbn [is_env_key] in Hkey. apply andb_true_iff in Hkey as [Hc Hk].
  unfold kv_line. split.
  - destruct line as [|c' rest]; cbn [env_line]; [discriminate|].
    destruct (env_key_start c'); [|discriminate].
    destruct (span env_key_rest rest) as [k' tail] eqn:Hspan.
    apply span_inv in Hspan as [-> _].
    destruct (Py.startswith ("=" +:+ dq) tail) eqn:Htail; [|discriminate].
    apply startswith_split in Htail.
    remember (Py.drop 2 tail) as value' eqn:Hv.
    change (Py.drop (String.length ("=" +:+ dq)) tail) with (Py.drop 2 tail) in Htail.
    rewrite <- Hv in Htail. clear Hv. subst tail.
    destruct (Py.endswith_char _ value') eqn:Hend; [|discriminate].
    intros [= -> -> <-].
    assert (Hl : String c (k +:+ ("=" +:+ dq) +:+ value')
                 = (String c k +:+ "=" +:+ dq) +:+ value').
    { cbn. now rewrite !append_assoc. }
    rewrite Hl, startswith_append, drop_append, Hend. reflexivity.
  - destruct (Py.startswith _ line) eqn:Hstart; [|discriminate].
    apply startswith_split in Hstart.
    set (value' := Py.drop _ line) in *.
    destruct (Py.endswith_char _ value') eqn:Hend; [|discriminate].
    intros [= <-].
    assert (Hl : (String c k +:+ "=" +:+ dq) +:+ value'
                 = String c (k +:+ ("=" +:+ dq +:+ value'))).
    { cbn. now rewrite !append_assoc. }
    rewrite Hstart, Hl. cbn [env_line]. rewrite Hc.
    rewrite (span_spec env_key_rest k ("=" +:+ dq +:+ value') Hk) by reflexivity.
    change (Py.startswith ("=" +:+ dq) ("=" +:+ dq +:+ value')) with true.
    change (Py.drop 2 ("=" +:+ dq +:+ value')) with value'.
    now rewrite Hend.
Qed.

Lemma first_kv_head (key : string) (lines : list string) :
  first_kv key lines = default EmptyString (head (omap (kv_line key) lines)).
Proof.
  induction lines as [|line lines IH]; cbn [first_kv omap list_omap]; [reflexivity|].
  destruct (kv_line key line); [reflexivity|exact IH].
Qed.

Lemma apply_lines_lookup (key : string) (lines : list string) (env env' : environ) :
  is_env_key key = true ->
  apply_lines lines env = Ok env' ->
  env' !! key = match last (omap (kv_line key) lines) with
                | Some value => Some value
                | None => env !! key
                end.
Proof.
  intros Hkey. revert env. induction lines as [|line lines IH]; intros env; cbn [apply_lines].
  - now intros [= <-].
  - cbn [omap list_omap].
    destruct (env_line line) as [[k v]|] eqn:Hline.
    + destruct (Py.contains _ v); [discriminate|]. intros H. rewrite (IH _ H).
      destruct (decide (k = key)) as [->|Hne].
      * apply (env_line_kv _ _ _ Hkey) in Hline. rewrite Hline.
        rewrite last_cons. destruct (last _); [reflexivity|].
        now rewrite lookup_insert_eq.
      * destruct (kv_line key line) as [v'|] eqn:Hkv.
        { apply (env_line_kv _ _ _ Hkey) in Hkv. congruence. }
        destruct (last _); [reflexivity|]. now rewrite lookup_insert_ne.
    + destruct (kv_line key line) as [v'|] eqn:Hkv.
      { apply (env_line_kv _ _ _ Hkey) in Hkv. congruence. }
      apply IH.
Qed.

(** X23: [extract_kv_value] reads the value of the first line that assigns
    a name, [apply_env_file] leaves the name set to the value of the last
    one (and as it was when no line assigns it); so for a name the file
    assigns once the two agree. *)
Theorem X23_first_line_read_last_line_applied (key : string) (env_file : option string)
    (env env' : environ) :
  is_env_key key = true ->
  apply_env_file env_file env = Ok env' ->
  extract_kv_value env_file key = default EmptyString (head (values_of key env_file)) /\
  env' !! key = match last (values_of key env_file) with
                | Some value => Some value
                | None => env !! key
                end /\
  (forall value, values_of key env_file = [value] ->
                 getenv env' key = extract_kv_value env_file key).
Proof.
  intros Hkey Happly.
  assert (H1 : extract_kv_value env_file key
               = default EmptyString (head (values_of key env_file))).
  { destruct env_file as [content|]; [apply first_kv_head|reflexivity]. }
  assert (H2 : env' !! key = match last (values_of key env_file) with
                             | Some value => Some value
                             | None => env !! key
                             end).
  { destruct env_file as [content|]; cbn in *.
    - now apply apply_lines_lookup.
    - now injection Happly as <-. }
  split; [exact H1|]. split; [exact H2|].
  intros value Hone. unfold getenv. rewrite H1, H2, Hone. reflexivity.
Qed.

Lemma X23_first_line_witness :
  getenv live_environ "RS_PORT_TOKEN" = extract_kv_value (Some live_file) "RS_PORT_TOKEN".
Proof.
  refine (proj2 (proj2 (X23_first_line_read_last_line_applied "RS_PORT_TOKEN"
            (Some live_file) (<["RSTUDIO_SESSION_STREAM" := "7"]> ∅) live_environ _ _))
            "t0" _).
  - reflexivity.
  - vm_compute. reflexivity.
  - reflexivity.
Defined.

End SessionEnvironment.

Section LoadingTheEnvironment.
Import Re Validator Synth Dispatch Repl Spec Session.

Lemma env_line_key (line key value : string) :
  env_line line = Some (key, value) -> is_env_key key = true.
Proof.
  destruct line as [|c rest]; cbn [env_line]; [discriminate|].
  destruct (env_key_start c) eqn:Hc; [|discriminate].
  destruct (span env_key_rest rest) as [k tail] eqn:Hspan.
  apply span_inv in Hspan as [_ Hk].
  destruct (Py.startswith _ tail); [|discriminate].
  destruct (Py.endswith_char _ _); [|discriminate].
  intros [= <- _]. cbn. now rewrite Hc, Hk.
Qed.

Lemma apply_lines_frame (key : string) (lines : list string) (env env' : environ) :
  is_env_key key = false ->
  apply_lines lines env = Ok env' -> env' !! key = env !! key.
Proof.
  intros Hkey. revert env. induction lines as [|line lines IH]; intros env; cbn [apply_lines].
  - now intros [= <-].
  - destruct (env_line line) as [[k v]|] eqn:Hline; [|apply IH].
    destruct (Py.contains _ v); [discriminate|]. intros H. rewrite (IH _ H).
    apply lookup_insert_ne. intros ->. apply env_line_key in Hline. congruence.
Qed.

(** What [apply_env_file] does to one variable: nothing, or it sets it to
    the value of the last line of the file that assigns it. *)
Lemma apply_env_file_lookup (key : string) (env_file : option string) (env env' : environ) :
  apply_env_file env_file env = Ok env' ->
  env' !! key = env !! key \/
  (is_env_key key = true /\ env' !! key = last (values_of key env_file)
   /\ env' !! key <> None).
Proof.
  intros H. destruct env_file as [content|]; cbn in H; [|injection H as <-; now left].
  destruct (is_env_key key) eqn:Hkey.
  - rewrite (apply_lines_lookup key _ _ _ Hkey H). cbn [values_of].
    destruct (last _) as [v|]; [right|now left]. now repeat split.
  - left. now apply (apply_lines_frame key _ _ _ Hkey H).
Qed.

(** X24: [load_session_environment] leaves the environment as it is when
    it already names a live session (stream, token and a live pid); and
    whenever it returns, each variable is as it was, or has the value of the
    last line of the session's file that assigns it, or is
    [RSTUDIO_SESSION_STREAM] inferred from the pid file of a live pid. *)
Theorem X24_environment_comes_from_the_session_file (env_file : option string)
    (w : SessionWorld) (env' : environ) :
  load_session_environment env_file w = Ok env' ->
  (Py.truthy (getenv (sw_environ w) "RSTUDIO_SESSION_STREAM")
   && Py.truthy (getenv (sw_environ w) "RS_PORT_TOKEN")
   && pid_alive w (getenv (sw_environ w) "RSTUDIO_SESSION_PID") = true ->
   env' = sw_environ w) /\
  forall key,
    env' !! key = sw_environ w !! key \/
    (is_env_key key = true /\ env' !! key = last (values_of key env_file)
     /\ env' !! key <> None) \/
    (key = "RSTUDIO_SESSION_STREAM" /\
     exists pid, pid_alive w pid = true /\
       env' !! key = Some (infer_stream_from_pid pid (sw_pid_files w))).
Proof.
  unfold load_session_environment. cbv zeta. intros H.
  destruct (_ && pid_alive w _) eqn:Hlive.
  { injection H as <-. split; [reflexivity|]. intros key. now left. }
  split; [discriminate|]. intros key.
  set (first := match env_file with Some _ => _ | None => Ok (sw_environ w) end) in H.
  assert (H1 : forall env1, first = Ok env1 ->
            env1 !! key = sw_environ w !! key \/
            (is_env_key key = true /\ env1 !! key = last (values_of key env_file)
             /\ env1 !! key <> None)).
  { subst first. intros env1. destruct env_file as [content|]; [|intros [= <-]; now left].
    cbv zeta.
    destruct (pid_alive w (extract_kv_value (Some content) "RSTUDIO_SESSION_PID"));
      [|intros [= <-]; now left].
    apply apply_env_file_lookup. }
  destruct first as [env1|?]; cbn [mbind result_bind] in H; [|discriminate H].
  specialize (H1 env1 eq_refl).
  set (second := if _ && match env_file with Some _ => true | None => false end
                 then _ else Ok env1) in H.
  assert (H2 : forall env2, second = Ok env2 ->
            env2 !! key = sw_environ w !! key \/
            (is_env_key key = true /\ env2 !! key = last (values_of key env_file)
             /\ env2 !! key <> None)).
  { subst second. intros env2.
    match goal with |- (if ?c then _ else _) = _ -> _ => destruct c end;
      [|intros [= <-]; exact H1].
    intros E. destruct (apply_env_file_lookup key _ _ _ E) as [->|?]; [exact H1|now right]. }
  destruct second as [env2|?]; cbn [mbind result_bind] in H; [|discriminate H].
  specialize (H2 env2 eq_refl).
  match type of H with (if ?c then _ else _) = _ => destruct c eqn:Hinfer end.
  2:{ injection H as <-. destruct H2 as [?|?]; [now left|now right; left]. }
  apply andb_true_iff in Hinfer as [_ Halive].
  match type of H with (if ?c then _ else _) = _ => destruct c end.
  2:{ injection H as <-. destruct H2 as [?|?]; [now left|now right; left]. }
  injection H as <-.
  destruct (decide (key = "RSTUDIO_SESSION_STREAM")) as [->|Hne].
  - right. right. split; [reflexivity|]. eexists. split; [exact Halive|].
    apply lookup_insert_eq.
  - rewrite lookup_insert_ne by congruence.
    destruct H2 as [?|?]; [now left|now right; left].
Qed.

Lemma X24_environment_witness :
  live_environ !! "RS_PORT_TOKEN" = sw_environ live_world !! "RS_PORT_TOKEN" \/
  (is_env_key "RS_PORT_TOKEN" = true /\
   live_environ !! "RS_PORT_TOKEN" = last (values_of "RS_PORT_TOKEN" (Some live_file))
   /\ live_environ !! "RS_PORT_TOKEN" <> None) \/
  ("RS_PORT_TOKEN" = "RSTUDIO_SESSION_STREAM" /\
   exists pid, pid_alive live_world pid = true /\
     live_environ !! "RS_PORT_TOKEN"
     = Some (infer_stream_from_pid pid (sw_pid_files live_world))).
Proof.
  refine (proj2 (X24_environment_comes_from_the_session_file (Some live_file) live_world
                   live_environ _) "RS_PORT_TOKEN").
  vm_compute. reflexivity.
Defined.

End LoadingTheEnvironment.

(** ** The transport script *)

Section TransportScript.
Import Re Validator Synth Dispatch Repl Spec LowLevel.

Lemma is_empty_eq (s : string) : Py.is_empty s = false <-> s <> EmptyString.
Proof. destruct s; cbn; split; congruence. Qed.


Ltac case_in H :=
  match type of H with In _ (if ?c then _ else _) => destruct c end; cbn [In] in H.

Lemma pid_state_events (pid : string) (ps_rc : Z) (e : event) :
  In e (session_pid_state pid ps_rc).2 -> e = Run_subprocess ["ps"; "-p"; pid].
Proof.
  unfold session_pid_state. destruct (_ || _); cbn [snd In]; [intros []|].
  now intros [<-|[]].
Qed.

Lemma run_rpostback_command (bin text : string) (seconds : N) (w : LowWorld) :
  exists wrapper,
    (run_rpostback bin text seconds w).2
    = wrapper ++ [bin; "--command"; "console_input"; "--argument"; text].
Proof.
  unfold run_rpostback. destruct (lw_has_timeout w); [eexists; reflexivity|].
  destruct (lw_plain w); now exists [].
Qed.

(** X26: the transport script runs [rpostback] at most in a run whose
    arguments it accepted and whose state file gave a client id; the command
    ends with [--command console_input --argument] and the JSON-RPC payload,
    which carries the escaped code, wrapped in [local({...}, envir =
    new.env(parent = .GlobalEnv))] when the isolate flag is 1.  The only
    other process it ever starts is [ps -p <pid>], after a timeout. *)
Theorem X26_rpostback_gets_the_wrapped_code (args : Args) (unknown : list string)
    (w : LowWorld) (argv : list string) :
  In (Run_subprocess argv) (main args unknown w).2 ->
  (exists pid, argv = ["ps"; "-p"; pid] /\
     ((postback args w).1.1 = 124%Z \/ (postback args w).1.1 = 137%Z)) \/
  (~ bad_arguments args unknown /\ a_help args = false /\
   lw_state_file w <> Absent /\ client_id w <> EmptyString /\
   exists wrapper,
     argv = wrapper ++ [a_rpostback_bin args; "--command"; "console_input"; "--argument";
                        payload (client_id w) (escape_code (sent_code args)) (a_id args)]).
Proof.
  unfold main, bad_arguments, postback, client_id.
  destruct unknown as [|first rest].
  2:{ cbn [snd In]. intros [[=]|[[=]|[]]]. }
  destruct (a_help args) eqn:Hhelp; [cbn [snd In]; intros [[=]|[]]|].
  destruct (Py.is_empty (a_code args)) eqn:Hcode; [cbn [snd In]; intros [[=]|[[=]|[]]]|].
  apply is_empty_eq in Hcode.
  destruct (Py.mem (a_isolate_code args) ["0"; "1"]) eqn:Hiso; cbn [negb];
    [|cbn [snd In]; intros [[=]|[[=]|[]]]].
  destruct (fullmatch no_flags digits (a_rpc_timeout args)) eqn:Hdigits; cbn [negb];
    [|cbn [snd In]; intros [[=]|[[=]|[]]]].
  assert (Hgood : ~ ([] <> @nil string \/
            false = false /\
            (a_code args = EmptyString \/ true = false \/ true = false))).
  { intros [H|[_ [H|[H|H]]]]; [now destruct H|contradiction|discriminate|discriminate]. }
  destruct (lw_state_file w) as [| |content] eqn:Hstate;
    [cbn [snd In]; intros [[=]|[]]| |].
  all: destruct (Py.is_empty (extract_state_value _ "active-client-id")) eqn:Hcid;
    [cbn [snd In]; intros [[=]|[]]|].
  all: apply is_empty_eq in Hcid.
  all: match goal with |- context [run_rpostback ?a ?b ?c ?d] =>
         set (ran := run_rpostback a b c d);
         destruct (run_rpostback_command a b c d) as [wrapper Hcmd]; fold ran in Hcmd
       end.
  all: assert (Hran : In (Run_subprocess argv)
                 (Run_subprocess ran.2
                  :: (if Py.truthy ran.1.2
                      then [Print_stdout (if Py.endswith_char (ascii_of_nat 10) ran.1.2
                                          then ran.1.2 else ran.1.2 +:+ nl)]
                      else [])) ->
               exists wrapper,
                 argv = wrapper ++ [a_rpostback_bin args; "--command"; "console_input";
                                    "--argument";
                                    payload (extract_state_value (lw_state_file w) "active-client-id")
                                            (escape_code (sent_code args)) (a_id args)])
    by (rewrite Hstate; cbn [In]; intros [[= <-]|H];
        [now exists wrapper|destruct (Py.truthy ran.1.2); [destruct H as [[=]|[]]|destruct H]]).
  all: rewrite Hstate in Hran.
  all: match goal with |- _ -> ?C =>
         assert (Hyes : In (Run_subprocess argv)
                   (Run_subprocess ran.2
                    :: (if Py.truthy ran.1.2
                        then [Print_stdout (if Py.endswith_char (ascii_of_nat 10) ran.1.2
                                            then ran.1.2 else ran.1.2 +:+ nl)]
                        else [])) -> C)
           by (intros H; right; split; [exact Hgood|]; split; [reflexivity|];
               split; [discriminate|]; split; [exact Hcid|]; exact (Hran H))
       end.
  all: destruct ((ran.1.1 =? 124)%Z || (ran.1.1 =? 137)%Z) eqn:Hrc; cbn [fst snd].
  1,3: rewrite !in_app_iff; intros [H|[H|[H|H]]];
    [ now apply Hyes
    | apply pid_state_events in H; injection H as ->; left; eexists;
      split; [reflexivity|];
      apply orb_true_iff in Hrc as [Hrc|Hrc]; apply Z.eqb_eq in Hrc; auto
    | cbn [In] in H; destruct H as [[=]|[[=]|[]]]
    | case_in H; [destruct H as [[=]|[]]|destruct H] ].
  all: destruct (Py.contains (q "error") ran.1.2); cbn [fst snd];
    [rewrite in_app_iff; intros [H|[[=]|[]]]; now apply Hyes|].
  all: destruct (Py.contains (q "result") ran.1.2); cbn [fst snd]; [exact Hyes|].
  all: rewrite !in_app_iff; intros [H|[H|[H|H]]];
    [ now apply Hyes
    | exfalso; case_in H; [|destruct H];
      destruct H as [[=]|H]; case_in H; [destruct H as [[=]|[]]|destruct H]
    | exfalso; case_in H; [destruct H as [[=]|[[=]|[]]]|destruct H]
    | exfalso; destruct H as [[=]|[]] ].
Qed.

Lemma X26_rpostback_witness :
  exists wrapper,
    ["timeout"; "--foreground"; "--signal=TERM"; "--kill-after=2"; "12s";
     "/usr/lib/rstudio-server/bin/rpostback"; "--command"; "console_input"; "--argument";
     payload "c0ffee" (escape_code (sent_code print_args)) "1"]
    = wrapper ++ [a_rpostback_bin print_args; "--command"; "console_input"; "--argument";
                  payload (client_id answering) (escape_code (sent_code print_args))
                          (a_id print_args)].
Proof.
  destruct (X26_rpostback_gets_the_wrapped_code print_args [] answering
              ["timeout"; "--foreground"; "--signal=TERM"; "--kill-after=2"; "12s";
               "/usr/lib/rstudio-server/bin/rpostback"; "--command"; "console_input";
               "--argument"; payload "c0ffee" (escape_code (sent_code print_args)) "1"])
    as [(pid & Hps & _)|(_ & _ & _ & _ & H)].
  - left. vm_compute. reflexivity.
  - discriminate Hps.
  - exact H.
Defined.

End TransportScript.

(** ** The estimator *)

Section Estimator.
Import Re Validator Synth Dispatch Repl Spec Text Estimate.

Lemma contains_nl (s : string) : Py.contains nl s = false -> no_newline s = true.
Proof.
  unfold no_newline. induction s as [|c s IH]; [reflexivity|].
  cbn [Py.contains Py.all_chars]. intros H. apply orb_false_iff in H as [Hc Hs].
  rewrite (IH Hs), andb_true_r. unfold Py.is_nl, Py.code.
  destruct (nat_of_ascii c =? 10)%nat eqn:E; [|reflexivity].
  apply Nat.eqb_eq in E. exfalso.
  assert (c = ascii_of_nat 10) as -> by (now rewrite <- E, ascii_nat_embedding).
  destruct s; discriminate Hc.
Qed.

Lemma wait_spec (out_path p : string) (polls : list (option string)) :
  ~ In (Unlink p) (wait out_path polls).2 /\
  (forall argv, ~ In (Run_subprocess argv) (wait out_path polls).2) /\
  ((wait out_path polls).1 = 0%Z \/ (wait out_path polls).1 = 1%Z) /\
  ((wait out_path polls).1 = 0%Z <-> exists content, In (Some content) polls).
Proof.
  induction polls as [|[content|] polls (IH1 & IH2 & IH3 & IH4)]; cbn [wait fst snd In].
  - repeat split; try (intros [[=]|[]]); auto; try discriminate.
    + intros argv [[=]|[]].
    + now intros [? []].
  - repeat split; try (intros [[=]|[[=]|[]]]); auto.
    + intros argv [[=]|[[=]|[]]].
    + intros _. exists content. now left.
  - repeat split; auto.
    + intros [[=]|[[=]|H]]. now apply IH1.
    + intros argv [[=]|[[=]|H]]. now apply (IH2 argv).
    + intros H. apply IH4 in H as [content H]. exists content. now right.
    + intros [content [[=]|H]]. apply IH4. now exists content.
Qed.



End Estimator.

(** ** The syntax check *)

Section SyntaxCheck.
Import Re Validator Synth Dispatch Repl Spec ParseCheck.

Lemma splitlines_nil (s : string) : splitlines s = [] <-> s = EmptyString.
Proof.
  split; [|now intros ->]. destruct s as [|c s]; [reflexivity|]. cbn [splitlines].
  destruct (is_linebreak c).
  - destruct s as [|d s]; [discriminate|]. destruct (_ && _); discriminate.
  - destruct (splitlines s); discriminate.
Qed.

Lemma snippet_window_spec (count : nat) (line_no idx : N) :
  In idx (snippet_window count line_no) <->
  (1 <= idx /\ idx <= N.of_nat count /\ line_no <= idx + 2 /\ idx <= line_no + 2)%N.
Proof.
  unfold snippet_window.
  destruct (N.ltb_spec (N.min (N.of_nat count) (line_no + 2)) (N.max 1 (line_no - 2)))
    as [Hlt|Hle].
  - cbn [In]. split; [intros []|]. lia.
  - rewrite in_map_iff. split.
    + intros (i & <- & Hi). apply in_seq in Hi. lia.
    + intros H. exists (N.to_nat idx). split; [apply N2Nat.id|]. apply in_seq. lia.
Qed.

Lemma snippet_window_length (count : nat) (line_no : N) :
  (length (snippet_window count line_no) <= 5)%nat.
Proof.
  unfold snippet_window.
  destruct (N.ltb_spec (N.min (N.of_nat count) (line_no + 2)) (N.max 1 (line_no - 2)))
    as [Hlt|Hle]; cbn [length]; [lia|].
  rewrite length_map, length_seq. lia.
Qed.

(** X28: the snippet around a parse error is empty exactly for line number
    0 or code without lines; otherwise it is the heading and one row for
    each line whose number is at most two away from the reported one and
    within the code (so at most five rows, none when the reported line is
    more than two past the end), and the row marked [>>] is the reported
    line's and no other. *)
Theorem X28_snippet_window (r_code : string) (line_no : N) :
  let lines := splitlines r_code in
  let window := snippet_window (length lines) line_no in
  (format_parse_error_snippet r_code line_no = EmptyString
   <-> line_no = 0%N \/ r_code = EmptyString) /\
  (format_parse_error_snippet r_code line_no <> EmptyString ->
   format_parse_error_snippet r_code line_no
   = Py.join nl ("R snippet around parse error:" :: map (snippet_row lines line_no) window)) /\
  (forall idx, In idx window <->
     (1 <= idx /\ idx <= N.of_nat (length lines)
      /\ line_no <= idx + 2 /\ idx <= line_no + 2)%N) /\
  (length window <= 5)%nat /\
  (forall idx, In idx window ->
     exists text, nth_error lines (N.to_nat idx - 1) = Some text /\
       snippet_row lines line_no idx
       = (if (idx =? line_no)%N then ">>" else "  ") +:+ " " +:+ pad4 idx +:+ ": " +:+ text).
Proof.
  cbv zeta. split; [|split; [|split; [|split]]].
  - unfold format_parse_error_snippet.
    destruct (N.ltb_spec line_no 1) as [Hlt|Hge]; cbn [orb].
    + split; [intros _; left; lia|reflexivity].
    + destruct (splitlines r_code) as [|l ls] eqn:Hl.
      * apply splitlines_nil in Hl. split; [auto|reflexivity].
      * split.
        -- intros H. exfalso. clear Hl. revert H.
           destruct (map _ _); cbn; discriminate.
        -- intros [H|H]; [lia|]. apply splitlines_nil in H. congruence.
  - unfold format_parse_error_snippet. destruct (_ || _); [congruence|reflexivity].
  - intros idx. apply snippet_window_spec.
  - apply snippet_window_length.
  - intros idx Hin. apply snippet_window_spec in Hin.
    destruct (nth_error (splitlines r_code) (N.to_nat idx - 1)) as [text|] eqn:Hnth.
    + exists text. split; [reflexivity|]. unfold snippet_row.
      now rewrite (nth_error_nth _ _ _ Hnth).
    + apply nth_error_None in Hnth. lia.
Qed.

(** X29: once [check_r_code_parse] has made its two temporary files, it
    ends by removing both, on every path, and removes nothing else; when the
    second cannot be made, it stops at once and the first is left behind.  It
    returns normally exactly when writing the code, running [Rscript] and
    writing the log all succeeded and [Rscript] exited with 0.  The result
    file is written only for a failed parse of a request that expects a
    result, and what is written starts with the [__SYNTAX_ERROR__] line. *)
Theorem X29_syntax_check_cleans_up (r_code : string) (expect_result : bool)
    (out_path : string) (w : CheckWorld) (code_path : string) :
  cw_mkstemp_code w = Ok code_path ->
  let run := check_r_code_parse r_code expect_result out_path w in
  (forall log_path, cw_mkstemp_log w = Ok log_path ->
     exists before,
       run.2 = before ++ [Unlink code_path; Unlink log_path] /\
       forall p, ~ In (Unlink p) before) /\
  (is_ok (cw_mkstemp_log w) = false -> run.2 = []) /\
  (run.1 = Ok tt <->
     is_ok (cw_mkstemp_log w) = true /\ cw_write_code w = Ok tt /\ cw_write_log w = Ok tt /\
     exists proc, cw_rscript w = Ok proc /\ returncode proc = 0%Z) /\
  (forall text, In (Write_text out_path text) run.2 ->
     out_path <> code_path ->
     (forall log_path, cw_mkstemp_log w = Ok log_path -> out_path <> log_path) ->
     expect_result = true /\ run.1 <> Ok tt /\
     Py.startswith ("__SYNTAX_ERROR__" +:+ nl) text = true).
Proof.
  intros Hcode. cbv zeta. unfold check_r_code_parse. rewrite Hcode.
  destruct (cw_mkstemp_log w) as [log_path|e] eqn:Hlog; cbn [is_ok].
  2:{ split; [intros ? [=]|]. split; [reflexivity|]. split.
      - split; [discriminate|]. now intros [[=] _].
      - intros text []. }
  set (body := match cw_write_code w with Ok _ => _ | Raise e => _ end).
  assert (Hbody :
    (forall p, ~ In (Unlink p) body.2) /\
    (body.1 = Ok tt <->
       cw_write_code w = Ok tt /\ cw_write_log w = Ok tt /\
       exists proc, cw_rscript w = Ok proc /\ returncode proc = 0%Z) /\
    (forall text, In (Write_text out_path text) body.2 ->
       out_path <> code_path -> out_path <> log_path ->
       expect_result = true /\ body.1 <> Ok tt /\
       Py.startswith ("__SYNTAX_ERROR__" +:+ nl) text = true)).
  { subst body.
    destruct (cw_write_code w) as [[]|e]; cbn [fst snd].
    2:{ split; [intros p [[=]|[]]|]. split; [split; [discriminate|now intros [[=] _]]|].
        intros text [[= H _]|[]] Hne _. now destruct Hne. }
    destruct (cw_rscript w) as [proc|e]; cbn [fst snd].
    2:{ split; [intros p H; cbn in H; intuition discriminate|].
        split; [split; [discriminate|now intros (_ & _ & ? & [=] & _)]|].
        intros text H Hne _. cbn in H. destruct H as [[= H _]|[[=]|[]]]. now destruct Hne. }
    destruct (cw_write_log w) as [[]|e]; cbn [fst snd].
    2:{ split; [intros p H; cbn in H; intuition discriminate|].
        split; [split; [discriminate|now intros (_ & [=] & _)]|].
        intros text H Hne Hne'. cbn in H.
        destruct H as [[= H _]|[[=]|[[= H _]|[]]]]; [now destruct Hne|now destruct Hne']. }
    destruct (returncode proc =? 0)%Z eqn:Hrc; cbn [negb fst snd].
    { apply Z.eqb_eq in Hrc.
      split; [intros p H; cbn in H; intuition discriminate|].
      split; [split; [intros _; repeat split; eauto|reflexivity]|].
      intros text H Hne Hne'. cbn in H.
      destruct H as [[= H _]|[[=]|[[= H _]|[]]]]; [now destruct Hne|now destruct Hne']. }
    apply Z.eqb_neq in Hrc.
    assert (Hno : ~ (Ok tt = Ok tt /\ Ok tt = Ok tt /\
                     exists proc', Ok proc = Ok proc' /\ returncode proc' = 0%Z)).
    { intros (_ & _ & proc' & [= <-] & H). contradiction. }
    destruct (cw_read_log w) as [parse_out|e]; cbn [fst snd].
    2:{ split; [intros p H; cbn in H; intuition discriminate|].
        split; [split; [discriminate|intros H; destruct (Hno H)]|].
        intros text H Hne Hne'. cbn in H.
        destruct H as [[= H _]|[[=]|[[= H _]|[]]]]; [now destruct Hne|now destruct Hne']. }
    set (snippet := match extract_parse_error_line parse_out with
                    | Some line_no => _ | None => EmptyString end).
    set (ev := (_ ++ _ ++ (if Py.truthy snippet then _ else [])) : list event).
    assert (Hev : (forall p, ~ In (Unlink p) ev) /\
                  forall text, In (Write_text out_path text) ev ->
                               out_path = code_path \/ out_path = log_path).
    { subst ev. split.
      - intros p H. apply in_app_iff in H as [H|H]; [cbn in H; intuition discriminate|].
        apply in_app_iff in H as [H|H]; [cbn in H; intuition discriminate|].
        destruct (Py.truthy snippet); cbn in H; intuition discriminate.
      - intros text H. apply in_app_iff in H as [H|H].
        + cbn in H. destruct H as [[= H _]|[[=]|[[= H _]|[]]]]; auto.
        + apply in_app_iff in H as [H|H]; [cbn in H; intuition discriminate|].
          destruct (Py.truthy snippet); cbn in H; intuition discriminate. }
    destruct Hev as [Hev1 Hev2].
    destruct expect_result.
    - assert (Hout : forall r : result unit,
                (match r with Raise e => (@Raise unit e, ev ++ [Write_text out_path
                    ("__SYNTAX_ERROR__" +:+ nl +:+ parse_out
                     +:+ (if Py.truthy snippet then nl +:+ snippet +:+ nl else EmptyString))])
                 | Ok _ => (Raise syntax_error, ev ++ [Write_text out_path
                    ("__SYNTAX_ERROR__" +:+ nl +:+ parse_out
                     +:+ (if Py.truthy snippet then nl +:+ snippet +:+ nl else EmptyString))])
                 end).1 <> Ok tt) by (intros [[]|?]; discriminate).
      split; [|split].
      + intros p H. destruct (cw_write_out w); cbn [snd] in H;
          apply in_app_iff in H as [H|[[=]|[]]]; now apply Hev1 in H.
      + split; [|intros H; destruct (Hno H)]. intros H. now apply Hout in H.
      + intros text H Hne Hne'. split; [reflexivity|]. split; [apply Hout|].
        assert (H' : In (Write_text out_path text)
                       (ev ++ [Write_text out_path
                                 ("__SYNTAX_ERROR__" +:+ nl +:+ parse_out
                                  +:+ (if Py.truthy snippet then nl +:+ snippet +:+ nl
                                       else EmptyString))]))
          by (destruct (cw_write_out w); exact H).
        apply in_app_iff in H' as [H'|[[= <-]|[]]].
        * apply Hev2 in H' as [?|?]; contradiction.
        * reflexivity.
    - cbn [fst snd]. split; [exact Hev1|].
      split; [split; [discriminate|intros H; destruct (Hno H)]|].
      intros text H Hne Hne'. apply Hev2 in H as [?|?]; contradiction. }
  destruct Hbody as (Hb1 & Hb2 & Hb3). cbn [fst snd].
  split; [intros ? [= <-]; exists body.2; now split|].
  split; [discriminate|].
  split; [rewrite Hb2; split; [now intros ?|now intros [_ ?]]|].
  intros text H Hne Hne'. apply in_app_iff in H as [H|H].
  - apply Hb3; auto.
  - cbn in H. intuition discriminate.
Qed.

Lemma X29_syntax_check_witness :
  exists before,
    (check_r_code_parse "x y" true "/tmp/out.txt" failing_check).2
    = before ++ [Unlink "/tmp/codex_rstudio_check_0.R";
                 Unlink "/tmp/codex_rstudio_check_parse_0.txt"] /\
    forall p, ~ In (Unlink p) before.
Proof.
  exact (proj1 (X29_syntax_check_cleans_up "x y" true "/tmp/out.txt" failing_check
                  "/tmp/codex_rstudio_check_0.R" eq_refl)
               "/tmp/codex_rstudio_check_parse_0.txt" eq_refl).
Defined.

End SyntaxCheck.

(** ** The loop of the REPL *)

Section ReplLoop.
Import Re Validator Synth Dispatch Repl Spec Inputs.

Lemma checked_action (state next : State) (check : result unit) :
  validates check ->
  match (checked state check next).2 with
  | Ok NoAction => True
  | Ok _ => False
  | Raise e => exists msg, e = ValidationError msg
  end.
Proof. destruct check as [?|[]]; cbn; try contradiction; eauto. Qed.

Lemma checked_bool_action (state : State) (next : bool -> State) (value : result bool) :
  validates value ->
  match (checked_bool state value next).2 with
  | Ok NoAction => True
  | Ok _ => False
  | Raise e => exists msg, e = ValidationError msg
  end.
Proof. destruct value as [?|[]]; cbn; try contradiction; eauto. Qed.

Lemma mem_two (x a b : string) : Py.mem x [a; b] = true -> x = a \/ x = b.
Proof.
  unfold Py.mem, Py.eqs. cbn [existsb]. rewrite !orb_true_iff, !String.eqb_eq.
  intuition discriminate.
Qed.

(** What [apply_input_line] can return: [send] only for the line [send],
    [quit] only for [quit] and [exit]; and it raises nothing but a
    [ValidationError]. *)
Lemma apply_input_line_action (state : State) (line : string) :
  match (apply_input_line state line).2 with
  | Ok NoAction => True
  | Ok Send => Py.strip line = "send"
  | Ok Quit => Py.strip line = "quit" \/ Py.strip line = "exit"
  | Raise e => exists msg, e = ValidationError msg
  end.
Proof.
  unfold apply_input_line.
  destruct (Py.is_empty _); [exact I|].
  destruct (Py.mem _ ["help"; "?"]); [exact I|].
  destruct (Py.eqs _ "show"); [exact I|].
  destruct (Py.eqs _ "clear"); [exact I|].
  destruct (Py.eqs (Py.strip line) "send") eqn:Hsend;
    [now apply String.eqb_eq in Hsend|].
  destruct (Py.mem (Py.strip line) ["quit"; "exit"]) eqn:Hquit; [now apply mem_two|].
  destruct (Py.split_once ":" line) as [[prefix text]|]; [|cbn; eauto].
  assert (Hweak : forall r : State * list event * result action,
            match r.2 with
            | Ok NoAction => True | Ok _ => False
            | Raise e => exists msg, e = ValidationError msg
            end ->
            match r.2 with
            | Ok NoAction => True
            | Ok Send => Py.strip line = "send"
            | Ok Quit => Py.strip line = "quit" \/ Py.strip line = "exit"
            | Raise e => exists msg, e = ValidationError msg
            end).
  { intros [[? ?] [[]|?]]; cbn; tauto. }
  repeat match goal with
  | |- context [if ?c then _ else _] => destruct c
  end.
  all: apply Hweak.
  all: lazymatch goal with
       | |- context [checked _ ?check _] =>
           apply checked_action;
           lazymatch check with
           | validate_append_snippet _ => apply validates_append_snippet
           | validate_result_expr _ => apply validates_result_expr
           | validate_modify_global_snippet _ => apply validates_modify_global_snippet
           | ensure_int_string _ _ => apply validates_ensure_int_string
           | raise_if _ _ => apply validates_raise_if
           | validate_state_export_expr _ =>
               unfold validate_state_export_expr;
               repeat first [ apply validates_raise_if | apply validates_common_blocklist
                            | apply validates_assignment_free
                            | apply validates_bind; [|intros _] ]
           | _ => apply validates_create_check
           end
       | |- context [checked_bool _ _ _] =>
           apply checked_bool_action; apply validates_parse_bool
       | _ => cbn; eauto
       end.
Qed.

Lemma handle_ends (e : exn) :
  (handle e).2 = Continue \/
  (e = KeyboardInterrupt /\ (handle e).2 = Propagate KeyboardInterrupt).
Proof. destruct e; cbn; auto. Qed.

(** How a turn can end. *)
Lemma repl_turn_ends (state : State) (line : string) (w : World) :
  let ended := (repl_turn state line w).2 in
  ended = Continue \/
  (ended = Return 0 /\ (Py.strip line = "quit" \/ Py.strip line = "exit")) \/
  (ended = Propagate KeyboardInterrupt /\ Py.strip line = "send").
Proof.
  cbv zeta. unfold repl_turn.
  pose proof (apply_input_line_action state line) as H.
  destruct (apply_input_line state line) as [[state' printed] [[| |]|e]]; cbn [snd] in H.
  - now left.
  - destruct (send_current_state state' w) as [[?|e] ev]; [now left|].
    destruct (handle_ends e) as [He|[-> He]]; destruct (handle _) as [ev' t];
      cbn [snd] in *; subst t; auto.
  - right. left. now split.
  - destruct H as [msg ->]. now left.
Qed.

(** X30: the loop of the REPL ends only by returning 0 (end of input, or
    [quit] or [exit]), by returning 130 (an interrupt at the prompt), or with
    the [KeyboardInterrupt] of an interrupted [send]; no [ValidationError],
    [SendError] or other exception of a turn ends it.  So on lines that are
    not [send], [quit] or [exit], valid or not, it never ends: it goes on
    asking. *)
Theorem X30_repl_ends_only_on_request (state : State) (inputs : list input) :
  match (repl_loop state inputs).2 with
  | Some ended =>
      ended = Return 0 \/ ended = Return 130 \/ ended = Propagate KeyboardInterrupt
  | None => Forall (fun i => exists text w, i = Line text w) inputs
  end /\
  (Forall stays inputs -> (repl_loop state inputs).2 = None).
Proof.
  split.
  - revert state. induction inputs as [|[text w| |] inputs IH]; intros state;
      cbn [repl_loop snd]; auto.
    pose proof (repl_turn_ends state text w) as Ht. cbv zeta in Ht.
    destruct (repl_turn state text w) as [[state' ev] t]. cbn [snd] in Ht.
    destruct Ht as [->|[[-> _]|[-> _]]]; cbn [snd]; auto.
    specialize (IH state'). destruct (repl_loop state' inputs) as [[final ev'] t'].
    cbn [snd] in *. destruct t'; [exact IH|]. constructor; [eauto|exact IH].
  - revert state. induction inputs as [|i inputs IH]; intros state Hall; [reflexivity|].
    apply Forall_cons in Hall as [Hi Hall]. destruct i as [text w| |]; try contradiction.
    destruct Hi as (Hsend & Hquit & Hexit). cbn [repl_loop].
    pose proof (repl_turn_ends state text w) as Ht. cbv zeta in Ht.
    destruct (repl_turn state text w) as [[state' ev] t]. cbn [snd] in Ht.
    destruct Ht as [->|[[_ [H|H]]|[_ H]]]; try contradiction.
    specialize (IH state' Hall). destruct (repl_loop state' inputs) as [[final ev'] t'].
    exact IH.
Qed.

Lemma X30_repl_witness :
  (repl_loop initial_state
     [Line "append: x = 1" (quiet_world 0); Line "bogus" (quiet_world 0);
      Line "id: seven" (quiet_world 0)]).2 = None.
Proof.
  apply (X30_repl_ends_only_on_request initial_state).
  repeat constructor; vm_compute; discriminate.
Defined.

End ReplLoop.
